(** * cnj-validate: decomposition, check digit and jurisdiction classification

    A shallow embedding of the TypeScript sources of cnj-validate
    (core/decomposer.ts, core/validator.ts, core/court-analyzer.ts,
    core/source-unit-analyzer.ts, core/analyzer.ts, csv/processor.ts,
    data/segments.ts, data/districts.ts and the types they use), followed
    by the properties proved about them.

    Conventions.
    - A JavaScript string is a [string]; every [ascii] stands for one
      UTF-16 code unit below 256.  Literals that contain accented letters
      are written as they are in the sources; only their being non-empty
      is ever used.
    - A JavaScript integer-valued number and a BigInt are both [Z].
    - A function that can throw returns [Exc A]; [try_catch] is
      try { .. } catch { .. }.
    - The module-level object DISTRICTS is threaded explicitly: readers take
      the current object, [addDistrict] returns the updated one.  The
      object is its own entries together with its prototype, so that names
      inherited from Object.prototype, and the assignment to __proto__,
      behave as they do in the program. *)

From Stdlib Require Import ZArith Ascii String List Bool Lia.
From Stdlib Require Import Numbers.DecimalString.
From Stdlib Require Import Znumtheory Zpow_facts.
From stdpp Require Import base option list gmap strings.

Import ListNotations.
Local Open Scope string_scope.
Local Open Scope Z_scope.

(** ** The JavaScript primitives the sources call *)

Module JS.

Definition code (c : ascii) : Z := Z.of_N (N_of_ascii c).

(** [\d] of a regular expression without the unicode flag: 0-9. *)
Definition is_digit (c : ascii) : bool :=
  (48 <=? code c) && (code c <=? 57).

Definition digit_value (c : ascii) : Z := code c - 48.

(** WhiteSpace and LineTerminator code units below 256:
    TAB, LF, VT, FF, CR, SP and NBSP. *)
Definition is_white (c : ascii) : bool :=
  ((9 <=? code c) && (code c <=? 13)) || (code c =? 32) || (code c =? 160).

Fixpoint all_chars (p : ascii -> bool) (s : string) : bool :=
  match s with
  | EmptyString => true
  | String c s' => p c && all_chars p s'
  end.

(** [s.includes(c)] for a one-character needle. *)
Fixpoint includes (c : ascii) (s : string) : bool :=
  match s with
  | EmptyString => false
  | String c' s' => Ascii.eqb c' c || includes c s'
  end.

Fixpoint trimStart (s : string) : string :=
  match s with
  | EmptyString => EmptyString
  | String c s' => if is_white c then trimStart s' else s
  end.

Fixpoint trimEnd (s : string) : string :=
  match s with
  | EmptyString => EmptyString
  | String c s' =>
      match trimEnd s' with
      | EmptyString => if is_white c then EmptyString else String c EmptyString
      | t => String c t
      end
  end.

Definition trim (s : string) : string := trimEnd (trimStart s).

(** [s.split(sep)] for a one-character separator: never the empty list. *)
Fixpoint split (sep : ascii) (s : string) : list string :=
  match s with
  | EmptyString => [EmptyString]
  | String c s' =>
      if Ascii.eqb c sep then EmptyString :: split sep s'
      else match split sep s' with
           | h :: t => String c h :: t
           | [] => [String c EmptyString]
           end
  end.

(** [s.substring(a, b)]: both indices are clamped to the length and
    swapped when they come in the wrong order. *)
Definition substring (a b : nat) (s : string) : string :=
  let n := String.length s in
  let a' := Nat.min a n in
  let b' := Nat.min b n in
  String.substring (Nat.min a' b') (Nat.max a' b' - Nat.min a' b') s.

(** [s.replace(/\D/g, '')]. *)
Fixpoint remove_non_digits (s : string) : string :=
  match s with
  | EmptyString => EmptyString
  | String c s' =>
      if is_digit c then String c (remove_non_digits s')
      else remove_non_digits s'
  end.

(** Decimal rendering of an integer: [n.toString()] of a BigInt, and of
    an integer-valued number below 10^21 in absolute value. *)
Definition toString (n : Z) : string :=
  NilZero.string_of_int (Z.to_int n).

Fixpoint repeat_char (c : ascii) (n : nat) : string :=
  match n with
  | O => EmptyString
  | S n' => String c (repeat_char c n')
  end.

(** [s.padStart(n, c)] for a one-character filler. *)
Definition padStart (n : nat) (c : ascii) (s : string) : string :=
  repeat_char c (n - String.length s) ++ s.

(** Value of a digit of radix up to 16, if the code unit is one. *)
Definition radix_digit (radix : Z) (c : ascii) : option Z :=
  let n := code c in
  let v := if (48 <=? n) && (n <=? 57) then n - 48
           else if (97 <=? n) && (n <=? 102) then n - 87
           else if (65 <=? n) && (n <=? 70) then n - 55
           else radix in
  if v <? radix then Some v else None.

(** Horner accumulation over a whole string; fails at the first code
    unit that is not a digit of the radix. *)
Fixpoint digits_from (radix acc : Z) (s : string) : option Z :=
  match s with
  | EmptyString => Some acc
  | String c s' =>
      match radix_digit radix c with
      | Some v => digits_from radix (radix * acc + v) s'
      | None => None
      end
  end.

(** A non-empty run of digits of the radix. *)
Definition digits (radix : Z) (s : string) : option Z :=
  match s with
  | EmptyString => None
  | _ => digits_from radix 0 s
  end.

(** The 0x, 0o and 0b prefixes of a non-decimal literal, in either case. *)
Definition radix_prefix (t : string) : option (Z * string) :=
  match t with
  | String c0 (String c1 r) =>
      if Ascii.eqb c0 "0" then
        if Ascii.eqb c1 "x" || Ascii.eqb c1 "X" then Some (16, r)
        else if Ascii.eqb c1 "o" || Ascii.eqb c1 "O" then Some (8, r)
        else if Ascii.eqb c1 "b" || Ascii.eqb c1 "B" then Some (2, r)
        else None
      else None
  | _ => None
  end.

(** [BigInt(s)] on a string (StringToBigInt): surrounding white space is
    dropped; the empty text is 0; a 0x, 0o or 0b prefix selects the radix
    and takes no sign; otherwise an optional sign and decimal digits.
    [None] is the SyntaxError. *)
Definition BigInt (s : string) : option Z :=
  match trim s with
  | EmptyString => Some 0
  | String c r as t =>
      match radix_prefix t with
      | Some (radix, r') => digits radix r'
      | None =>
          if Ascii.eqb c "+" then digits 10 r
          else if Ascii.eqb c "-" then option_map Z.opp (digits 10 r)
          else digits 10 t
      end
  end.

(** Value of the longest prefix of decimal digits; [seen] records that
    at least one digit was read. *)
Fixpoint digit_prefix (acc : Z) (seen : bool) (s : string) : option Z :=
  match s with
  | EmptyString => if seen then Some acc else None
  | String c s' =>
      if is_digit c then digit_prefix (10 * acc + digit_value c) true s'
      else if seen then Some acc else None
  end.

(** [parseInt(s, 10)]: leading white space is skipped, an optional sign
    is read, then the longest run of decimal digits; [None] is NaN. *)
Definition parseInt (s : string) : option Z :=
  match trimStart s with
  | EmptyString => None
  | String c r as t =>
      if Ascii.eqb c "-" then option_map Z.opp (digit_prefix 0 false r)
      else if Ascii.eqb c "+" then digit_prefix 0 false r
      else digit_prefix 0 false t
  end.

End JS.

(** ** Exceptions *)

(** types/errors.ts *)
Module Errors.

Inductive CNJErrorType : Set :=
| INVALID_FORMAT
| INVALID_LENGTH
| INVALID_VERIFYING_DIGIT
| INVALID_SEGMENT
| INVALID_COURT
| INVALID_SOURCE_UNIT
| INVALID_YEAR
| DISTRICT_NOT_FOUND
| CALCULATION_ERROR.

(** The [details] payload of the class is left out: nothing reads it. *)
Record CNJValidationError : Set := mkCNJValidationError {
  type : CNJErrorType;
  message : string;
  code : string
}.

Definition invalidFormat (received : string) : CNJValidationError :=
  mkCNJValidationError INVALID_FORMAT
    ("Formato CNJ inválido: " ++ received ++
     ". Esperado: NNNNNNN-DD.AAAA.J.CT.0000 ou NNNNNNNDDAAAAJCT0000")
    "INVALID_FORMAT".

Definition invalidLength (received : string) (expectedLength : Z)
  : CNJValidationError :=
  mkCNJValidationError INVALID_LENGTH
    ("Tamanho CNJ inválido: " ++
     JS.toString (Z.of_nat (String.length received)) ++
     ". Esperado: " ++ JS.toString expectedLength ++ " caracteres")
    "INVALID_LENGTH".

Definition invalidSegment (segment : string) : CNJValidationError :=
  mkCNJValidationError INVALID_SEGMENT
    ("Código de segmento inválido: " ++ segment ++ ". Deve ser entre 1 e 9")
    "INVALID_SEGMENT".

Definition invalidCourt (court : string) (segment : Z)
  : CNJValidationError :=
  mkCNJValidationError INVALID_COURT
    ("Código de tribunal inválido: " ++ court ++ " para segmento " ++
     JS.toString segment)
    "INVALID_COURT".

(** Outcome of a call that may throw. *)
Inductive Exc (A : Type) : Type :=
| Return (a : A)
| Throw (e : CNJValidationError).
Arguments Return {A} a.
Arguments Throw {A} e.

Definition bind {A B : Type} (m : Exc A) (k : A -> Exc B) : Exc B :=
  match m with
  | Return a => k a
  | Throw e => Throw e
  end.

(** try { body } catch (e) { handler e } *)
Definition try_catch {A : Type} (body : Exc A)
  (handler : CNJValidationError -> Exc A) : Exc A :=
  match body with
  | Return a => Return a
  | Throw e => handler e
  end.

#[global] Instance Exc_ret : MRet Exc := fun A a => Return a.
#[global] Instance Exc_bind : MBind Exc := fun A B k m => bind m k.

Definition returns {A : Type} (m : Exc A) : Prop := exists a, m = Return a.
Definition throws {A : Type} (m : Exc A) (t : CNJErrorType) : Prop :=
  exists e, m = Throw e /\ type e = t.

End Errors.
Import Errors.

(** ** Static tables *)

(** types/segment.ts and data/segments.ts *)
Module Segments.

Record Segment : Set := mkSegment {
  number : Z;
  name : string;
  short : string
}.

Inductive SegmentCode : Set :=
| STF | CNJ | STJ | TRF | TRT | TRE | STM | TJ | TJM.

Definition SegmentCode_value (c : SegmentCode) : Z :=
  match c with
  | STF => 1 | CNJ => 2 | STJ => 3 | TRF => 4 | TRT => 5
  | TRE => 6 | STM => 7 | TJ => 8 | TJM => 9
  end.

Definition SEGMENT_NAMES (c : SegmentCode) : string :=
  match c with
  | STF => "Supremo Tribunal Federal"
  | CNJ => "Conselho Nacional de Justiça"
  | STJ => "Superior Tribunal de Justiça"
  | TRF => "Justiça Federal"
  | TRT => "Justiça do Trabalho"
  | TRE => "Justiça Eleitoral"
  | STM => "Justiça Militar da União"
  | TJ => "Justiça dos Estados e do Distrito Federal e Territórios"
  | TJM => "Justiça Militar Estadual"
  end.

Definition SEGMENT_SHORTS (c : SegmentCode) : string :=
  match c with
  | STF => "STF" | CNJ => "CNJ" | STJ => "STJ" | TRF => "TRF"
  | TRT => "TRT" | TRE => "TRE" | STM => "STM" | TJ => "TJ"
  | TJM => "TJM"
  end.

Definition segment_of (c : SegmentCode) : Segment :=
  mkSegment (SegmentCode_value c) (SEGMENT_NAMES c) (SEGMENT_SHORTS c).

Definition SEGMENTS : gmap Z Segment :=
  list_to_map
    (map (fun c => (SegmentCode_value c, segment_of c))
         [STF; CNJ; STJ; TRF; TRT; TRE; STM; TJ; TJM]).

(** [getSegment] on a string code, as the decomposer and the analyzer
    call it. *)
Definition getSegment (segmentCode : string) : option Segment :=
  match JS.parseInt segmentCode with
  | None => None
  | Some code =>
      if (code <? 1) || (code >? 9) then None else SEGMENTS !! code
  end.

End Segments.
Import Segments.

(** types/court.ts *)
Module Court.

Record OriginCourt : Set := mkOriginCourt {
  originCourtType : string;
  originCourtNumber : string
}.

(** The string enum CourtType *)
Module CourtType.
Definition ORIGINAL_LAWSUIT : string := "Processo Originário".
Definition MARTIAL_COURT : string := "Tribunal Militar Estadual".
Definition REGION : string := "região".
Definition ESTATE : string := "unidade federativa".
Definition JUDICIAL_CIRCUIT : string := "circunscrição judiciária".
End CourtType.

(** The string enum SpecialCourtCode *)
Module SpecialCourtCode.
Definition ORIGINAL : string := "00".
Definition COUNCIL : string := "90".
End SpecialCourtCode.

Definition MAX_COURT_BY_SEGMENT : gmap Z Z :=
  list_to_map
    [(1, 0); (2, 0); (3, 0); (4, 5); (5, 24); (6, 27); (7, 12); (8, 27);
     (9, 3)].

End Court.
Import Court.

(** types/source-unit.ts *)
Module SourceUnitTypes.

Record SourceUnit : Set := mkSourceUnit {
  sourceUnitType : string;
  sourceUnitNumber : string
}.

(** The string enum SourceUnitType *)
Module SourceUnitType.
Definition JUSTICE_SECTION : string := "subseção judiciária".
Definition LABOR_UNIT : string := "vara do trabalho".
Definition ELECTORAL_UNIT : string := "zona eleitoral".
Definition MILITARY_UNIT : string := "auditoria militar".
Definition CIVIL_UNIT : string := "foro".
Definition COURT_UNIT_SINGLE : string :=
  "competência originária do Tribunal".
Definition COURT_UNIT : string :=
  "competência originária da Turma Recursal".
End SourceUnitType.
Import SourceUnitType.

Definition SOURCE_UNIT_CONFIG : gmap Z string :=
  list_to_map
    [(1, COURT_UNIT_SINGLE); (2, COURT_UNIT_SINGLE); (3, COURT_UNIT_SINGLE);
     (4, JUSTICE_SECTION); (5, LABOR_UNIT); (6, ELECTORAL_UNIT);
     (7, MILITARY_UNIT); (8, CIVIL_UNIT); (9, MILITARY_UNIT)].

End SourceUnitTypes.
Import SourceUnitTypes.

(** ** The district dataset *)

(** types/district.ts and data/districts.ts.  The contents of
    districts.json are not fixed here: every reader takes the current value
    of DISTRICTS. *)
Module Districts.

Record DistrictInfo : Set := mkDistrictInfo {
  sourceUnit : string;
  uf : string;
  district : string
}.

(** The numeric enum MilitaryCourtCodes *)
Module MilitaryCourtCodes.
Definition MG : Z := 13.
Definition RS : Z := 21.
Definition SP : Z := 26.
End MilitaryCourtCodes.

(** DISTRICTS is an ordinary object.  Its entries are its own properties,
    and a read, a write and [in] go through its prototype chain.  The
    prototype is Object.prototype ([None]) until a record is assigned
    under the name __proto__, which installs that record as the prototype.
    A record is an ordinary object with the three fields of DistrictInfo,
    writable and of type string, and Object.prototype as its prototype. *)
Record Dataset : Type := mkDataset {
  own : gmap string DistrictInfo;
  proto : option DistrictInfo
}.

#[global] Instance Dataset_empty : Empty Dataset := mkDataset ∅ None.

(** What reading a property of DISTRICTS evaluates to: an entry (or the
    record installed as prototype), a field of that record, a method of
    Object.prototype, or Object.prototype itself. *)
Inductive Value : Type :=
| an_entry (info : DistrictInfo)
| a_text (s : string)
| a_builtin (name : string)
| the_object_prototype.

(** The data properties of Object.prototype; __proto__ is its one
    accessor. *)
Definition OBJECT_PROTOTYPE_METHODS : list string :=
  ["constructor"; "__defineGetter__"; "__defineSetter__"; "hasOwnProperty";
   "__lookupGetter__"; "__lookupSetter__"; "isPrototypeOf";
   "propertyIsEnumerable"; "toString"; "valueOf"; "toLocaleString"].

(** The own property [key] of a record, if it has one. *)
Definition field (info : DistrictInfo) (key : string) : option string :=
  if String.eqb key "sourceUnit" then Some (sourceUnit info)
  else if String.eqb key "uf" then Some (uf info)
  else if String.eqb key "district" then Some (district info)
  else None.

(** [DISTRICTS[key]]: the own property, else the property of the record
    installed as prototype, else the property of Object.prototype, whose
    __proto__ getter answers the prototype of DISTRICTS; [None] is
    undefined. *)
Definition get (DISTRICTS : Dataset) (key : string) : option Value :=
  match own DISTRICTS !! key with
  | Some info => Some (an_entry info)
  | None =>
      match proto DISTRICTS ≫= (fun record => field record key) with
      | Some s => Some (a_text s)
      | None =>
          if String.eqb key "__proto__" then
            Some (from_option an_entry the_object_prototype (proto DISTRICTS))
          else if bool_decide (key ∈ OBJECT_PROTOTYPE_METHODS) then
            Some (a_builtin key)
          else None
      end
  end.

(** Of the values above only the empty string is falsy. *)
Definition truthy_value (v : Value) : bool :=
  match v with
  | a_text s => negb (String.eqb s "")
  | _ => true
  end.

(** [DISTRICTS[key] || null] *)
Definition getDistrictInfo (DISTRICTS : Dataset) (key : string)
  : option Value :=
  match get DISTRICTS key with
  | Some v => if truthy_value v then Some v else None
  | None => None
  end.

(** [districtInfo?.uf || ''] and [districtInfo?.sourceUnit || '']: only a
    record has these fields. *)
Definition field_or_empty (select : DistrictInfo -> string)
  (districtInfo : option Value) : string :=
  match districtInfo with
  | Some (an_entry info) => select info
  | _ => ""
  end.

Definition generateDistrictKey (segment court sourceUnit : string) : string :=
  segment ++ "." ++ court ++ "." ++ sourceUnit.

(** [DISTRICTS[key] = district]: an own property is overwritten; failing
    that, the name __proto__ reaches the setter of Object.prototype, which
    makes the record the prototype and adds no entry; every other name,
    inherited or new, becomes an own property. *)
Definition addDistrict (key : string) (district : DistrictInfo)
  (DISTRICTS : Dataset) : Dataset :=
  if String.eqb key "__proto__"
     && negb (bool_decide (is_Some (own DISTRICTS !! key)))
  then mkDataset (own DISTRICTS) (Some district)
  else mkDataset (<[key := district]> (own DISTRICTS)) (proto DISTRICTS).

(** [key in DISTRICTS]: the property exists somewhere on the chain. *)
Definition hasDistrict (DISTRICTS : Dataset) (key : string) : bool :=
  bool_decide (is_Some (get DISTRICTS key)).

End Districts.

(** ** types/analysis.ts *)
Module Analysis.

Record DecomposedCNJ : Set := mkDecomposedCNJ {
  lawsuitCNJFormat : string;
  lawsuitNumber : string;
  verifyingDigit : string;
  protocolYear : string;
  segment : string;
  court : string;
  sourceUnit : string;
  argNumber : string;
  district : string;
  uf : string;
  tj : string
}.

(** Optional fields are [option]s; [errorCode] is never assigned. *)
Record ValidationResult : Set := mkValidationResult {
  isValid : bool;
  expectedDigit : option string;
  receivedDigit : option string;
  error : option string
}.

Record AnalysisCNJ : Set := mkAnalysisCNJ {
  receivedCNJ : string;
  validCNJ : bool;
  segmentName : string;
  segmentShort : string;
  sourceUnitType : string;
  sourceUnitNumber : string;
  courtType : string;
  courtNumber : string;
  detailed : DecomposedCNJ
}.

Record CSVProcessingError : Set := mkCSVProcessingError {
  line : Z;
  cnj : string;
  error_text : string
}.

Record CSVProcessingResult : Set := mkCSVProcessingResult {
  totalProcessed : Z;
  validCount : Z;
  invalidCount : Z;
  errors : list CSVProcessingError
}.

End Analysis.
Import Analysis.

(** ** core/decomposer.ts *)
Module Decomposer.

Definition MATH_SUFFIX : string := "00".

(** The object literal handed to [buildDecomposedCNJ] and to
    [validateCNJComponents]. *)
Record Components : Set := mkComponents {
  c_lawsuitNumber : string;
  c_verifyingDigit : string;
  c_protocolYear : string;
  c_segment : string;
  c_court : string;
  c_sourceUnit : string
}.

Definition generateTJCode (segment court uf : string)
  (segmentInfo : option Segment) : string :=
  match segmentInfo with
  | None => ""
  | Some info =>
      let segmentNumber := number info in
      if existsb (Z.eqb segmentNumber) [1; 2; 3; 4; 7] then
        match JS.parseInt court with
        | None => ""
        | Some courtNumber => short info ++ JS.toString courtNumber
        end
      else short info ++ uf
  end.

Definition buildDecomposedCNJ (DISTRICTS : Districts.Dataset)
  (components : Components) : DecomposedCNJ :=
  let 'mkComponents lawsuitNumber verifyingDigit protocolYear segment court
         sourceUnit := components in
  let argNumber :=
    lawsuitNumber ++ protocolYear ++ segment ++ court ++ sourceUnit
      ++ MATH_SUFFIX in
  let districtKey := Districts.generateDistrictKey segment court sourceUnit in
  let districtInfo := Districts.getDistrictInfo DISTRICTS districtKey in
  let segmentInfo := getSegment segment in
  let uf' := Districts.field_or_empty Districts.uf districtInfo in
  let tj := generateTJCode segment court uf' segmentInfo in
  let lawsuitCNJFormat :=
    lawsuitNumber ++ "-" ++ verifyingDigit ++ "." ++ protocolYear ++ "."
      ++ segment ++ "." ++ court ++ "." ++ sourceUnit in
  {| lawsuitCNJFormat := lawsuitCNJFormat;
     lawsuitNumber := lawsuitNumber;
     verifyingDigit := verifyingDigit;
     protocolYear := protocolYear;
     segment := segment;
     court := court;
     sourceUnit := sourceUnit;
     argNumber := argNumber;
     district := Districts.field_or_empty Districts.sourceUnit districtInfo;
     uf := uf';
     tj := tj |}.

Definition decomposeFormattedCNJ (DISTRICTS : Districts.Dataset)
  (cnj : string) : Exc DecomposedCNJ :=
  match JS.split "-" cnj with
  | [lawsuitNumber; rest] =>
      match JS.split "." rest with
      | [verifyingDigit; protocolYear; segment; court; sourceUnit] =>
          Return (buildDecomposedCNJ DISTRICTS
                    (mkComponents lawsuitNumber verifyingDigit protocolYear
                       segment court sourceUnit))
      | _ => Throw (invalidFormat cnj)
      end
  | _ => Throw (invalidFormat cnj)
  end.

Definition decomposeUnformattedCNJ (DISTRICTS : Districts.Dataset)
  (cnj : string) : Exc DecomposedCNJ :=
  if negb (String.length cnj =? 20)%nat then Throw (invalidLength cnj 20)
  else
    Return (buildDecomposedCNJ DISTRICTS
              (mkComponents (JS.substring 0 7 cnj) (JS.substring 7 9 cnj)
                 (JS.substring 9 13 cnj) (JS.substring 13 14 cnj)
                 (JS.substring 14 16 cnj) (JS.substring 16 20 cnj))).

Definition decomposeCNJ (DISTRICTS : Districts.Dataset)
  (cnj : string) : Exc DecomposedCNJ :=
  if (25 <? String.length cnj)%nat || (String.length cnj <? 20)%nat
  then Throw (invalidLength cnj 20)
  else
    let isFormatted := JS.includes "-" cnj in
    if isFormatted then decomposeFormattedCNJ DISTRICTS cnj
    else decomposeUnformattedCNJ DISTRICTS cnj.

(** [/^\d{n}$/.test(s)] *)
Definition test_digits (n : nat) (s : string) : bool :=
  (String.length s =? n)%nat && JS.all_chars JS.is_digit s.

Definition validateCNJComponents (components : Components) : Exc unit :=
  let 'mkComponents lawsuitNumber verifyingDigit protocolYear segment court
         sourceUnit := components in
  if negb (test_digits 7 lawsuitNumber) then
    Throw (mkCNJValidationError INVALID_FORMAT
             "Número do processo deve ter 7 dígitos" "INVALID_LAWSUIT_NUMBER")
  else if negb (test_digits 2 verifyingDigit) then
    Throw (mkCNJValidationError INVALID_FORMAT
             "Dígito verificador deve ter 2 dígitos" "INVALID_VERIFYING_DIGIT")
  else if negb (test_digits 4 protocolYear) then
    Throw (mkCNJValidationError INVALID_FORMAT
             "Protocol year must have 4 digits" "INVALID_PROTOCOL_YEAR")
  else if negb (test_digits 1 segment) then
    Throw (mkCNJValidationError INVALID_FORMAT
             "Segmento deve ter 1 dígito" "INVALID_SEGMENT")
  else if negb (test_digits 2 court) then
    Throw (mkCNJValidationError INVALID_FORMAT
             "Código do tribunal deve ter 2 dígitos" "INVALID_COURT")
  else if negb (test_digits 4 sourceUnit) then
    Throw (mkCNJValidationError INVALID_FORMAT
             "Código da unidade de origem deve ter 4 dígitos"
             "INVALID_SOURCE_UNIT")
  else Return tt.

(** The six fields of a result, as an argument for
    [validateCNJComponents]. *)
Definition components_of (d : DecomposedCNJ) : Components :=
  mkComponents (lawsuitNumber d) (verifyingDigit d) (protocolYear d)
    (segment d) (court d) (sourceUnit d).

End Decomposer.
Import Decomposer.

(** ** core/validator.ts *)
Module Validator.

Definition MOD : Z := 97.
Definition SUB : Z := 98.

(** The [%] of BigInt truncates towards zero: [Z.rem]. *)
Definition calculateVerifyingDigit (argNumber : string) : Exc string :=
  match JS.BigInt argNumber with
  | Some number =>
      let remainder := Z.rem number MOD in
      let digit := SUB - remainder in
      Return (JS.padStart 2 "0" (JS.toString digit))
  | None =>
      Throw (mkCNJValidationError CALCULATION_ERROR
               "Erro no cálculo do dígito verificador" "CALC_ERROR")
  end.

Definition validateCNJ (DISTRICTS : Districts.Dataset)
  (cnj : string) : Exc ValidationResult :=
  try_catch
    (decomposed ← decomposeCNJ DISTRICTS cnj;
     expectedDigit ← calculateVerifyingDigit (argNumber decomposed);
     let isValid := String.eqb (verifyingDigit decomposed) expectedDigit in
     Return {| isValid := isValid;
               expectedDigit := Some expectedDigit;
               receivedDigit := Some (verifyingDigit decomposed);
               error :=
                 if isValid then None
                 else Some ("Dígito verificador inválido. Esperado: "
                              ++ expectedDigit ++ ", Recebido: "
                              ++ verifyingDigit decomposed) |})
    (fun error =>
       Return {| isValid := false;
                 expectedDigit := None;
                 receivedDigit := None;
                 error := Some (message error) |}).

Definition normalizeCNJ (cnj : string) : string := JS.remove_non_digits cnj.

Definition formatCNJ (cnj : string) : Exc string :=
  let normalized := normalizeCNJ cnj in
  if negb (String.length normalized =? 20)%nat then
    Throw (invalidLength cnj 20)
  else
    let lawsuit := JS.substring 0 7 normalized in
    let digit := JS.substring 7 9 normalized in
    let year := JS.substring 9 13 normalized in
    let segment := JS.substring 13 14 normalized in
    let court := JS.substring 14 16 normalized in
    let unit := JS.substring 16 20 normalized in
    Return (lawsuit ++ "-" ++ digit ++ "." ++ year ++ "." ++ segment ++ "."
              ++ court ++ "." ++ unit).

End Validator.
Import Validator.

(** ** core/court-analyzer.ts *)
Module CourtAnalyzer.
Import CourtType SpecialCourtCode.

Definition parseCourt00 (segment : Segment) : Exc OriginCourt :=
  originCourt ←
    (let n := number segment in
     if (n =? 1) || (n =? 2) || (n =? 3) then
       Return (name segment ++ " (" ++ short segment ++ ")")
     else if n =? 5 then Return "Tribunal Superior do Trabalho (TST)"
     else if n =? 6 then Return "Tribunal Superior Eleitoral (TSE)"
     else if (n =? 7) || (n =? 9) then
       Return "Superior Tribunal Militar (STM)"
     else Throw (invalidCourt "00" (number segment)));
  Return {| originCourtType := ORIGINAL_LAWSUIT;
            originCourtNumber := originCourt |}.

Definition parseCourt90 (segment : Segment) : Exc OriginCourt :=
  originCourt ←
    (let n := number segment in
     if n =? 4 then Return "Conselho da Justiça Federal"
     else if n =? 5 then Return "Conselho Superior da Justiça do Trabalho"
     else Throw (invalidCourt "90" (number segment)));
  Return {| originCourtType := ORIGINAL_LAWSUIT;
            originCourtNumber := originCourt |}.

Definition parseMilitaryCourt (courtCode : Z) : Exc OriginCourt :=
  courtName ←
    (if courtCode =? Districts.MilitaryCourtCodes.MG then
       Return "Minas Gerais - MG"
     else if courtCode =? Districts.MilitaryCourtCodes.RS then
       Return "Rio Grande do Sul - RS"
     else if courtCode =? Districts.MilitaryCourtCodes.SP then
       Return "São Paulo - SP"
     else Throw (invalidCourt (JS.toString courtCode) 9));
  Return {| originCourtType := MARTIAL_COURT;
            originCourtNumber := courtName |}.

Definition getCourtTypeAndNumber (segment : Segment) (courtNumber : Z)
  : Exc (string * string) :=
  let n := number segment in
  if (n =? 4) || (n =? 5) then Return (REGION, JS.toString courtNumber)
  else if (n =? 6) || (n =? 8) then Return (ESTATE, JS.toString courtNumber)
  else if n =? 7 then Return (JUDICIAL_CIRCUIT, JS.toString courtNumber)
  else Throw (invalidCourt (JS.toString courtNumber) (number segment)).

(** A segment number without an entry reads [undefined], and every
    comparison with it is false. *)
Definition isCourtValid (segment : Segment) (courtNumber : Z) : bool :=
  match MAX_COURT_BY_SEGMENT !! number segment with
  | Some maxCourt =>
      if maxCourt =? 0 then true
      else (1 <=? courtNumber) && (courtNumber <=? maxCourt)
  | None => false
  end.

Definition parseCourtOther (segment : Segment) (court : string)
  : Exc OriginCourt :=
  match JS.parseInt court with
  | None => Throw (invalidCourt court (number segment))
  | Some courtNumber =>
      if number segment =? 9 then parseMilitaryCourt courtNumber
      else if negb (isCourtValid segment courtNumber) then
        Throw (invalidCourt court (number segment))
      else
        '(courtType, courtNum) ← getCourtTypeAndNumber segment courtNumber;
        Return {| originCourtType := courtType;
                  originCourtNumber := courtNum |}
  end.

Definition getOriginCourt (court : string) (segment : Segment)
  : Exc OriginCourt :=
  if String.eqb court ORIGINAL then parseCourt00 segment
  else if String.eqb court COUNCIL then parseCourt90 segment
  else parseCourtOther segment court.

Definition getMaxCourtBySegment (segmentNumber : Z) : Z :=
  default 0 (MAX_COURT_BY_SEGMENT !! segmentNumber).

End CourtAnalyzer.
Import CourtAnalyzer.

(** ** core/source-unit-analyzer.ts *)
Module SourceUnitAnalyzer.
Import SourceUnitType.

Definition isFirstDigit9 (sourceUnit : string) : bool :=
  match sourceUnit with
  | String c _ => Ascii.eqb c "9"
  | EmptyString => false
  end.

Definition isZeroSequence (sourceUnit : string) : bool :=
  String.eqb sourceUnit "0000".

(** The enum values are non-empty strings, so [||] only replaces a
    missing entry. *)
Definition getSourceUnit (sourceUnit : string) (segment : Segment)
  : SourceUnit :=
  if isZeroSequence sourceUnit then
    {| SourceUnitTypes.sourceUnitType := COURT_UNIT_SINGLE;
       SourceUnitTypes.sourceUnitNumber := sourceUnit |}
  else if isFirstDigit9 sourceUnit then
    {| SourceUnitTypes.sourceUnitType := COURT_UNIT;
       SourceUnitTypes.sourceUnitNumber := sourceUnit |}
  else
    let unitType := default CIVIL_UNIT (SOURCE_UNIT_CONFIG !! number segment) in
    {| SourceUnitTypes.sourceUnitType := unitType;
       SourceUnitTypes.sourceUnitNumber := sourceUnit |}.

Definition isValidSourceUnit (sourceUnit : string) : bool :=
  test_digits 4 sourceUnit.

End SourceUnitAnalyzer.
Import SourceUnitAnalyzer.

(** ** core/analyzer.ts *)
Module Analyzer.

(** Every exception raised below is a CNJValidationError, which the
    catch clause rethrows unchanged. *)
Definition analyzeCNJ (DISTRICTS : Districts.Dataset)
  (cnj : string) : Exc AnalysisCNJ :=
  try_catch
    (decomposed ← decomposeCNJ DISTRICTS cnj;
     validation ← validateCNJ DISTRICTS cnj;
     segment ← match getSegment (Analysis.segment decomposed) with
               | Some segment => Return segment
               | None => Throw (invalidSegment (Analysis.segment decomposed))
               end;
     let sourceUnit := getSourceUnit (Analysis.sourceUnit decomposed) segment in
     originCourt ← getOriginCourt (Analysis.court decomposed) segment;
     Return {| receivedCNJ := cnj;
               validCNJ := isValid validation;
               segmentName := name segment;
               segmentShort := short segment;
               sourceUnitType := SourceUnitTypes.sourceUnitType sourceUnit;
               sourceUnitNumber := SourceUnitTypes.sourceUnitNumber sourceUnit;
               courtType := originCourtType originCourt;
               courtNumber := originCourtNumber originCourt;
               detailed := decomposed |})
    (fun error => Throw error).

End Analyzer.
Import Analyzer.

(** ** csv/processor.ts *)
Module Processor.

(** [xs.forEach((x, index) => ..)] with the mutated locals as state. *)
Fixpoint forEach {A S : Type} (f : S -> A -> Z -> S) (index : Z)
  (xs : list A) (st : S) : S :=
  match xs with
  | [] => st
  | x :: xs' => forEach f (index + 1) xs' (f st x index)
  end.

(** A string is truthy when it is not empty. *)
Definition truthy (s : string) : bool := negb (String.eqb s "").

Definition error_result (cnj errorMessage : string) : AnalysisCNJ :=
  {| receivedCNJ := cnj;
     validCNJ := false;
     segmentName := errorMessage;
     segmentShort := "ERRO";
     sourceUnitType := errorMessage;
     sourceUnitNumber := "";
     courtType := errorMessage;
     courtNumber := "";
     detailed := mkDecomposedCNJ "" "" "" "" "" "" "" "" "" "" "" |}.

(** Body of the callback of [lines.forEach]; the state is the pair of the
    arrays [results] and [errors], [push] appends. *)
Definition processLine (DISTRICTS : Districts.Dataset)
  (separator : ascii)
  (st : list AnalysisCNJ * list CSVProcessingError) (line : string)
  (index : Z) : list AnalysisCNJ * list CSVProcessingError :=
  let '(results, errors) := st in
  let cnj := JS.trim (hd "" (JS.split separator line)) in
  if negb (truthy cnj) then
    (results,
     errors ++ [mkCSVProcessingError (index + 1) line
                  "Linha vazia ou CNJ não encontrado"])%list
  else
    match analyzeCNJ DISTRICTS cnj with
    | Return analysis => ((results ++ [analysis])%list, errors)
    | Throw error =>
        let errorMessage := message error in
        ((results ++ [error_result cnj errorMessage])%list,
         (errors ++ [mkCSVProcessingError (index + 1) cnj errorMessage])%list)
    end.

(** [separator] is the option of that name, ',' when it is left out. *)
Definition processCSV (DISTRICTS : Districts.Dataset)
  (csvContent : string) (separator : ascii) : CSVProcessingResult :=
  let lines :=
    List.filter (fun line => truthy (JS.trim line))
      (JS.split "010" csvContent) in
  let '(results, errors) :=
    forEach (processLine DISTRICTS separator) 0 lines ([], []) in
  let validCount := Z.of_nat (length (List.filter validCNJ results)) in
  let invalidCount := Z.of_nat (length results) - validCount in
  {| totalProcessed := Z.of_nat (length lines);
     validCount := validCount;
     invalidCount := invalidCount;
     errors := errors |}.

End Processor.
Import Processor.

(** ** Further primitives *)

Module JSMore.

(** [xs.join(sep)] *)
Fixpoint join (sep : string) (xs : list string) : string :=
  match xs with
  | [] => EmptyString
  | [x] => x
  | x :: xs' => x ++ sep ++ join sep xs'
  end.

(** [s.slice(a, b)] for indices that are not negative: both are clamped to
    the length, and nothing is taken when they cross. *)
Definition slice (a b : nat) (s : string) : string :=
  let n := String.length s in
  let from := Nat.min a n in
  let to := Nat.min b n in
  String.substring from (to - from) s.

(** Every double quote of [s] is written twice: the global replace of
    the escaping in [generateCSV]. *)
Fixpoint double_quotes (s : string) : string :=
  match s with
  | EmptyString => EmptyString
  | String c s' =>
      if Ascii.eqb c "034" then String "034" (String "034" (double_quotes s'))
      else String c (double_quotes s')
  end.

End JSMore.

(** ** The rest of core/decomposer.ts *)
Module Extract.

Definition extractYear (DISTRICTS : Districts.Dataset)
  (cnj : string) : string :=
  match decomposeCNJ DISTRICTS cnj with
  | Return decomposed => protocolYear decomposed
  | Throw _ => ""
  end.

Definition extractSegment (DISTRICTS : Districts.Dataset)
  (cnj : string) : string :=
  match decomposeCNJ DISTRICTS cnj with
  | Return decomposed => segment decomposed
  | Throw _ => ""
  end.

Definition extractCourt (DISTRICTS : Districts.Dataset)
  (cnj : string) : string :=
  match decomposeCNJ DISTRICTS cnj with
  | Return decomposed => court decomposed
  | Throw _ => ""
  end.

Definition isFromYear (DISTRICTS : Districts.Dataset)
  (cnj year : string) : bool :=
  String.eqb (extractYear DISTRICTS cnj) year.

Definition isFromSegment (DISTRICTS : Districts.Dataset)
  (cnj segment : string) : bool :=
  String.eqb (extractSegment DISTRICTS cnj) segment.

End Extract.
Import Extract.

(** ** The rest of core/validator.ts *)
Module Format.

Definition validateCNJFormat (DISTRICTS : Districts.Dataset)
  (cnj : string) : bool :=
  match decomposeCNJ DISTRICTS cnj with
  | Return _ => true
  | Throw _ => false
  end.

Definition isValidCNJ (DISTRICTS : Districts.Dataset)
  (cnj : string) : Exc bool :=
  result ← validateCNJ DISTRICTS cnj; Return (isValid result).

(** The three answers of [detectCNJFormat]. *)
Inductive Detected : Set := formatted | unformatted | invalid.

Definition detectCNJFormat (cnj : string) : Detected :=
  let normalized := normalizeCNJ cnj in
  if negb (String.length normalized =? 20)%nat then invalid
  else if JS.includes "-" cnj && JS.includes "." cnj then formatted
  else if test_digits 20 cnj then unformatted
  else invalid.

End Format.
Import Format.

(** ** The rest of data/segments.ts and core/source-unit-analyzer.ts *)
Module Lookup.

(** [isValidSegmentCode] on a string code. *)
Definition isValidSegmentCode (code : string) : bool :=
  match JS.parseInt code with
  | None => false
  | Some numCode =>
      (1 <=? numCode) && (numCode <=? 9)
      && bool_decide (is_Some (SEGMENTS !! numCode))
  end.

Definition getSourceUnitTypeBySegment (segmentNumber : Z) : string :=
  default SourceUnitType.CIVIL_UNIT (SOURCE_UNIT_CONFIG !! segmentNumber).

End Lookup.
Import Lookup.

(** ** The rest of core/analyzer.ts *)
Module Complete.

Definition isValidCNJComplete (DISTRICTS : Districts.Dataset)
  (cnj : string) : bool :=
  match analyzeCNJ DISTRICTS cnj with
  | Return analysis => validCNJ analysis
  | Throw _ => false
  end.

(** An element of the array [analyzeCNJBatch] returns: an analysis, or the
    pair of an error message and the identifier. *)
Definition analyzeCNJBatch (DISTRICTS : Districts.Dataset)
  (cnjs : list string) : list (AnalysisCNJ + string * string) :=
  map (fun cnj =>
         match analyzeCNJ DISTRICTS cnj with
         | Return analysis => inl analysis
         | Throw error => inr (message error, cnj)
         end)
      cnjs.

End Complete.
Import Complete.

(** The two wrappers of index.ts *)
Module Index.

Definition isValid (DISTRICTS : Districts.Dataset)
  (cnj : string) : Exc bool :=
  isValidCNJ DISTRICTS cnj.

Definition analyze (DISTRICTS : Districts.Dataset)
  (cnj : string) : option AnalysisCNJ :=
  match analyzeCNJ DISTRICTS cnj with
  | Return analysis => Some analysis
  | Throw _ => None
  end.

End Index.

(** ** The rest of csv/processor.ts *)
Module Batch.

(** Body of the callback of [cnjs.forEach] in [processCNJBatch]. *)
Definition processItem (DISTRICTS : Districts.Dataset)
  (st : list AnalysisCNJ * list CSVProcessingError) (cnj : string)
  (index : Z) : list AnalysisCNJ * list CSVProcessingError :=
  let '(results, errors) := st in
  match analyzeCNJ DISTRICTS (JS.trim cnj) with
  | Return analysis => ((results ++ [analysis])%list, errors)
  | Throw error =>
      (results,
       (errors ++ [mkCSVProcessingError (index + 1) cnj (message error)])%list)
  end.

Definition processCNJBatch (DISTRICTS : Districts.Dataset)
  (cnjs : list string) : CSVProcessingResult :=
  let '(results, errors) :=
    forEach (processItem DISTRICTS) 0 cnjs ([], []) in
  let validCount := Z.of_nat (length (List.filter validCNJ results)) in
  let invalidCount := Z.of_nat (length results) - validCount in
  {| totalProcessed := Z.of_nat (length cnjs);
     validCount := validCount;
     invalidCount := invalidCount;
     errors := errors |}.

(** [separator] is a one-character string, ',' when it is left out. *)
Definition validateCSVFormat (content : string) (separator : ascii) : bool :=
  if negb (truthy content) || (String.length (JS.trim content) =? 0)%nat
  then false
  else
    let lines :=
      List.filter (fun line => truthy (JS.trim line))
        (JS.split "010" content) in
    if (length lines =? 0)%nat then false
    else
      forallb
        (fun line =>
           let fields := JS.split separator line in
           (0 <? length fields)%nat
           && (0 <? String.length (JS.trim (hd "" fields)))%nat)
        lines.

(** The letters outside ASCII are written as in the source file; nothing
    below depends on the number of characters they take. *)
Definition headers : list string :=
  ["CNJ_original"; "CNJ_é_válido"; "Segmento"; "Segmento_short";
   "Tipo_Unidade_Judiciária"; "Número_Unidade_Judiciária";
   "Nome_Unidade_Judiciária"; "Tipo_Região"; "Número_Região"; "Nome_Região";
   "Número_Processo"; "Dígito_Verificador"; "Ano_Protocolo";
   "Poder_Judiciário"; "Região"; "Unidade_Judiciária"].

(** The cells of one row, before escaping. *)
Definition row (analysis : AnalysisCNJ) : list string :=
  [receivedCNJ analysis;
   if validCNJ analysis then "true" else "false";
   segmentName analysis;
   segmentShort analysis;
   sourceUnitType analysis;
   sourceUnitNumber analysis;
   district (detailed analysis);
   courtType analysis;
   courtNumber analysis;
   uf (detailed analysis);
   lawsuitNumber (detailed analysis);
   verifyingDigit (detailed analysis);
   protocolYear (detailed analysis);
   segment (detailed analysis);
   court (detailed analysis);
   sourceUnit (detailed analysis)].

Definition escape (cell : string) : string :=
  if JS.includes "," cell || JS.includes "034" cell || JS.includes "010" cell
  then String "034" (JSMore.double_quotes cell ++ String "034" EmptyString)
  else cell.

Definition generateCSV (analyses : list AnalysisCNJ) (includeHeader : bool)
  : string :=
  let rows := map row analyses in
  let lines :=
    ((if includeHeader then [JSMore.join "," headers] else [])
     ++ map (fun r => JSMore.join "," (map escape r)) rows)%list in
  JSMore.join (String "010" EmptyString) lines.

End Batch.
Import Batch.

(** ** utils/formatters.ts: the functions on identifiers *)
Module Formatters.

(** The [Error] thrown carries only its message: [inl]. *)
Definition formatCNJWithMask (cnj : string) : string + string :=
  let clean := JS.remove_non_digits cnj in
  if negb (String.length clean =? 20)%nat then
    inl "CNJ deve ter exatamente 20 dígitos"
  else
    inr (JSMore.slice 0 7 clean ++ "-" ++ JSMore.slice 7 9 clean ++ "."
           ++ JSMore.slice 9 13 clean ++ "." ++ JSMore.slice 13 14 clean
           ++ "." ++ JSMore.slice 14 16 clean ++ "."
           ++ JSMore.slice 16 20 clean).

Definition removeCNJMask (cnj : string) : string := JS.remove_non_digits cnj.

Definition formatLawsuitNumber (lawsuitNumber : string) : string :=
  if negb (String.length lawsuitNumber =? 7)%nat then lawsuitNumber
  else JSMore.slice 0 7 lawsuitNumber.

End Formatters.

(** ** Notions the further properties are stated with *)

Fixpoint count_char (c : ascii) (s : string) : nat :=
  match s with
  | EmptyString => 0
  | String c' s' => (if Ascii.eqb c' c then 1 else 0) + count_char c s'
  end.

(** The six fields of a result, in the order of the compact syntax. *)
Definition six_fields (d : DecomposedCNJ) : string :=
  lawsuitNumber d ++ verifyingDigit d ++ protocolYear d ++ segment d
    ++ court d ++ sourceUnit d.

(** The lines [processCSV] keeps: those that are not blank. *)
Definition kept_lines (csvContent : string) : list string :=
  List.filter (fun line => truthy (JS.trim line)) (JS.split "010" csvContent).

(** The identifier [processCSV] reads on a line. *)
Definition first_field (separator : ascii) (text : string) : string :=
  JS.trim (hd "" (JS.split separator text)).

(** Two strings of digits of the same length that differ in exactly one
    digit. *)
Inductive one_digit_apart : string -> string -> Prop :=
| apart_here c c' s :
    JS.is_digit c = true -> JS.is_digit c' = true -> c <> c' ->
    JS.all_chars JS.is_digit s = true ->
    one_digit_apart (String c s) (String c' s)
| apart_later c s s' :
    JS.is_digit c = true -> one_digit_apart s s' ->
    one_digit_apart (String c s) (String c s').

(** Two strings of digits of which one is the other with two adjacent,
    different digits exchanged. *)
Inductive adjacent_swapped : string -> string -> Prop :=
| swapped_here a b s :
    JS.is_digit a = true -> JS.is_digit b = true -> a <> b ->
    JS.all_chars JS.is_digit s = true ->
    adjacent_swapped (String a (String b s)) (String b (String a s))
| swapped_later c s s' :
    JS.is_digit c = true -> adjacent_swapped s s' ->
    adjacent_swapped (String c s) (String c s').

(** ** Notions the properties are stated with *)

(** A string read as a decimal numeral, most significant digit first. *)
Definition decimal_value (s : string) : Z :=
  fold_left (fun acc c => 10 * acc + JS.digit_value c)
    (list_ascii_of_string s) 0.

Definition all_digits (s : string) : Prop :=
  JS.all_chars JS.is_digit s = true.

(** The lines of a text paired with their 1-based positions in it. *)
Definition numbered_lines (csvContent : string) : list (Z * string) :=
  forEach (fun acc line index => (acc ++ [(index + 1, line)])%list) 0
    (JS.split "010" csvContent) [].

(** Positions, in the text, of the lines for which [processLine] records an
    error: the line numbers a reader of the input would use. *)
Definition failing_positions (DISTRICTS : Districts.Dataset)
  (csvContent : string) (separator : ascii) : list Z :=
  map fst
    (List.filter
       (fun '(_, line) =>
          truthy (JS.trim line) &&
          match processLine DISTRICTS separator ([], []) line 0 with
          | (_, []) => false
          | _ => true
          end)
       (numbered_lines csvContent)).

(** The five fields that enter the check digit, in order. *)
Definition five_fields (d : DecomposedCNJ) : string :=
  lawsuitNumber d ++ protocolYear d ++ segment d ++ court d ++ sourceUnit d.

Definition digits_of_length (n : nat) (s : string) : Prop :=
  String.length s = n /\ all_digits s.

(** The texts StringToBigInt accepts once white space is trimmed: nothing,
    decimal digits with an optional sign, or digits of radix 16, 8 or 2
    behind the matching prefix. *)
Definition digit_run (radix : Z) (s : string) : Prop :=
  s <> EmptyString /\
  JS.all_chars (fun c => bool_decide (is_Some (JS.radix_digit radix c))) s
  = true.

Definition radix_letters : list (ascii * Z) :=
  [("x"%char, 16); ("X"%char, 16); ("o"%char, 8); ("O"%char, 8);
   ("b"%char, 2); ("B"%char, 2)].

Inductive integer_text : string -> Prop :=
| text_empty : integer_text EmptyString
| text_decimal s : digit_run 10 s -> integer_text s
| text_plus s : digit_run 10 s -> integer_text (String "+" s)
| text_minus s : digit_run 10 s -> integer_text (String "-" s)
| text_radix c radix s :
    In (c, radix) radix_letters -> digit_run radix s ->
    integer_text (String "0" (String c s)).

Definition LF : string := String "010" EmptyString.

(** Two valid identifiers, a blank line and a malformed line. *)
Definition csv_sample : string :=
  "0001327-64.2018.8.26.0158" ++ LF ++ LF ++
  "invalid-cnj" ++ LF ++ "0001328-12.2019.8.26.0159".

(** The masked shape: six parts, the first free of hyphens, the others free
    of hyphens and dots. *)
Definition masked (cnj : string) (c : Components) : Prop :=
  cnj = c_lawsuitNumber c ++ "-" ++ c_verifyingDigit c ++ "."
          ++ c_protocolYear c ++ "." ++ c_segment c ++ "." ++ c_court c
          ++ "." ++ c_sourceUnit c /\
  JS.includes "-" (c_lawsuitNumber c) = false /\
  Forall (fun s => JS.includes "-" s = false /\ JS.includes "." s = false)
    [c_verifyingDigit c; c_protocolYear c; c_segment c; c_court c;
     c_sourceUnit c].

(** The compact shape: the six slices of a text of 20 characters. *)
Definition compact_slices (cnj : string) : Components :=
  mkComponents (JS.substring 0 7 cnj) (JS.substring 7 9 cnj)
    (JS.substring 9 13 cnj) (JS.substring 13 14 cnj)
    (JS.substring 14 16 cnj) (JS.substring 16 20 cnj).

(** The mask written around the six slices of 20 digits. *)
Definition mask_of (n : string) : string :=
  JS.substring 0 7 n ++ "-" ++ JS.substring 7 9 n ++ "."
    ++ JS.substring 9 13 n ++ "." ++ JS.substring 13 14 n ++ "."
    ++ JS.substring 14 16 n ++ "." ++ JS.substring 16 20 n.

(** The analyses and the failures in what [analyzeCNJBatch] returns, each
    in the order of the array. *)
Definition analyses_of (out : list (AnalysisCNJ + string * string))
  : list AnalysisCNJ :=
  flat_map (fun x => match x with inl a => [a] | inr _ => [] end) out.

Definition failures_of (out : list (AnalysisCNJ + string * string))
  : list (string * string) :=
  flat_map (fun x => match x with inl _ => [] | inr p => [p] end) out.

(** What an error entry of [processCNJBatch] says about the array. *)
Definition item_error (DISTRICTS : Districts.Dataset)
  (cnjs : list string) (e : CSVProcessingError) : Prop :=
  1 <= line e /\
  nth_error cnjs (Z.to_nat (line e - 1)) = Some (cnj e) /\
  exists err, analyzeCNJ DISTRICTS (JS.trim (cnj e)) = Throw err /\
              error_text e = message err.

(** What an error entry of [processCSV] says about the lines that are not
    blank: an empty first field leaves the whole line in [cnj], a failed
    analysis leaves the trimmed first field there. *)
Definition line_error (DISTRICTS : Districts.Dataset)
  (separator : ascii) (kept : list string) (e : CSVProcessingError) : Prop :=
  1 <= line e /\
  exists text,
    nth_error kept (Z.to_nat (line e - 1)) = Some text /\
    ((first_field separator text = "" /\ cnj e = text /\
      error_text e = "Linha vazia ou CNJ não encontrado") \/
     (first_field separator text <> "" /\
      cnj e = first_field separator text /\
      exists err,
        analyzeCNJ DISTRICTS (first_field separator text) = Throw err /\
        error_text e = message err)).

(** The line has a first field that is not blank. *)
Definition has_cnj (separator : ascii) (text : string) : bool :=
  truthy (first_field separator text).

(** The analysis of the first field of the line fails. *)
Definition analysis_fails (DISTRICTS : Districts.Dataset)
  (separator : ascii) (text : string) : bool :=
  match analyzeCNJ DISTRICTS (first_field separator text) with
  | Return _ => false
  | Throw _ => true
  end.

(** [xs.filter(p).length] *)
Definition count {A : Type} (p : A -> bool) (l : list A) : Z :=
  Z.of_nat (length (List.filter p l)).

(** A cell that [escape] leaves as it is. *)
Definition plain (cell : string) : Prop :=
  JS.includes "," cell = false /\ JS.includes "034" cell = false /\
  JS.includes "010" cell = false.

(** * Properties *)

Example split_ex1 : JS.split "-" "a-b-" = ["a"; "b"; ""].
Proof. reflexivity. Qed.
Example bigint_ex1 : JS.BigInt " 0x1F " = Some 31.
Proof. reflexivity. Qed.
Example bigint_ex2 : JS.BigInt "invalid" = None.
Proof. reflexivity. Qed.
Example bigint_ex3 : JS.BigInt "-5" = Some (-5).
Proof. reflexivity. Qed.
Example tostring_ex : JS.toString 0 = "0" /\ JS.toString (-12) = "-12" /\ JS.toString 103 = "103".
Proof. repeat split; reflexivity. Qed.
Example parseInt_ex : JS.parseInt " 26x" = Some 26 /\ JS.parseInt "x" = None /\ JS.parseInt "-07" = Some (-7).
Proof. repeat split; reflexivity. Qed.
Example trim_ex : JS.trim "  a b  " = "a b".
Proof. reflexivity. Qed.
Example substring_ex : JS.substring 7 9 "00013276420188260158" = "64".
Proof. reflexivity. Qed.

Example decimal_value_ex :
  decimal_value "00013272018826015800" = 13272018826015800.
Proof. reflexivity. Qed.

Example decompose_ex :
  exists d, decomposeCNJ ∅ "0001327-64.2018.8.26.0158" = Return d /\
    argNumber d = "00013272018826015800" /\ tj d = "TJ" /\ segment d = "8".
Proof. eexists. split; [reflexivity|]. repeat split; vm_compute; reflexivity. Qed.

(** ** Code units *)

Ltac each_ascii c := destruct c as [[] [] [] [] [] [] [] []].

Lemma digit_facts (c : ascii) :
  JS.is_digit c = true ->
  JS.is_white c = false /\
  JS.radix_digit 10 c = Some (JS.digit_value c) /\
  0 <= JS.digit_value c <= 9 /\
  Ascii.eqb c "-" = false /\ Ascii.eqb c "." = false /\
  Ascii.eqb c "+" = false /\
  (Ascii.eqb c "x" || Ascii.eqb c "X") = false /\
  (Ascii.eqb c "o" || Ascii.eqb c "O") = false /\
  (Ascii.eqb c "b" || Ascii.eqb c "B") = false.
Proof.
  each_ascii c; vm_compute; intros H; try discriminate H;
    repeat split; congruence.
Qed.

(** ** Strings of digits *)

Lemma all_digits_cons (c : ascii) (s : string) :
  all_digits (String c s) <-> JS.is_digit c = true /\ all_digits s.
Proof. unfold all_digits; simpl. apply andb_true_iff. Qed.

Lemma trimStart_digits (s : string) : all_digits s -> JS.trimStart s = s.
Proof.
  destruct s as [|c s]; [reflexivity|].
  intros [Hc _]%all_digits_cons. simpl.
  destruct (digit_facts c Hc) as [-> _]. reflexivity.
Qed.

Lemma trimEnd_digits (s : string) : all_digits s -> JS.trimEnd s = s.
Proof.
  induction s as [|c s IH]; [reflexivity|].
  intros [Hc Hs]%all_digits_cons. simpl. rewrite (IH Hs).
  destruct (digit_facts c Hc) as [-> _]. destruct s; reflexivity.
Qed.

Lemma trim_digits (s : string) : all_digits s -> JS.trim s = s.
Proof.
  intros H. unfold JS.trim. rewrite (trimStart_digits s H).
  apply trimEnd_digits, H.
Qed.

Lemma digits_from_decimal (s : string) (acc : Z) :
  all_digits s ->
  JS.digits_from 10 acc s =
  Some (fold_left (fun a c => 10 * a + JS.digit_value c)
          (list_ascii_of_string s) acc).
Proof.
  revert acc. induction s as [|c s IH]; intros acc; [reflexivity|].
  intros [Hc Hs]%all_digits_cons. simpl.
  destruct (digit_facts c Hc) as (_ & -> & _). apply IH, Hs.
Qed.

Lemma decimal_fold_nonneg (s : string) (acc : Z) :
  all_digits s -> 0 <= acc ->
  0 <= fold_left (fun a c => 10 * a + JS.digit_value c)
         (list_ascii_of_string s) acc.
Proof.
  revert acc. induction s as [|c s IH]; intros acc; [intros _ H; exact H|].
  intros [Hc Hs]%all_digits_cons Hacc. simpl. apply IH; [exact Hs|].
  destruct (digit_facts c Hc) as (_ & _ & Hv & _). lia.
Qed.

Lemma decimal_value_nonneg (s : string) : all_digits s -> 0 <= decimal_value s.
Proof. intros H. apply decimal_fold_nonneg; [exact H | lia]. Qed.

(** On a non-empty string of decimal digits BigInt reads the numeral. *)
Lemma BigInt_digits (s : string) :
  s <> EmptyString -> all_digits s -> JS.BigInt s = Some (decimal_value s).
Proof.
  intros Hne Hs. unfold JS.BigInt. rewrite (trim_digits s Hs).
  destruct s as [|c s]; [congruence|].
  pose proof Hs as [Hc Hs']%all_digits_cons.
  destruct (digit_facts c Hc) as (_ & _ & _ & Hm & _ & Hp & _).
  assert (Hpre : JS.radix_prefix (String c s) = None).
  { destruct s as [|c1 s]; [reflexivity|]. simpl.
    apply all_digits_cons in Hs' as [Hc1 _].
    destruct (digit_facts c1 Hc1) as (_ & _ & _ & _ & _ & _ & -> & -> & ->).
    destruct (Ascii.eqb c "0"); reflexivity. }
  rewrite Hpre, Hp, Hm. unfold JS.digits.
  apply digits_from_decimal, Hs.
Qed.

(** The rendering of a check digit has exactly two characters. *)
Lemma pad2_length (d : Z) :
  2 <= d <= 98 -> String.length (JS.padStart 2 "0" (JS.toString d)) = 2%nat.
Proof.
  intros Hd.
  assert (Hall : forallb
            (fun n => (String.length
                         (JS.padStart 2 "0" (JS.toString (Z.of_nat n))) =? 2)%nat)
            (seq 2 97) = true) by (vm_compute; reflexivity).
  rewrite forallb_forall in Hall.
  specialize (Hall (Z.to_nat d)). rewrite Z2Nat.id in Hall by lia.
  apply Nat.eqb_eq, Hall, in_seq. lia.
Qed.

(** ** The check digit (C1) *)

(** C1.  For every 20-character string of decimal digits,
    calculateVerifyingDigit returns 98 - (N mod 97) in decimal, N being the
    string read as a non-negative integer, left-padded with '0' to exactly
    two characters; and for "0001327-64.2018.8.26.0158" the expected digit
    is "64" and validateCNJ answers isValid = true, whatever the district
    dataset holds. *)
Theorem check_digit_is_98_minus_mod_97 (argNumber : string) :
  String.length argNumber = 20%nat ->
  all_digits argNumber ->
  calculateVerifyingDigit argNumber =
    Return (JS.padStart 2 "0"
              (JS.toString (98 - decimal_value argNumber mod 97))) /\
  String.length
    (JS.padStart 2 "0" (JS.toString (98 - decimal_value argNumber mod 97)))
    = 2%nat /\
  (forall DISTRICTS,
      exists d r,
        decomposeCNJ DISTRICTS "0001327-64.2018.8.26.0158" = Return d /\
        calculateVerifyingDigit (Analysis.argNumber d) = Return "64" /\
        validateCNJ DISTRICTS "0001327-64.2018.8.26.0158" = Return r /\
        expectedDigit r = Some "64" /\ isValid r = true).
Proof.
  intros Hlen Hdig.
  assert (Hne : argNumber <> EmptyString) by (intros ->; discriminate Hlen).
  pose proof (decimal_value_nonneg argNumber Hdig) as Hpos.
  pose proof (Z.mod_pos_bound (decimal_value argNumber) 97 ltac:(lia)) as Hm.
  split; [|split].
  - unfold calculateVerifyingDigit.
    rewrite (BigInt_digits argNumber Hne Hdig). unfold SUB, MOD.
    rewrite Z.rem_mod_nonneg by lia. reflexivity.
  - apply pad2_length. lia.
  - intros DISTRICTS. eexists. eexists.
    split; [reflexivity|]. split; [vm_compute; reflexivity|].
    split; [reflexivity|]. split; reflexivity.
Qed.

Lemma check_digit_is_98_minus_mod_97_witness :
  String.length "00013272018826015800" = 20%nat /\
  all_digits "00013272018826015800" /\
  calculateVerifyingDigit "00013272018826015800" = Return "64".
Proof.
  split; [reflexivity|]. split; [reflexivity|].
  exact (proj1 (check_digit_is_98_minus_mod_97 "00013272018826015800"
                  eq_refl eq_refl)).
Defined.

(** ** Validation never throws (C2) *)

Lemma invalidLength_message (received : string) (n : Z) :
  message (invalidLength received n) <> EmptyString.
Proof. discriminate. Qed.

Lemma invalidFormat_message (received : string) :
  message (invalidFormat received) <> EmptyString.
Proof. discriminate. Qed.

Lemma decomposeFormattedCNJ_throw DISTRICTS cnj e :
  decomposeFormattedCNJ DISTRICTS cnj = Throw e -> e = invalidFormat cnj.
Proof.
  unfold decomposeFormattedCNJ.
  destruct (JS.split "-" cnj) as [|a [|b [|? ?]]]; try congruence.
  destruct (JS.split "." b) as [|f1 [|f2 [|f3 [|f4 [|f5 [|? ?]]]]]];
    congruence.
Qed.

Lemma decomposeCNJ_throw DISTRICTS cnj e :
  decomposeCNJ DISTRICTS cnj = Throw e ->
  e = invalidLength cnj 20 \/ e = invalidFormat cnj.
Proof.
  unfold decomposeCNJ, decomposeUnformattedCNJ.
  destruct (_ || _); [left; congruence|].
  destruct (JS.includes "-" cnj).
  - intros H. right. eapply decomposeFormattedCNJ_throw, H.
  - destruct (negb _); [left; congruence | discriminate].
Qed.

Lemma decomposeCNJ_throw_message DISTRICTS cnj e :
  decomposeCNJ DISTRICTS cnj = Throw e -> message e <> EmptyString.
Proof.
  intros [-> | ->]%decomposeCNJ_throw;
    [apply invalidLength_message | apply invalidFormat_message].
Qed.

Lemma calculateVerifyingDigit_throw argNumber e :
  calculateVerifyingDigit argNumber = Throw e ->
  JS.BigInt argNumber = None /\ type e = CALCULATION_ERROR /\
  message e <> EmptyString.
Proof.
  unfold calculateVerifyingDigit. destruct (JS.BigInt argNumber); [discriminate|].
  intros [= <-]. repeat split. discriminate.
Qed.

(** C2.  validateCNJ never throws: for every input it returns a result.
    When decomposition or the digit calculation fails, the result has
    isValid = false and a non-empty error message; when the computed digit
    differs from the received one, the result has isValid = false, both
    expectedDigit and receivedDigit present, and an error message that
    names the two digits. *)
Theorem validateCNJ_never_throws (DISTRICTS : Districts.Dataset)
  (cnj : string) :
  exists r, validateCNJ DISTRICTS cnj = Return r /\
    (forall e, decomposeCNJ DISTRICTS cnj = Throw e ->
       isValid r = false /\
       exists msg, error r = Some msg /\ msg <> EmptyString) /\
    (forall d e, decomposeCNJ DISTRICTS cnj = Return d ->
       calculateVerifyingDigit (argNumber d) = Throw e ->
       isValid r = false /\
       exists msg, error r = Some msg /\ msg <> EmptyString) /\
    (forall d expected, decomposeCNJ DISTRICTS cnj = Return d ->
       calculateVerifyingDigit (argNumber d) = Return expected ->
       verifyingDigit d <> expected ->
       isValid r = false /\
       expectedDigit r = Some expected /\
       receivedDigit r = Some (verifyingDigit d) /\
       error r = Some ("Dígito verificador inválido. Esperado: " ++ expected
                         ++ ", Recebido: " ++ verifyingDigit d) /\
       error r <> Some EmptyString).
Proof.
  unfold validateCNJ.
  destruct (decomposeCNJ DISTRICTS cnj) as [d|e] eqn:Hd; simpl.
  - destruct (calculateVerifyingDigit (argNumber d)) as [x|e] eqn:Hx; simpl.
    + eexists; split; [reflexivity|]. split; [|split].
      * intros e [=].
      * intros d' e [= <-]. rewrite Hx. intros [=].
      * intros d' x' [= <-]. rewrite Hx. intros [= <-] Hne. simpl.
        apply String.eqb_neq in Hne. rewrite Hne.
        repeat split. discriminate.
    + eexists; split; [reflexivity|]. simpl.
      pose proof (calculateVerifyingDigit_throw _ _ Hx) as (_ & _ & Hm).
      split; [|split].
      * intros e' [=].
      * intros d' e' _ _. split; [reflexivity|].
        eexists; split; [reflexivity|exact Hm].
      * intros d' x' [= <-]. rewrite Hx. intros [=].
  - eexists; split; [reflexivity|]. simpl.
    pose proof (decomposeCNJ_throw_message _ _ _ Hd) as Hm.
    split; [|split].
    + intros e' [= <-]. split; [reflexivity|].
      eexists; split; [reflexivity|exact Hm].
    + intros d' e' [=].
    + intros d' x' [=].
Qed.

Lemma validateCNJ_never_throws_witness :
  exists r, validateCNJ ∅ "0001327-65.2018.8.26.0158" = Return r /\
    isValid r = false /\ expectedDigit r = Some "64" /\
    receivedDigit r = Some "65".
Proof.
  destruct (validateCNJ_never_throws ∅ "0001327-65.2018.8.26.0158")
    as (r & Hr & _ & _ & Hmis).
  exists r. split; [exact Hr|].
  destruct (Hmis (buildDecomposedCNJ ∅
                    (mkComponents "0001327" "65" "2018" "8" "26" "0158"))
              "64" eq_refl eq_refl ltac:(discriminate))
    as (Hv & He & Hrec & _).
  split; [exact Hv|]. split; [exact He|]. exact Hrec.
Defined.

(** ** Splitting and masking (C3) *)

Lemma includes_digits (sep : ascii) (s : string) :
  JS.is_digit sep = false -> all_digits s -> JS.includes sep s = false.
Proof.
  intros Hsep. induction s as [|c s IH]; [reflexivity|].
  intros [Hc Hs]%all_digits_cons. simpl. rewrite (IH Hs), orb_false_r.
  apply Ascii.eqb_neq. intros ->. congruence.
Qed.

Lemma includes_app (sep : ascii) (s t : string) :
  JS.includes sep (s ++ t) = JS.includes sep s || JS.includes sep t.
Proof.
  induction s as [|c s IH]; [reflexivity|].
  simpl. rewrite IH. apply orb_assoc.
Qed.

Lemma split_plain (sep : ascii) (s : string) :
  JS.includes sep s = false -> JS.split sep s = [s].
Proof.
  induction s as [|c s IH]; [reflexivity|].
  simpl. intros [Hc Hs]%orb_false_iff. rewrite Hc, (IH Hs). reflexivity.
Qed.

Lemma split_app_sep (sep : ascii) (s t : string) :
  JS.includes sep s = false ->
  JS.split sep (s ++ String sep t) = s :: JS.split sep t.
Proof.
  induction s as [|c s IH]; simpl.
  - intros _. rewrite Ascii.eqb_refl. reflexivity.
  - intros [Hc Hs]%orb_false_iff. rewrite Hc, (IH Hs). reflexivity.
Qed.

Lemma remove_non_digits_digits (s : string) :
  all_digits s -> JS.remove_non_digits s = s.
Proof.
  induction s as [|c s IH]; [reflexivity|].
  intros [Hc Hs]%all_digits_cons. simpl. rewrite Hc, (IH Hs). reflexivity.
Qed.

Lemma append_char (c : ascii) (t : string) :
  String c EmptyString ++ t = String c t.
Proof. reflexivity. Qed.

(** The text the decomposer stores in [lawsuitCNJFormat]. *)
Lemma lawsuitCNJFormat_build DISTRICTS a b c d e f :
  lawsuitCNJFormat (buildDecomposedCNJ DISTRICTS (mkComponents a b c d e f)) =
  a ++ "-" ++ b ++ "." ++ c ++ "." ++ d ++ "." ++ e ++ "." ++ f.
Proof. reflexivity. Qed.

(** Six fields free of separators are read back from their masked form. *)
Lemma decomposeFormattedCNJ_mask DISTRICTS a b c d e f :
  JS.includes "-" a = false ->
  Forall (fun s => JS.includes "-" s = false /\ JS.includes "." s = false)
    [b; c; d; e; f] ->
  decomposeFormattedCNJ DISTRICTS
    (a ++ "-" ++ b ++ "." ++ c ++ "." ++ d ++ "." ++ e ++ "." ++ f) =
  Return (buildDecomposedCNJ DISTRICTS (mkComponents a b c d e f)).
Proof.
  intros Ha Hrest.
  repeat match goal with
         | H : Forall _ (_ :: _) |- _ =>
             apply Forall_cons_iff in H as [[? ?] H]
         end.
  unfold decomposeFormattedCNJ. rewrite !append_char.
  rewrite (split_app_sep "-" a) by assumption.
  rewrite split_plain.
  2:{ repeat (rewrite includes_app; simpl).
      repeat match goal with H : JS.includes _ _ = false |- _ => rewrite H end.
      reflexivity. }
  cbv beta iota.
  rewrite (split_app_sep "." b), (split_app_sep "." c),
    (split_app_sep "." d), (split_app_sep "." e) by assumption.
  rewrite split_plain by assumption. reflexivity.
Qed.

Ltac digit_hyps :=
  repeat match goal with
         | H : all_digits (String _ _) |- _ =>
             apply all_digits_cons in H as [? H]
         end.

Ltac digits_goal :=
  unfold all_digits; simpl;
  repeat match goal with H : JS.is_digit _ = true |- _ => rewrite H end;
  reflexivity.

(** C3.  For every identifier of 20 decimal digits, decomposeCNJ succeeds,
    formatCNJ masks it to the text the decomposition stores in
    lawsuitCNJFormat, and decomposing that masked text gives the same
    result, in particular the same six fields.  "00013276420188260158"
    and "0001327-64.2018.8.26.0158" decompose identically. *)
Theorem decompose_mask_round_trip
  (DISTRICTS : Districts.Dataset) (x : string) :
  String.length x = 20%nat ->
  all_digits x ->
  (exists d d' m,
      decomposeCNJ DISTRICTS x = Return d /\
      formatCNJ x = Return m /\
      m = lawsuitCNJFormat d /\
      decomposeCNJ DISTRICTS m = Return d' /\
      components_of d' = components_of d /\ d' = d) /\
  formatCNJ "00013276420188260158" = Return "0001327-64.2018.8.26.0158" /\
  decomposeCNJ DISTRICTS "00013276420188260158" =
  decomposeCNJ DISTRICTS "0001327-64.2018.8.26.0158".
Proof.
  intros Hlen Hdig. split; [|split; reflexivity].
  pose proof (includes_digits "-" x eq_refl Hdig) as Hinc.
  pose proof (remove_non_digits_digits x Hdig) as Hnorm.
  do 20 (destruct x as [|? x]; [discriminate Hlen|]).
  destruct x; [|discriminate Hlen]. clear Hlen.
  digit_hyps.
  match goal with
  | |- exists d d' m, decomposeCNJ _ ?s = _ /\ _ =>
      pose (fields := mkComponents (JS.substring 0 7 s) (JS.substring 7 9 s)
                        (JS.substring 9 13 s) (JS.substring 13 14 s)
                        (JS.substring 14 16 s) (JS.substring 16 20 s))
  end.
  exists (buildDecomposedCNJ DISTRICTS fields),
         (buildDecomposedCNJ DISTRICTS fields),
         (lawsuitCNJFormat (buildDecomposedCNJ DISTRICTS fields)).
  split.
  { unfold decomposeCNJ. rewrite Hinc. reflexivity. }
  split.
  { unfold formatCNJ, normalizeCNJ. rewrite Hnorm. reflexivity. }
  split; [reflexivity|].
  split; [|split; reflexivity].
  subst fields. rewrite lawsuitCNJFormat_build.
  unfold decomposeCNJ.
  match goal with
  | |- (if ?b then _ else _) = _ => replace b with false by reflexivity
  end.
  rewrite includes_app.
  match goal with
  | |- context [JS.includes "-" ("-" ++ ?t)] =>
      change (JS.includes "-" ("-" ++ t)) with true
  end.
  rewrite orb_true_r.
  apply decomposeFormattedCNJ_mask.
  - apply includes_digits; [reflexivity | digits_goal].
  - repeat constructor;
      (apply includes_digits; [reflexivity | digits_goal]).
Qed.

Lemma decompose_mask_round_trip_witness :
  String.length "00013276420188260158" = 20%nat /\
  all_digits "00013276420188260158" /\
  exists d, decomposeCNJ ∅ "00013276420188260158" = Return d /\
            decomposeCNJ ∅ "0001327-64.2018.8.26.0158" = Return d.
Proof.
  split; [reflexivity|]. split; [reflexivity|].
  destruct (decompose_mask_round_trip ∅ "00013276420188260158"
              eq_refl eq_refl) as [_ [_ Heq]].
  eexists. split; [reflexivity|]. rewrite <- Heq. reflexivity.
Defined.

(** ** Line numbers of batch errors (C4) *)

Lemma processLine_errors DISTRICTS separator st text index :
  snd (processLine DISTRICTS separator st text index) = snd st \/
  exists e, line e = index + 1 /\
    snd (processLine DISTRICTS separator st text index) = (snd st ++ [e])%list.
Proof.
  destruct st as [results errs]. unfold processLine.
  destruct (negb _); simpl.
  - right. eexists. split; [|reflexivity]. reflexivity.
  - destruct (analyzeCNJ DISTRICTS _); simpl.
    + left. reflexivity.
    + right. eexists. split; [|reflexivity]. reflexivity.
Qed.

Lemma forEach_processLine_lines DISTRICTS separator texts :
  forall index st,
    0 <= index ->
    Forall (fun e => 1 <= line e <= index) (snd st) ->
    Forall (fun e => 1 <= line e <= index + Z.of_nat (length texts))
      (snd (forEach (processLine DISTRICTS separator) index texts st)).
Proof.
  induction texts as [|text texts IH]; intros index st Hindex Hst; simpl forEach.
  - eapply List.Forall_impl; [|exact Hst]. simpl. intros e He. lia.
  - eapply List.Forall_impl; [|apply (IH (index + 1)); [lia|]].
    + simpl. intros e He. rewrite Nat2Z.inj_succ. lia.
    + destruct (processLine_errors DISTRICTS separator st text index)
        as [-> | (e & He & ->)].
      * eapply List.Forall_impl; [|exact Hst]. simpl. intros e He. lia.
      * apply List.Forall_app. split.
        -- eapply List.Forall_impl; [|exact Hst]. simpl. intros e' He'. lia.
        -- repeat constructor; lia.
Qed.

(** What the numbering does in general: every reported line number is a
    position among the non-blank lines, between 1 and totalProcessed. *)
Lemma processCSV_lines_count_kept_lines DISTRICTS csvContent separator :
  let result := processCSV DISTRICTS csvContent separator in
  Forall (fun e => 1 <= line e <= totalProcessed result) (errors result).
Proof.
  unfold processCSV.
  set (texts := List.filter _ _).
  pose proof (forEach_processLine_lines DISTRICTS separator texts 0 ([], [])
                ltac:(lia) ltac:(constructor)) as H.
  destruct (forEach _ 0 texts _) as [results errs]. exact H.
Qed.

(** C4, evaluated on a text whose third line is malformed and whose second
    line is blank: the blank line is not counted (totalProcessed = 3) and
    there is exactly one error, but its line number is 2, the position
    among the lines kept by the filter, while the malformed line is line 3
    of the text. *)
Theorem processCSV_numbers_lines_after_filtering
  (DISTRICTS : Districts.Dataset) :
  let result := processCSV DISTRICTS csv_sample "," in
  totalProcessed result = 3 /\
  validCount result = 2 /\
  map (fun e => (line e, cnj e)) (errors result) = [(2, "invalid-cnj")] /\
  nth_error (numbered_lines csv_sample) 2 = Some (3, "invalid-cnj") /\
  failing_positions DISTRICTS csv_sample "," = [3].
Proof. repeat split; vm_compute; reflexivity. Qed.

(** ** Widths of the decomposed fields (C5) *)

Lemma decomposeCNJ_return DISTRICTS cnj d :
  decomposeCNJ DISTRICTS cnj = Return d ->
  exists components, d = buildDecomposedCNJ DISTRICTS components.
Proof.
  unfold decomposeCNJ, decomposeFormattedCNJ, decomposeUnformattedCNJ.
  destruct (_ || _); [discriminate|].
  destruct (JS.includes "-" cnj).
  - destruct (JS.split "-" cnj) as [|a [|b [|? ?]]]; try discriminate.
    destruct (JS.split "." b) as [|f1 [|f2 [|f3 [|f4 [|f5 [|? ?]]]]]];
      try discriminate.
    intros H. exists (mkComponents a f1 f2 f3 f4 f5).
    injection H as <-. reflexivity.
  - destruct (negb _); [discriminate|].
    intros H.
    exists (mkComponents (JS.substring 0 7 cnj) (JS.substring 7 9 cnj)
              (JS.substring 9 13 cnj) (JS.substring 13 14 cnj)
              (JS.substring 14 16 cnj) (JS.substring 16 20 cnj)).
    injection H as <-. reflexivity.
Qed.

Lemma all_digits_app (s t : string) :
  all_digits (s ++ t) <-> all_digits s /\ all_digits t.
Proof.
  unfold all_digits. induction s as [|c s IH]; simpl.
  - intuition.
  - rewrite !andb_true_iff, IH. intuition.
Qed.

Lemma length_append (s t : string) :
  String.length (s ++ t) = (String.length s + String.length t)%nat.
Proof.
  induction s as [|c s IH]; [reflexivity|].
  change (String c s ++ t) with (String c (s ++ t)). simpl. congruence.
Qed.

Lemma append_assoc (s t u : string) : (s ++ t) ++ u = s ++ t ++ u.
Proof.
  induction s as [|c s IH]; [reflexivity|].
  change ((String c s ++ t) ++ u) with (String c ((s ++ t) ++ u)).
  change (String c s ++ t ++ u) with (String c (s ++ t ++ u)). congruence.
Qed.

Lemma digits_of_length_app (n m : nat) (s t : string) :
  digits_of_length n s -> digits_of_length m t ->
  digits_of_length (n + m) (s ++ t).
Proof.
  intros [Hn Hs] [Hm Ht]. split.
  - rewrite length_append. congruence.
  - apply all_digits_app. split; assumption.
Qed.

Lemma test_digits_spec (n : nat) (s : string) :
  test_digits n s = true <-> digits_of_length n s.
Proof.
  unfold test_digits, digits_of_length, all_digits.
  rewrite andb_true_iff, Nat.eqb_eq. reflexivity.
Qed.

Lemma validateCNJComponents_return (c : Components) :
  validateCNJComponents c = Return tt ->
  digits_of_length 7 (c_lawsuitNumber c) /\
  digits_of_length 2 (c_verifyingDigit c) /\
  digits_of_length 4 (c_protocolYear c) /\
  digits_of_length 1 (c_segment c) /\
  digits_of_length 2 (c_court c) /\
  digits_of_length 4 (c_sourceUnit c).
Proof.
  destruct c as [a b c d e f]. unfold validateCNJComponents. simpl.
  repeat match goal with
         | |- context [negb (test_digits ?n ?s)] =>
             let H := fresh "H" in
             destruct (test_digits n s) eqn:H; simpl; [|discriminate];
             apply test_digits_spec in H
         end.
  intros _. repeat split; apply H || apply H0 || apply H1 || apply H2
                          || apply H3 || apply H4.
Qed.

(** C5 as stated fails: a masked input with fields of other widths, and a
    compact input of letters, both decompose without error. *)
Lemma decomposed_fields_need_not_be_18_digits :
  ~ (forall DISTRICTS cnj d,
        decomposeCNJ DISTRICTS cnj = Return d ->
        digits_of_length 18 (five_fields d) /\
        digits_of_length 20 (argNumber d)).
Proof.
  intros claim.
  destruct (claim ∅ "1-2.3.4.5.6789012345" _ eq_refl) as [[Hlen _] _].
  vm_compute in Hlen. discriminate Hlen.
Qed.

Example decomposed_fields_of_letters :
  exists d, decomposeCNJ ∅ "abcdefghijklmnopqrst" = Return d /\
            five_fields d = "abcdefgjklmnopqrst" /\
            JS.all_chars JS.is_digit (five_fields d) = false.
Proof. eexists. split; [reflexivity|]. split; reflexivity. Qed.

(** ** When the digit calculation fails (C6) *)

Lemma digits_from_is_Some (radix : Z) (s : string) (acc : Z) :
  is_Some (JS.digits_from radix acc s) <->
  JS.all_chars (fun c => bool_decide (is_Some (JS.radix_digit radix c))) s
  = true.
Proof.
  revert acc. induction s as [|c s IH]; intros acc; simpl.
  - split; [reflexivity | eauto].
  - destruct (JS.radix_digit radix c) as [v|]; simpl.
    + apply IH.
    + split; [intros [? [=]] | discriminate].
Qed.

Lemma digits_is_Some (radix : Z) (s : string) :
  is_Some (JS.digits radix s) <-> digit_run radix s.
Proof.
  unfold JS.digits, digit_run. destruct s as [|c s].
  - split; [intros [? [=]] | intros [[] _]; reflexivity].
  - rewrite digits_from_is_Some. intuition discriminate.
Qed.

Lemma decimal_digit_is_digit (c : ascii) :
  is_Some (JS.radix_digit 10 c) <-> JS.is_digit c = true.
Proof.
  assert (H : JS.radix_digit 10 c =
              if JS.is_digit c then Some (JS.digit_value c) else None)
    by (each_ascii c; vm_compute; reflexivity).
  rewrite H. destruct (JS.is_digit c); split; eauto; try discriminate.
  intros [? [=]].
Qed.

Lemma digit_run_decimal (s : string) :
  digit_run 10 s <-> s <> EmptyString /\ all_digits s.
Proof.
  unfold digit_run, all_digits. apply and_iff_compat_l.
  induction s as [|c s IH]; simpl; [reflexivity|].
  rewrite !andb_true_iff, IH, bool_decide_eq_true.
  rewrite decimal_digit_is_digit. reflexivity.
Qed.

Lemma radix_prefix_Some (t : string) (radix : Z) (r : string) :
  JS.radix_prefix t = Some (radix, r) <->
  exists c, t = String "0" (String c r) /\ In (c, radix) radix_letters.
Proof.
  split.
  - destruct t as [|c0 [|c1 t]]; try discriminate. simpl.
    destruct (Ascii.eqb_spec c0 "0") as [->|]; [|discriminate].
    repeat match goal with
           | |- context [Ascii.eqb c1 ?k] =>
               destruct (Ascii.eqb_spec c1 k) as [->|]
           end; simpl; intros [= <- <-]; eexists; (split; [reflexivity|]);
      simpl; tauto.
  - intros (c & -> & Hin). simpl in Hin.
    repeat destruct Hin as [[= <- <-] | Hin]; try reflexivity. destruct Hin.
Qed.

Lemma radix_prefix_digit_run (t : string) :
  digit_run 10 t -> JS.radix_prefix t = None.
Proof.
  intros [_ Ht]%digit_run_decimal.
  destruct t as [|c0 [|c1 t]]; try reflexivity. simpl.
  apply all_digits_cons in Ht as [_ [H1 _]%all_digits_cons].
  destruct (digit_facts c1 H1) as (_ & _ & _ & _ & _ & _ & -> & -> & ->).
  destruct (Ascii.eqb c0 "0"); reflexivity.
Qed.

Lemma digit_run_head (c : ascii) (s : string) :
  digit_run 10 (String c s) ->
  Ascii.eqb c "+" = false /\ Ascii.eqb c "-" = false.
Proof.
  intros [_ [Hc _]%all_digits_cons]%digit_run_decimal.
  destruct (digit_facts c Hc) as (_ & _ & _ & -> & _ & -> & _). tauto.
Qed.

(** BigInt accepts exactly the texts of [integer_text], white space
    apart. *)
Lemma BigInt_accepts (s : string) :
  is_Some (JS.BigInt s) <-> integer_text (JS.trim s).
Proof.
  unfold JS.BigInt. destruct (JS.trim s) as [|c r] eqn:Ht.
  { split; [constructor | eauto]. }
  destruct (JS.radix_prefix (String c r)) as [[radix r']|] eqn:Hp.
  - apply radix_prefix_Some in Hp as (c1 & [= -> ->] & Hin).
    rewrite digits_is_Some. split.
    + intros Hrun. econstructor; eassumption.
    + intros Htext. inversion Htext as [|? Hrun| | |c' radix' s' Hin' Hrun];
        subst.
      * apply radix_prefix_digit_run in Hrun. simpl in Hrun, Hin.
        repeat destruct Hin as [[= <- <-] | Hin]; try discriminate Hrun.
        destruct Hin.
      * simpl in Hin, Hin'.
        repeat destruct Hin as [[= <- <-] | Hin];
          repeat destruct Hin' as [[= <-] | Hin']; try assumption;
          try discriminate; try destruct Hin; try destruct Hin'.
  - destruct (Ascii.eqb_spec c "+") as [->|Hplus].
    { rewrite digits_is_Some. split; [apply text_plus|].
      intros Htext. inversion Htext as [|? Hrun|? Hrun| |]; subst.
      - apply digit_run_head in Hrun as [[=] _].
      - assumption. }
    destruct (Ascii.eqb_spec c "-") as [->|Hminus].
    { destruct (JS.digits 10 r) as [v|] eqn:Hv; simpl.
      - split; [|eauto]. intros _. apply text_minus, digits_is_Some.
        rewrite Hv. eauto.
      - split; [intros [? [=]]|].
        intros Htext. inversion Htext as [|? Hrun| |? Hrun|]; subst.
        + apply digit_run_head in Hrun as [_ [=]].
        + apply digits_is_Some in Hrun. rewrite Hv in Hrun.
          destruct Hrun as [? [=]]. }
    rewrite digits_is_Some. split; [apply text_decimal|].
    intros Htext.
    inversion Htext as [|? Hrun| | |c' radix' s' Hin' Hrun]; subst;
      try assumption; try congruence.
    assert (Hp' : JS.radix_prefix (String "0" (String c' s'))
                  = Some (radix', s')).
    { apply radix_prefix_Some. eexists. split; [reflexivity | assumption]. }
    congruence.
Qed.

(** C6 as stated fails: the empty string, a padded numeral, a negative
    numeral and a hexadecimal literal are not non-empty sequences of decimal
    digits, and for all of them the function returns. *)
Lemma calculateVerifyingDigit_accepts_more_than_digits :
  calculateVerifyingDigit "" = Return "98" /\
  calculateVerifyingDigit " 12 " = Return "86" /\
  calculateVerifyingDigit "-5" = Return "103" /\
  calculateVerifyingDigit "0x1F" = Return "67" /\
  ~ (forall argNumber,
        throws (calculateVerifyingDigit argNumber) CALCULATION_ERROR <->
        ~ (argNumber <> EmptyString /\ all_digits argNumber)).
Proof.
  repeat split; try reflexivity.
  intros claim. destruct (claim "") as [_ Hthrow].
  destruct Hthrow as (e & He & _); [intros [Hne _]; congruence|].
  discriminate He.
Qed.

(** C6, amended.  calculateVerifyingDigit returns for every non-empty
    sequence of decimal digits; it fails exactly when BigInt rejects the
    string, that is when the string with its surrounding white space
    removed is neither empty, nor an optionally signed run of decimal
    digits, nor a 0x, 0o or 0b literal; and every failure is a
    CalculationError. *)
Theorem calculateVerifyingDigit_fails_iff_BigInt_rejects :
  (forall argNumber,
      argNumber <> EmptyString -> all_digits argNumber ->
      returns (calculateVerifyingDigit argNumber)) /\
  (forall argNumber,
      throws (calculateVerifyingDigit argNumber) CALCULATION_ERROR <->
      ~ integer_text (JS.trim argNumber)) /\
  (forall argNumber e,
      calculateVerifyingDigit argNumber = Throw e ->
      type e = CALCULATION_ERROR).
Proof.
  split; [|split].
  - intros s Hne Hs. unfold calculateVerifyingDigit.
    rewrite (BigInt_digits s Hne Hs). eexists. reflexivity.
  - intros s. rewrite <- BigInt_accepts. unfold calculateVerifyingDigit.
    destruct (JS.BigInt s) as [n|]; split.
    + intros (e & [=] & _).
    + intros H. destruct H. eauto.
    + intros _ [? [=]].
    + intros _. eexists. split; reflexivity.
  - intros s e H. apply calculateVerifyingDigit_throw in H. tauto.
Qed.

Lemma calculateVerifyingDigit_fails_iff_BigInt_rejects_witness :
  returns (calculateVerifyingDigit "00013272018826015800") /\
  throws (calculateVerifyingDigit "invalid") CALCULATION_ERROR.
Proof.
  destruct calculateVerifyingDigit_fails_iff_BigInt_rejects
    as (Hret & Hthrow & _).
  split.
  - apply Hret; [discriminate | reflexivity].
  - apply Hthrow. simpl. intros Htext.
    inversion Htext as [|? [_ Hrun]| | |]; discriminate Hrun.
Defined.

(** ** Court code "00" (C7) *)

Lemma throws_Throw {A : Type} (e : CNJValidationError) :
  throws (@Throw A e) (type e).
Proof. exists e. split; reflexivity. Qed.

(** C7.  For every segment, getOriginCourt("00", segment) is an
    original-lawsuit classification labelled with the segment's own name and
    short code for numbers 1, 2 and 3, with the Superior Labor Court for 5,
    the Superior Electoral Court for 6 and the Superior Military Court for 7
    and 9; for every other number, 4 and 8 among them, it fails with
    InvalidCourt. *)
Theorem getOriginCourt_original (s : Segment) :
  (number s = 1 \/ number s = 2 \/ number s = 3 ->
   getOriginCourt "00" s =
   Return (mkOriginCourt CourtType.ORIGINAL_LAWSUIT
             (name s ++ " (" ++ short s ++ ")"))) /\
  (number s = 5 ->
   getOriginCourt "00" s =
   Return (mkOriginCourt CourtType.ORIGINAL_LAWSUIT
             "Tribunal Superior do Trabalho (TST)")) /\
  (number s = 6 ->
   getOriginCourt "00" s =
   Return (mkOriginCourt CourtType.ORIGINAL_LAWSUIT
             "Tribunal Superior Eleitoral (TSE)")) /\
  (number s = 7 \/ number s = 9 ->
   getOriginCourt "00" s =
   Return (mkOriginCourt CourtType.ORIGINAL_LAWSUIT
             "Superior Tribunal Militar (STM)")) /\
  (~ In (number s) [1; 2; 3; 5; 6; 7; 9] ->
   throws (getOriginCourt "00" s) INVALID_COURT).
Proof.
  destruct s as [n nm sh]. unfold getOriginCourt, parseCourt00. simpl.
  repeat split.
  - intros [-> | [-> | ->]]; reflexivity.
  - intros ->; reflexivity.
  - intros ->; reflexivity.
  - intros [-> | ->]; reflexivity.
  - intros Hn.
    assert (Hne : n <> 1 /\ n <> 2 /\ n <> 3 /\ n <> 5 /\ n <> 6 /\ n <> 7
                  /\ n <> 9) by (simpl in Hn; intuition).
    destruct Hne as (H1 & H2 & H3 & H5 & H6 & H7 & H9).
    apply Z.eqb_neq in H1, H2, H3, H5, H6, H7, H9.
    rewrite H1, H2, H3, H5, H6, H7, H9. simpl.
    apply (throws_Throw (invalidCourt "00" n)).
Qed.

Lemma getOriginCourt_original_witness :
  getOriginCourt "00" (segment_of STF) =
    Return (mkOriginCourt CourtType.ORIGINAL_LAWSUIT
              "Supremo Tribunal Federal (STF)") /\
  getOriginCourt "00" (segment_of TRT) =
    Return (mkOriginCourt CourtType.ORIGINAL_LAWSUIT
              "Tribunal Superior do Trabalho (TST)") /\
  getOriginCourt "00" (segment_of TRE) =
    Return (mkOriginCourt CourtType.ORIGINAL_LAWSUIT
              "Tribunal Superior Eleitoral (TSE)") /\
  getOriginCourt "00" (segment_of TJM) =
    Return (mkOriginCourt CourtType.ORIGINAL_LAWSUIT
              "Superior Tribunal Militar (STM)") /\
  throws (getOriginCourt "00" (segment_of TRF)) INVALID_COURT /\
  throws (getOriginCourt "00" (segment_of TJ)) INVALID_COURT.
Proof.
  split; [|split; [|split; [|split; [|split]]]].
  - apply (getOriginCourt_original (segment_of STF)). left. reflexivity.
  - apply (getOriginCourt_original (segment_of TRT)). reflexivity.
  - apply (getOriginCourt_original (segment_of TRE)). reflexivity.
  - apply (getOriginCourt_original (segment_of TJM)). right. reflexivity.
  - apply (getOriginCourt_original (segment_of TRF)). simpl. lia.
  - apply (getOriginCourt_original (segment_of TJ)). simpl. lia.
Defined.

(** ** Segments without numbered courts (C8) *)

(** The bound 0 of segments 1 to 3 lets every number through the range
    check; the rejection is made afterwards, where the court type is
    chosen. *)
Lemma isCourtValid_without_bound (s : Segment) (courtNumber : Z) :
  number s = 1 \/ number s = 2 \/ number s = 3 ->
  isCourtValid s courtNumber = true /\
  throws (getCourtTypeAndNumber s courtNumber) INVALID_COURT.
Proof.
  destruct s as [n nm sh]. simpl.
  intros [-> | [-> | ->]]; split; try reflexivity;
    apply (throws_Throw (invalidCourt _ _)).
Qed.

(** C8.  For a segment numbered 1, 2 or 3, every court code other than
    "00" and "90" makes getOriginCourt fail with InvalidCourt. *)
Theorem getOriginCourt_no_numbered_court (s : Segment) (court : string) :
  number s = 1 \/ number s = 2 \/ number s = 3 ->
  court <> "00" -> court <> "90" ->
  throws (getOriginCourt court s) INVALID_COURT.
Proof.
  intros Hn H00 H90. unfold getOriginCourt.
  apply String.eqb_neq in H00, H90.
  unfold SpecialCourtCode.ORIGINAL, SpecialCourtCode.COUNCIL.
  rewrite H00, H90. unfold parseCourtOther.
  destruct (JS.parseInt court) as [courtNumber|].
  - destruct (isCourtValid_without_bound s courtNumber Hn)
      as [Hvalid (e & He & Ht)].
    replace (number s =? 9) with false
      by (symmetry; apply Z.eqb_neq; lia).
    rewrite Hvalid, He. simpl. exists e. split; [reflexivity | exact Ht].
  - apply (throws_Throw (invalidCourt court (number s))).
Qed.

Lemma getOriginCourt_no_numbered_court_witness :
  throws (getOriginCourt "01" (segment_of STF)) INVALID_COURT /\
  throws (getOriginCourt "xx" (segment_of STJ)) INVALID_COURT.
Proof.
  split.
  - apply (getOriginCourt_no_numbered_court (segment_of STF) "01");
      [left; reflexivity | discriminate | discriminate].
  - apply (getOriginCourt_no_numbered_court (segment_of STJ) "xx");
      [right; right; reflexivity | discriminate | discriminate].
Defined.

(** ** Source units (C9) *)

Lemma SOURCE_UNIT_CONFIG_absent (n : Z) :
  ~ (1 <= n <= 9) -> SOURCE_UNIT_CONFIG !! n = None.
Proof.
  intros Hn. unfold SOURCE_UNIT_CONFIG.
  apply not_elem_of_list_to_map_1. simpl.
  rewrite !elem_of_cons, elem_of_nil. lia.
Qed.

(** The per-segment default of the table, by segment number. *)
Lemma SOURCE_UNIT_CONFIG_default (n : Z) :
  default SourceUnitType.CIVIL_UNIT (SOURCE_UNIT_CONFIG !! n) =
  if (n =? 1) || (n =? 2) || (n =? 3) then SourceUnitType.COURT_UNIT_SINGLE
  else if n =? 4 then SourceUnitType.JUSTICE_SECTION
  else if n =? 5 then SourceUnitType.LABOR_UNIT
  else if n =? 6 then SourceUnitType.ELECTORAL_UNIT
  else if (n =? 7) || (n =? 9) then SourceUnitType.MILITARY_UNIT
  else SourceUnitType.CIVIL_UNIT.
Proof.
  destruct (decide (1 <= n <= 9)) as [Hin | Hout].
  - assert (Hcases : n = 1 \/ n = 2 \/ n = 3 \/ n = 4 \/ n = 5 \/ n = 6 \/
                     n = 7 \/ n = 8 \/ n = 9) by lia.
    repeat destruct Hcases as [-> | Hcases]; try subst n; reflexivity.
  - rewrite (SOURCE_UNIT_CONFIG_absent n Hout). simpl.
    repeat match goal with
           | |- context [n =? ?k] =>
               replace (n =? k) with false by (symmetry; apply Z.eqb_neq; lia)
           end.
    reflexivity.
Qed.

(** C9.  getSourceUnit has no failing path and always hands the code back
    as the unit number.  "0000" is the original court-level competence and
    a code starting with '9' the original appellate-panel competence,
    whatever the segment; any other code takes the type of the segment's
    entry in the default table, and the civil-forum type when the segment
    number has no entry. *)
Theorem getSourceUnit_classification (sourceUnit : string) (s : Segment) :
  SourceUnitTypes.sourceUnitNumber (getSourceUnit sourceUnit s) = sourceUnit /\
  (sourceUnit = "0000" ->
   SourceUnitTypes.sourceUnitType (getSourceUnit sourceUnit s) =
   SourceUnitType.COURT_UNIT_SINGLE) /\
  (forall rest, sourceUnit = String "9" rest ->
   SourceUnitTypes.sourceUnitType (getSourceUnit sourceUnit s) =
   SourceUnitType.COURT_UNIT) /\
  (sourceUnit <> "0000" ->
   (forall rest, sourceUnit <> String "9" rest) ->
   (number s = 1 \/ number s = 2 \/ number s = 3 ->
    SourceUnitTypes.sourceUnitType (getSourceUnit sourceUnit s) =
    SourceUnitType.COURT_UNIT_SINGLE) /\
   (number s = 4 ->
    SourceUnitTypes.sourceUnitType (getSourceUnit sourceUnit s) =
    SourceUnitType.JUSTICE_SECTION) /\
   (number s = 5 ->
    SourceUnitTypes.sourceUnitType (getSourceUnit sourceUnit s) =
    SourceUnitType.LABOR_UNIT) /\
   (number s = 6 ->
    SourceUnitTypes.sourceUnitType (getSourceUnit sourceUnit s) =
    SourceUnitType.ELECTORAL_UNIT) /\
   (number s = 7 \/ number s = 9 ->
    SourceUnitTypes.sourceUnitType (getSourceUnit sourceUnit s) =
    SourceUnitType.MILITARY_UNIT) /\
   (number s = 8 \/ ~ (1 <= number s <= 9) ->
    SourceUnitTypes.sourceUnitType (getSourceUnit sourceUnit s) =
    SourceUnitType.CIVIL_UNIT)).
Proof.
  unfold getSourceUnit, isZeroSequence.
  split; [|split; [|split]].
  - destruct (String.eqb sourceUnit "0000"); [reflexivity|].
    destruct (isFirstDigit9 sourceUnit); reflexivity.
  - intros ->. reflexivity.
  - intros rest ->. reflexivity.
  - intros H0 H9. apply String.eqb_neq in H0. rewrite H0.
    assert (Hfirst : isFirstDigit9 sourceUnit = false).
    { destruct sourceUnit as [|c rest]; [reflexivity|]. simpl.
      apply Ascii.eqb_neq. intros ->. exact (H9 rest eq_refl). }
    rewrite Hfirst. simpl. rewrite SOURCE_UNIT_CONFIG_default.
    repeat split.
    + intros [-> | [-> | ->]]; reflexivity.
    + intros ->; reflexivity.
    + intros ->; reflexivity.
    + intros ->; reflexivity.
    + intros [-> | ->]; reflexivity.
    + intros [-> | Hout]; [reflexivity|].
      repeat match goal with
             | |- context [number s =? ?k] =>
                 replace (number s =? k) with false
                   by (symmetry; apply Z.eqb_neq; lia)
             end.
      reflexivity.
Qed.

Lemma getSourceUnit_classification_witness :
  SourceUnitTypes.sourceUnitType (getSourceUnit "0000" (segment_of TJ)) =
    SourceUnitType.COURT_UNIT_SINGLE /\
  SourceUnitTypes.sourceUnitType (getSourceUnit "9001" (segment_of TJ)) =
    SourceUnitType.COURT_UNIT /\
  SourceUnitTypes.sourceUnitType (getSourceUnit "0158" (segment_of TRT)) =
    SourceUnitType.LABOR_UNIT /\
  SourceUnitTypes.sourceUnitType
    (getSourceUnit "0158" (mkSegment 12 "" "")) = SourceUnitType.CIVIL_UNIT.
Proof.
  split; [|split; [|split]].
  - destruct (getSourceUnit_classification "0000" (segment_of TJ))
      as (_ & Hzero & _).
    apply Hzero. reflexivity.
  - destruct (getSourceUnit_classification "9001" (segment_of TJ))
      as (_ & _ & Hnine & _).
    apply (Hnine "001"). reflexivity.
  - destruct (getSourceUnit_classification "0158" (segment_of TRT))
      as (_ & _ & _ & Htable).
    destruct Htable as (_ & _ & Hlabor & _); [discriminate | discriminate |].
    apply Hlabor. reflexivity.
  - destruct (getSourceUnit_classification "0158" (mkSegment 12 "" ""))
      as (_ & _ & _ & Htable).
    destruct Htable as (_ & _ & _ & _ & _ & Hcivil);
      [discriminate | discriminate |].
    apply Hcivil. right. simpl. lia.
Defined.

(** ** The district dataset can be written (C10) *)











Example addDistrict_proto :
  let record := Districts.mkDistrictInfo "Santos" "SP" "São Paulo" in
  let DISTRICTS' := Districts.addDistrict "__proto__" record ∅ in
  Districts.hasDistrict ∅ "uf" = false /\
  Districts.getDistrictInfo ∅ "uf" = None /\
  Districts.hasDistrict DISTRICTS' "uf" = true /\
  Districts.getDistrictInfo DISTRICTS' "uf" = Some (Districts.a_text "SP") /\
  Districts.own DISTRICTS' = ∅.
Proof. repeat split; vm_compute; reflexivity. Qed.



(** * Further properties *)

(** ** Splitting and joining *)

Lemma cons_append (c : ascii) (s t : string) :
  String c s ++ t = String c (s ++ t).
Proof. reflexivity. Qed.

Lemma split_not_nil (sep : ascii) (s : string) : JS.split sep s <> [].
Proof.
  destruct s as [|c s]; simpl; [discriminate|].
  destruct (Ascii.eqb c sep); [discriminate|].
  destruct (JS.split sep s); discriminate.
Qed.

Lemma split_parts (sep : ascii) (s : string) :
  Forall (fun part => JS.includes sep part = false) (JS.split sep s).
Proof.
  induction s as [|c s IH]; simpl; [repeat constructor|].
  destruct (Ascii.eqb c sep) eqn:Hc; [constructor; [reflexivity | exact IH]|].
  destruct (JS.split sep s) as [|h t]; [repeat constructor; simpl; rewrite Hc; reflexivity|].
  apply Forall_cons_iff in IH as [Hh Ht].
  constructor; [simpl; rewrite Hc, Hh; reflexivity | exact Ht].
Qed.

Lemma join_cons (sep x y : string) (xs : list string) :
  JSMore.join sep (x :: y :: xs) = x ++ sep ++ JSMore.join sep (y :: xs).
Proof. reflexivity. Qed.

(** Joining the parts of a split with the separator gives the text back. *)
Lemma join_split (sep : ascii) (s : string) :
  JSMore.join (String sep EmptyString) (JS.split sep s) = s.
Proof.
  induction s as [|c s IH]; [reflexivity|]. simpl JS.split.
  destruct (Ascii.eqb_spec c sep) as [->|Hne].
  - pose proof (split_not_nil sep s) as Hnil.
    destruct (JS.split sep s) as [|h t]; [congruence|].
    rewrite join_cons, IH. reflexivity.
  - pose proof (split_not_nil sep s) as Hnil.
    destruct (JS.split sep s) as [|h t]; [congruence|].
    destruct t as [|h' t].
    + simpl in *. congruence.
    + rewrite join_cons, cons_append. rewrite join_cons in IH. congruence.
Qed.

(** Splitting a join of parts free of the separator gives the parts back. *)
Lemma split_join (sep : ascii) (parts : list string) :
  parts <> [] ->
  Forall (fun part => JS.includes sep part = false) parts ->
  JS.split sep (JSMore.join (String sep EmptyString) parts) = parts.
Proof.
  induction parts as [|x xs IH]; [congruence|]. intros _ Hall.
  apply Forall_cons_iff in Hall as [Hx Hxs].
  destruct xs as [|y ys]; [apply split_plain, Hx|].
  rewrite join_cons, append_char, (split_app_sep sep x _ Hx).
  rewrite IH by (congruence || assumption). reflexivity.
Qed.

Lemma length_split (sep : ascii) (s : string) :
  length (JS.split sep s) = S (count_char sep s).
Proof.
  induction s as [|c s IH]; [reflexivity|]. simpl.
  destruct (Ascii.eqb c sep); simpl; [rewrite IH; reflexivity|].
  destruct (JS.split sep s); simpl in *; congruence.
Qed.

Lemma includes_app_false (sep : ascii) (s t : string) :
  JS.includes sep (s ++ t) = false <->
  JS.includes sep s = false /\ JS.includes sep t = false.
Proof. rewrite includes_app. apply orb_false_iff. Qed.

(** ** Which texts decomposeCNJ accepts *)

Lemma decomposeFormattedCNJ_return DISTRICTS cnj d :
  decomposeFormattedCNJ DISTRICTS cnj = Return d ->
  exists c, masked cnj c /\ d = buildDecomposedCNJ DISTRICTS c.
Proof.
  unfold decomposeFormattedCNJ.
  pose proof (join_split "-" cnj) as Hjoin.
  pose proof (split_parts "-" cnj) as Hparts.
  destruct (JS.split "-" cnj) as [|a [|rest [|? ?]]]; try discriminate.
  pose proof (join_split "." rest) as Hjoin'.
  pose proof (split_parts "." rest) as Hparts'.
  destruct (JS.split "." rest) as [|f1 [|f2 [|f3 [|f4 [|f5 [|? ?]]]]]];
    try discriminate.
  intros H. exists (mkComponents a f1 f2 f3 f4 f5).
  split; [|injection H as <-; reflexivity].
  apply Forall_cons_iff in Hparts as [Ha [Hrest _]%Forall_cons_iff].
  rewrite join_cons in Hjoin. simpl JSMore.join in Hjoin.
  rewrite !join_cons in Hjoin'. simpl JSMore.join in Hjoin'.
  unfold masked; simpl. split; [|split; [exact Ha|]].
  - rewrite Hjoin'. symmetry. exact Hjoin.
  - rewrite <- Hjoin' in Hrest.
    rewrite !includes_app_false in Hrest.
    destruct Hrest as (H1 & _ & H2 & _ & H3 & _ & H4 & _ & H5).
    repeat match goal with
           | H : Forall _ (_ :: _) |- _ => apply Forall_cons_iff in H as [? H]
           end.
    repeat constructor; assumption.
Qed.

Lemma decomposeCNJ_cases DISTRICTS cnj d :
  decomposeCNJ DISTRICTS cnj = Return d ->
  (20 <= String.length cnj <= 25)%nat /\
  ((JS.includes "-" cnj = false /\ String.length cnj = 20%nat /\
    d = buildDecomposedCNJ DISTRICTS (compact_slices cnj)) \/
   (JS.includes "-" cnj = true /\
    exists c, masked cnj c /\ d = buildDecomposedCNJ DISTRICTS c)).
Proof.
  unfold decomposeCNJ.
  destruct (_ || _) eqn:Hlen; [discriminate|].
  apply orb_false_iff in Hlen as [H25 H20].
  apply Nat.ltb_ge in H25, H20. intros H. split; [lia|].
  destruct (JS.includes "-" cnj).
  - right. split; [reflexivity|]. apply decomposeFormattedCNJ_return, H.
  - left. unfold decomposeUnformattedCNJ in H.
    destruct (Nat.eqb_spec (String.length cnj) 20) as [Heq|]; simpl in H;
      [|discriminate].
    split; [reflexivity|]. split; [exact Heq|].
    injection H as <-. reflexivity.
Qed.

Lemma masked_includes_hyphen cnj c : masked cnj c -> JS.includes "-" cnj = true.
Proof.
  intros (-> & _). rewrite includes_app, append_char. simpl.
  apply orb_true_r.
Qed.

Lemma decomposeCNJ_compact DISTRICTS cnj :
  JS.includes "-" cnj = false -> String.length cnj = 20%nat ->
  decomposeCNJ DISTRICTS cnj =
  Return (buildDecomposedCNJ DISTRICTS (compact_slices cnj)).
Proof.
  intros Hno H20. unfold decomposeCNJ, decomposeUnformattedCNJ.
  rewrite Hno, H20. reflexivity.
Qed.

Lemma decomposeCNJ_masked DISTRICTS cnj c :
  (20 <= String.length cnj <= 25)%nat -> masked cnj c ->
  decomposeCNJ DISTRICTS cnj = Return (buildDecomposedCNJ DISTRICTS c).
Proof.
  intros Hlen Hm. unfold decomposeCNJ.
  replace (_ || _) with false
    by (symmetry; apply orb_false_iff; split; apply Nat.ltb_ge; lia).
  rewrite (masked_includes_hyphen cnj c Hm).
  destruct Hm as (Hcnj & Ha & Hrest). destruct c as [a f1 f2 f3 f4 f5].
  simpl in *. rewrite Hcnj. apply decomposeFormattedCNJ_mask; assumption.
Qed.

(** X1.  decomposeCNJ returns exactly on the texts of 20 to 25 characters
    that either contain no hyphen and have 20 characters, and are then cut
    at the fixed offsets, or have the masked shape A-B.C.D.E.F with one
    hyphen and four dots after it, whose six parts are then the fields; no
    part needs to be made of digits or to have the width of its field. *)
Theorem decomposeCNJ_accepts
  (DISTRICTS : Districts.Dataset) (cnj : string)
  (d : DecomposedCNJ) :
  decomposeCNJ DISTRICTS cnj = Return d <->
  (20 <= String.length cnj <= 25)%nat /\
  ((JS.includes "-" cnj = false /\ String.length cnj = 20%nat /\
    d = buildDecomposedCNJ DISTRICTS (compact_slices cnj)) \/
   (exists c, masked cnj c /\ d = buildDecomposedCNJ DISTRICTS c)).
Proof.
  split.
  - intros [Hlen Hcases]%decomposeCNJ_cases. split; [exact Hlen|].
    destruct Hcases as [Hcompact | (_ & Hmasked)]; [left | right]; assumption.
  - intros [Hlen [(Hno & H20 & ->) | (c & Hm & ->)]].
    + apply decomposeCNJ_compact; assumption.
    + apply decomposeCNJ_masked; assumption.
Qed.

Lemma decomposeCNJ_accepts_witness :
  decomposeCNJ ∅ "abc.def-g.h.i.j.klmnopqr" =
  Return (buildDecomposedCNJ ∅
            (mkComponents "abc.def" "g" "h" "i" "j" "klmnopqr")).
Proof.
  apply (decomposeCNJ_accepts ∅ "abc.def-g.h.i.j.klmnopqr").
  split; [simpl; lia|]. right.
  exists (mkComponents "abc.def" "g" "h" "i" "j" "klmnopqr").
  split; [|reflexivity].
  split; [reflexivity|]. split; [reflexivity|].
  repeat constructor.
Defined.

(** X2.  The fields of a decomposition put the input back together: for a
    text with a hyphen the stored lawsuitCNJFormat is the input itself, for
    a compact text the six fields concatenate to the input and the stored
    mask has 25 characters; argNumber is always the five fields other than
    the verifying digit followed by "00". *)
Theorem decomposed_fields_reassemble
  (DISTRICTS : Districts.Dataset) (cnj : string)
  (d : DecomposedCNJ) :
  decomposeCNJ DISTRICTS cnj = Return d ->
  (JS.includes "-" cnj = true -> lawsuitCNJFormat d = cnj) /\
  (JS.includes "-" cnj = false ->
   six_fields d = cnj /\ String.length (lawsuitCNJFormat d) = 25%nat) /\
  argNumber d = five_fields d ++ "00".
Proof.
  intros Hd. split; [|split].
  - intros Hinc.
    apply decomposeCNJ_cases in Hd
      as [_ [(Hno & _) | (_ & c & (Hcnj & _) & ->)]]; [congruence|].
    destruct c as [a f1 f2 f3 f4 f5]. symmetry. exact Hcnj.
  - intros Hinc.
    apply decomposeCNJ_cases in Hd
      as [_ [(_ & Hlen & ->) | (Hyes & _)]]; [|congruence].
    do 20 (destruct cnj as [|? cnj]; [discriminate Hlen|]).
    destruct cnj; [|discriminate Hlen]. split; reflexivity.
  - apply decomposeCNJ_return in Hd as [c ->].
    destruct c as [a f1 f2 f3 f4 f5]. unfold five_fields. simpl.
    rewrite !append_assoc. reflexivity.
Qed.

Lemma decomposed_fields_reassemble_witness :
  exists d, decomposeCNJ ∅ "00013276420188260158" = Return d /\
            six_fields d = "00013276420188260158" /\
            argNumber d = five_fields d ++ "00".
Proof.
  eexists. split; [reflexivity|].
  destruct (decomposed_fields_reassemble ∅ "00013276420188260158" _ eq_refl)
    as (_ & Hcompact & Harg).
  split; [apply Hcompact; reflexivity | exact Harg].
Defined.

(** X3.  validateCNJFormat answers true exactly on the texts decomposeCNJ
    accepts, described by their shape alone; the answer does not depend on
    the district dataset, and no character has to be a digit. *)
Theorem validateCNJFormat_shape
  (DISTRICTS DISTRICTS' : Districts.Dataset) (cnj : string) :
  validateCNJFormat DISTRICTS cnj = validateCNJFormat DISTRICTS' cnj /\
  (validateCNJFormat DISTRICTS cnj = true <->
   (20 <= String.length cnj <= 25)%nat /\
   ((JS.includes "-" cnj = false /\ String.length cnj = 20%nat) \/
    exists c, masked cnj c)).
Proof.
  assert (Hshape : forall D,
             validateCNJFormat D cnj = true <->
             (20 <= String.length cnj <= 25)%nat /\
             ((JS.includes "-" cnj = false /\ String.length cnj = 20%nat) \/
              exists c, masked cnj c)).
  { intros D. unfold validateCNJFormat. split.
    - destruct (decomposeCNJ D cnj) as [d|e] eqn:Hd; [|discriminate].
      intros _. apply decomposeCNJ_cases in Hd as [Hlen Hd].
      split; [exact Hlen|].
      destruct Hd as [(H1 & H2 & _) | (_ & c & Hc & _)]; eauto.
    - intros [Hlen [[H1 H2] | [c Hc]]].
      + rewrite (decomposeCNJ_compact D cnj H1 H2). reflexivity.
      + rewrite (decomposeCNJ_masked D cnj c Hlen Hc). reflexivity. }
  split; [|apply Hshape].
  destruct (validateCNJFormat DISTRICTS cnj) eqn:H1,
           (validateCNJFormat DISTRICTS' cnj) eqn:H2; try reflexivity.
  - apply (Hshape DISTRICTS) in H1. apply (Hshape DISTRICTS') in H1.
    congruence.
  - apply (Hshape DISTRICTS') in H2. apply (Hshape DISTRICTS) in H2.
    congruence.
Qed.

Lemma validateCNJFormat_shape_witness :
  validateCNJFormat ∅ "abcdefghijklmnopqrst" = true.
Proof.
  apply (validateCNJFormat_shape ∅ ∅ "abcdefghijklmnopqrst").
  split; [simpl; lia|]. left. split; reflexivity.
Defined.

(** ** Arithmetic of the check digit *)

Lemma decimal_fold_shift (s : string) (acc : Z) :
  fold_left (fun a c => 10 * a + JS.digit_value c) (list_ascii_of_string s) acc
  = acc * 10 ^ Z.of_nat (String.length s) + decimal_value s.
Proof.
  unfold decimal_value. revert acc.
  induction s as [|c s IH]; intros acc; simpl fold_left.
  - simpl. lia.
  - rewrite (IH (10 * acc + JS.digit_value c)), (IH (10 * 0 + JS.digit_value c)).
    change (String.length (String c s)) with (S (String.length s)).
    rewrite Nat2Z.inj_succ, Z.pow_succ_r by lia. lia.
Qed.

Lemma decimal_value_cons (c : ascii) (s : string) :
  decimal_value (String c s) =
  JS.digit_value c * 10 ^ Z.of_nat (String.length s) + decimal_value s.
Proof.
  unfold decimal_value at 1. simpl fold_left.
  rewrite decimal_fold_shift. lia.
Qed.

Lemma decimal_value_app (s t : string) :
  decimal_value (s ++ t) =
  decimal_value s * 10 ^ Z.of_nat (String.length t) + decimal_value t.
Proof.
  induction s as [|c s IH].
  - change (EmptyString ++ t) with t. change (decimal_value "") with 0. lia.
  - rewrite cons_append, !decimal_value_cons, IH, length_append.
    rewrite Nat2Z.inj_add, Z.pow_add_r by lia. lia.
Qed.

Lemma digit_value_inj (c c' : ascii) :
  JS.digit_value c = JS.digit_value c' -> c = c'.
Proof.
  unfold JS.digit_value, JS.code. intros H.
  rewrite <- (ascii_N_embedding c), <- (ascii_N_embedding c').
  f_equal. lia.
Qed.

(** No multiple of a power of ten by a non-zero factor below 97 is a
    multiple of 97. *)
Lemma power_of_ten_not_multiple_of_97 (delta k : Z) :
  0 <= k -> delta <> 0 -> -97 < delta < 97 -> (delta * 10 ^ k) mod 97 <> 0.
Proof.
  intros Hk Hd Hb Hmod.
  apply Z.mod_divide in Hmod; [|lia].
  rewrite Z.mul_comm in Hmod.
  apply Z.gauss in Hmod.
  - destruct Hmod as [q Hq]. nia.
  - apply Z.coprime_pow_r; [exact Hk | reflexivity].
Qed.

(** The digit computed for a string of digits, as a number. *)
Lemma check_digit_rendering (d : Z) :
  2 <= d <= 98 ->
  digits_of_length 2 (JS.padStart 2 "0" (JS.toString d)) /\
  decimal_value (JS.padStart 2 "0" (JS.toString d)) = d.
Proof.
  intros Hd.
  assert (Hall : forallb
            (fun n =>
               let r := JS.padStart 2 "0" (JS.toString (Z.of_nat n)) in
               (String.length r =? 2)%nat && JS.all_chars JS.is_digit r
               && (decimal_value r =? Z.of_nat n))
            (seq 2 97) = true) by (vm_compute; reflexivity).
  rewrite forallb_forall in Hall.
  specialize (Hall (Z.to_nat d)). rewrite Z2Nat.id in Hall by lia.
  assert (Hin : In (Z.to_nat d) (seq 2 97)) by (apply in_seq; lia).
  apply Hall in Hin. simpl in Hin.
  apply andb_true_iff in Hin as [[Hlen Hdig]%andb_true_iff Hval].
  apply Nat.eqb_eq in Hlen. apply Z.eqb_eq in Hval.
  repeat split; assumption.
Qed.

Lemma calculateVerifyingDigit_digits (s : string) :
  s <> EmptyString -> all_digits s ->
  exists dd,
    calculateVerifyingDigit s = Return dd /\
    digits_of_length 2 dd /\
    decimal_value dd = 98 - decimal_value s mod 97.
Proof.
  intros Hne Hs. eexists. split; [|apply check_digit_rendering].
  - unfold calculateVerifyingDigit. rewrite (BigInt_digits s Hne Hs).
    unfold SUB, MOD.
    rewrite Z.rem_mod_nonneg by (pose proof (decimal_value_nonneg s Hs); lia).
    reflexivity.
  - pose proof (Z.mod_pos_bound (decimal_value s) 97 ltac:(lia)). lia.
Qed.

(** X4.  The digit computed for a body followed by "00" completes the body
    to a number that leaves remainder 1 when divided by 97: for every
    string of digits [body], calculateVerifyingDigit(body + "00") returns
    two digits dd, and body followed by dd, read as a number, is 1
    modulo 97. *)
Theorem check_digit_completes_to_1_mod_97 (body : string) :
  all_digits body ->
  exists dd,
    calculateVerifyingDigit (body ++ "00") = Return dd /\
    digits_of_length 2 dd /\
    decimal_value (body ++ dd) mod 97 = 1.
Proof.
  intros Hbody.
  destruct (calculateVerifyingDigit_digits (body ++ "00"))
    as (dd & Hdd & Hlen & Hval).
  { destruct body; discriminate. }
  { apply all_digits_app. split; [exact Hbody | reflexivity]. }
  exists dd. split; [exact Hdd|]. split; [exact Hlen|].
  rewrite decimal_value_app in Hval |- *.
  destruct Hlen as [Hlen _]. rewrite Hlen, Hval.
  change (String.length "00") with 2%nat. change (decimal_value "00") with 0.
  set (n := decimal_value body * 10 ^ Z.of_nat 2 + 0).
  replace (decimal_value body * 10 ^ Z.of_nat 2 + (98 - n mod 97))
    with (1 + (n / 97 + 1) * 97)
    by (pose proof (Z.div_mod n 97 ltac:(lia)); subst n; lia).
  rewrite Z.mod_add by lia. reflexivity.
Qed.

Lemma check_digit_completes_to_1_mod_97_witness :
  all_digits "000132720188260158" /\
  exists dd,
    calculateVerifyingDigit ("000132720188260158" ++ "00") = Return dd /\
    decimal_value ("000132720188260158" ++ dd) mod 97 = 1.
Proof.
  split; [reflexivity|].
  destruct (check_digit_completes_to_1_mod_97 "000132720188260158" eq_refl)
    as (dd & Hdd & _ & Hmod).
  exists dd. split; assumption.
Defined.

Lemma check_digits_differ (s t : string) :
  s <> EmptyString -> t <> EmptyString -> all_digits s -> all_digits t ->
  (decimal_value s - decimal_value t) mod 97 <> 0 ->
  calculateVerifyingDigit s <> calculateVerifyingDigit t.
Proof.
  intros Hs0 Ht0 Hs Ht Hmod Heq.
  destruct (calculateVerifyingDigit_digits s Hs0 Hs) as (ds & Hds & _ & Hvs).
  destruct (calculateVerifyingDigit_digits t Ht0 Ht) as (dt & Hdt & _ & Hvt).
  rewrite Hds, Hdt in Heq. injection Heq as ->.
  apply Hmod, Z.cong_iff_0. lia.
Qed.

Lemma one_digit_apart_value (s t : string) :
  one_digit_apart s t ->
  all_digits s /\ all_digits t /\ String.length s = String.length t /\
  exists delta k,
    0 <= k /\ delta <> 0 /\ -97 < delta < 97 /\
    decimal_value s - decimal_value t = delta * 10 ^ k.
Proof.
  induction 1 as [c c' s Hc Hc' Hne Hs | c s s' Hc _ IH].
  - repeat split; try (apply all_digits_cons; split; assumption).
    exists (JS.digit_value c - JS.digit_value c'), (Z.of_nat (String.length s)).
    destruct (digit_facts c Hc) as (_ & _ & Hb & _).
    destruct (digit_facts c' Hc') as (_ & _ & Hb' & _).
    split; [lia|]. split.
    + intros H0. apply Hne, digit_value_inj. lia.
    + split; [lia|]. rewrite !decimal_value_cons. lia.
  - destruct IH as (Hs & Hs' & Hlen & delta & k & Hk & Hd & Hb & Hv).
    repeat split; try (apply all_digits_cons; split; assumption).
    + simpl. congruence.
    + exists delta, k. repeat split; try assumption; try lia.
      rewrite !decimal_value_cons, Hlen. lia.
Qed.

Lemma adjacent_swapped_value (s t : string) :
  adjacent_swapped s t ->
  all_digits s /\ all_digits t /\ String.length s = String.length t /\
  exists delta k,
    0 <= k /\ delta <> 0 /\ -97 < delta < 97 /\
    decimal_value s - decimal_value t = delta * 10 ^ k.
Proof.
  induction 1 as [a b s Ha Hb Hne Hs | c s s' Hc _ IH].
  - repeat split;
      try (apply all_digits_cons; split;
           [|apply all_digits_cons; split]; assumption).
    exists (9 * (JS.digit_value a - JS.digit_value b)),
           (Z.of_nat (String.length s)).
    destruct (digit_facts a Ha) as (_ & _ & Hba & _).
    destruct (digit_facts b Hb) as (_ & _ & Hbb & _).
    split; [lia|]. split.
    + intros H0. apply Hne, digit_value_inj. lia.
    + split; [lia|]. rewrite !decimal_value_cons.
      change (String.length (String b s)) with (S (String.length s)).
      change (String.length (String a s)) with (S (String.length s)).
      rewrite Nat2Z.inj_succ, Z.pow_succ_r by lia. lia.
  - destruct IH as (Hs & Hs' & Hlen & delta & k & Hk & Hd & Hb & Hv).
    repeat split; try (apply all_digits_cons; split; assumption).
    + simpl. congruence.
    + exists delta, k. repeat split; try assumption; try lia.
      rewrite !decimal_value_cons, Hlen. lia.
Qed.

Lemma calculateVerifyingDigit_one_digit_apart (s t : string) :
  one_digit_apart s t ->
  calculateVerifyingDigit s <> calculateVerifyingDigit t.
Proof.
  intros H. pose proof H as Hinv.
  apply one_digit_apart_value in H
    as (Hs & Ht & Hlen & delta & k & Hk & Hd & Hb & Hv).
  apply check_digits_differ; try assumption.
  - destruct Hinv; discriminate.
  - destruct Hinv; discriminate.
  - rewrite Hv. apply power_of_ten_not_multiple_of_97; assumption.
Qed.

(** X5.  Exchanging two adjacent, different digits of a string of digits
    always changes the digit calculateVerifyingDigit computes for it. *)
Theorem check_digit_detects_adjacent_swap (s t : string) :
  adjacent_swapped s t ->
  calculateVerifyingDigit s <> calculateVerifyingDigit t.
Proof.
  intros H. pose proof H as Hinv.
  apply adjacent_swapped_value in H
    as (Hs & Ht & Hlen & delta & k & Hk & Hd & Hb & Hv).
  apply check_digits_differ; try assumption.
  - destruct Hinv; discriminate.
  - destruct Hinv; discriminate.
  - rewrite Hv. apply power_of_ten_not_multiple_of_97; assumption.
Qed.

Lemma check_digit_detects_adjacent_swap_witness :
  calculateVerifyingDigit "00013272018826015800" <>
  calculateVerifyingDigit "00013272018826051800".
Proof.
  apply check_digit_detects_adjacent_swap.
  do 15 (apply swapped_later; [reflexivity|]).
  apply swapped_here; [reflexivity | reflexivity | discriminate | reflexivity].
Defined.

(** ** What a valid result means *)

Lemma validateCNJ_of DISTRICTS cnj d dd :
  decomposeCNJ DISTRICTS cnj = Return d ->
  calculateVerifyingDigit (argNumber d) = Return dd ->
  exists r, validateCNJ DISTRICTS cnj = Return r /\
            isValid r = String.eqb (verifyingDigit d) dd /\
            expectedDigit r = Some dd /\
            receivedDigit r = Some (verifyingDigit d).
Proof.
  intros Hd Hdd. unfold validateCNJ. rewrite Hd. simpl. rewrite Hdd. simpl.
  eexists. split; [reflexivity|]. repeat split.
Qed.

Lemma validateCNJ_valid DISTRICTS cnj r :
  validateCNJ DISTRICTS cnj = Return r -> isValid r = true ->
  exists d, decomposeCNJ DISTRICTS cnj = Return d /\
            calculateVerifyingDigit (argNumber d) = Return (verifyingDigit d).
Proof.
  unfold validateCNJ.
  destruct (decomposeCNJ DISTRICTS cnj) as [d|e]; simpl;
    [|intros [= <-]; discriminate].
  destruct (calculateVerifyingDigit (argNumber d)) as [dd|e] eqn:Hdd; simpl;
    [|intros [= <-]; discriminate].
  intros [= <-]. simpl. intros Heq%String.eqb_eq.
  exists d. split; congruence.
Qed.

(** X6.  What validateCNJ reports is coherent: isValid holds exactly when
    no error message is given, and exactly when the text decomposes and the
    digit computed from argNumber is the verifying digit received; then
    expectedDigit and receivedDigit are both present and equal; and the
    two digits are absent together, which happens exactly when decomposition
    or the calculation failed. *)
Theorem validateCNJ_result_coherent
  (DISTRICTS : Districts.Dataset) (cnj : string)
  (r : ValidationResult) :
  validateCNJ DISTRICTS cnj = Return r ->
  (isValid r = true <-> error r = None) /\
  (isValid r = true <->
   exists d, decomposeCNJ DISTRICTS cnj = Return d /\
             calculateVerifyingDigit (argNumber d) =
             Return (verifyingDigit d)) /\
  (isValid r = true ->
   is_Some (expectedDigit r) /\ expectedDigit r = receivedDigit r) /\
  (expectedDigit r = None <-> receivedDigit r = None) /\
  (expectedDigit r = None <->
   forall d, decomposeCNJ DISTRICTS cnj = Return d ->
             throws (calculateVerifyingDigit (argNumber d)) CALCULATION_ERROR).
Proof.
  intros Hr. unfold validateCNJ in Hr.
  destruct (decomposeCNJ DISTRICTS cnj) as [d|e] eqn:Hd; simpl in Hr.
  - destruct (calculateVerifyingDigit (argNumber d)) as [dd|e] eqn:Hdd;
      simpl in Hr; injection Hr as <-; simpl.
    + assert (Hno : ~ forall d', Return d = Return d' ->
                      throws (calculateVerifyingDigit (argNumber d'))
                        CALCULATION_ERROR).
      { intros Hall. destruct (Hall d eq_refl) as (e & He & _). congruence. }
      destruct (String.eqb_spec (verifyingDigit d) dd) as [Heq|Hne].
      * split; [split; reflexivity|].
        split; [split; [intros _; exists d; split; congruence | reflexivity]|].
        split; [intros _; split; [eauto | congruence]|].
        split; [split; discriminate|].
        split; [discriminate | intros H; destruct (Hno H)].
      * split; [split; discriminate|].
        split; [split; [discriminate|]|].
        { intros (d' & [= <-] & Hd'). congruence. }
        split; [discriminate|].
        split; [split; discriminate|].
        split; [discriminate | intros H; destruct (Hno H)].
    + split; [split; discriminate|].
      split; [split; [discriminate|]|].
      { intros (d' & [= <-] & Hd'). congruence. }
      split; [discriminate|].
      split; [split; reflexivity|].
      split; [|reflexivity].
      intros _ d' [= <-]. rewrite Hdd.
      apply calculateVerifyingDigit_throw in Hdd as (_ & Ht & _).
      exists e. split; [reflexivity | exact Ht].
  - injection Hr as <-; simpl.
    split; [split; discriminate|].
    split; [split; [discriminate | intros (d' & [=] & _)]|].
    split; [discriminate|].
    split; [split; reflexivity|].
    split; [intros _ d' [=] | reflexivity].
Qed.

Lemma validateCNJ_result_coherent_witness :
  exists r, validateCNJ ∅ "0001327-64.2018.8.26.0158" = Return r /\
            isValid r = true /\ error r = None /\
            expectedDigit r = receivedDigit r.
Proof.
  eexists. split; [reflexivity|].
  destruct (validateCNJ_result_coherent ∅ "0001327-64.2018.8.26.0158" _
              eq_refl) as (Herr & _ & Heq & _).
  split; [reflexivity|]. split; [apply Herr; reflexivity|].
  apply Heq. reflexivity.
Defined.

Lemma decimal_value_bound (s : string) :
  all_digits s -> 0 <= decimal_value s < 10 ^ Z.of_nat (String.length s).
Proof.
  induction s as [|c s IH]; [intros _; change (decimal_value "") with 0; simpl; lia|].
  intros [Hc Hs]%all_digits_cons. rewrite decimal_value_cons.
  change (String.length (String c s)) with (S (String.length s)).
  rewrite Nat2Z.inj_succ, Z.pow_succ_r by lia.
  destruct (digit_facts c Hc) as (_ & _ & Hb & _).
  specialize (IH Hs). nia.
Qed.

Lemma decimal_value_inj (s t : string) :
  all_digits s -> all_digits t -> String.length s = String.length t ->
  decimal_value s = decimal_value t -> s = t.
Proof.
  revert t. induction s as [|c s IH]; intros [|c' t]; try discriminate;
    [reflexivity|].
  intros [Hc Hs]%all_digits_cons [Hc' Ht]%all_digits_cons [= Hlen].
  rewrite !decimal_value_cons, Hlen.
  pose proof (decimal_value_bound s Hs) as Bs.
  pose proof (decimal_value_bound t Ht) as Bt. rewrite Hlen in Bs.
  destruct (digit_facts c Hc) as (_ & _ & Hb & _).
  destruct (digit_facts c' Hc') as (_ & _ & Hb' & _).
  intros Hv.
  assert (Hdv : JS.digit_value c = JS.digit_value c') by nia.
  rewrite (digit_value_inj c c' Hdv). f_equal.
  apply IH; try assumption. nia.
Qed.

Lemma five_fields_digits DISTRICTS (c : Components) :
  validateCNJComponents c = Return tt ->
  digits_of_length 18 (five_fields (buildDecomposedCNJ DISTRICTS c)) /\
  digits_of_length 2 (c_verifyingDigit c) /\
  argNumber (buildDecomposedCNJ DISTRICTS c) =
  five_fields (buildDecomposedCNJ DISTRICTS c) ++ "00".
Proof.
  intros (Ha & Hvd & Hc & Hd & He & Hf)%validateCNJComponents_return.
  destruct c as [a vd c d e f]. simpl in *. unfold five_fields. simpl.
  split; [|split; [exact Hvd|]].
  - change 18%nat with (7 + (4 + (1 + (2 + 4))))%nat.
    repeat apply digits_of_length_app; assumption.
  - rewrite !append_assoc. reflexivity.
Qed.

(** X7.  For an identifier whose six fields are digits of the expected
    widths, validateCNJ answers isValid exactly when the five fields other
    than the verifying digit, followed by the verifying digit, read as one
    number leave remainder 1 modulo 97 and the verifying digit lies between
    02 and 98: the digits 00, 01 and 99 are never accepted, although they
    can satisfy the congruence. *)
Theorem valid_iff_remainder_1
  (DISTRICTS : Districts.Dataset) (cnj : string)
  (d : DecomposedCNJ) (r : ValidationResult) :
  decomposeCNJ DISTRICTS cnj = Return d ->
  validateCNJComponents (components_of d) = Return tt ->
  validateCNJ DISTRICTS cnj = Return r ->
  (isValid r = true <->
   decimal_value (five_fields d ++ verifyingDigit d) mod 97 = 1 /\
   2 <= decimal_value (verifyingDigit d) <= 98).
Proof.
  intros Hd Hv Hr.
  pose proof Hd as [c ->]%decomposeCNJ_return.
  destruct (five_fields_digits DISTRICTS c) as (H18 & Hvd & Harg).
  { destruct c; exact Hv. }
  set (dec := buildDecomposedCNJ DISTRICTS c) in *.
  replace (c_verifyingDigit c) with (verifyingDigit dec) in Hvd
    by (destruct c; reflexivity).
  destruct (calculateVerifyingDigit_digits (argNumber dec))
    as (dd & Hdd & Hdd2 & Hval).
  { rewrite Harg. destruct (five_fields dec); discriminate. }
  { rewrite Harg. apply all_digits_app. split; [apply H18 | reflexivity]. }
  destruct (validateCNJ_of DISTRICTS cnj dec dd Hd Hdd) as (r' & Hr' & Hvalid & _).
  assert (r' = r) by congruence. subst r'. rewrite Hvalid.
  rewrite Harg, decimal_value_app in Hval.
  change (String.length "00") with 2%nat in Hval.
  change (decimal_value "00") with 0 in Hval.
  rewrite decimal_value_app. destruct Hvd as [Hvdlen Hvddig].
  rewrite Hvdlen.
  pose proof (decimal_value_bound (verifyingDigit dec) Hvddig) as Bvd.
  rewrite Hvdlen in Bvd.
  set (n := decimal_value (five_fields dec) * 10 ^ Z.of_nat 2) in *.
  set (v := decimal_value (verifyingDigit dec)) in *.
  pose proof (Z.mod_pos_bound n 97 ltac:(lia)) as Bn.
  pose proof (Z.div_mod n 97 ltac:(lia)) as Hn.
  split.
  - intros Heq%String.eqb_eq.
    assert (Hv' : v = 98 - (n + 0) mod 97) by (subst v; rewrite Heq; exact Hval).
    rewrite Z.add_0_r in Hv'. split; [|lia].
    replace (n + v) with (1 + (n / 97 + 1) * 97) by lia.
    rewrite Z.mod_add by lia. reflexivity.
  - intros [Hmod Hrange]. apply String.eqb_eq.
    apply decimal_value_inj; try assumption; try apply Hdd2.
    { destruct Hdd2 as [-> _]. exact Hvdlen. }
    fold v. rewrite Hval, Z.add_0_r.
    pose proof (Z.div_mod (n + v) 97 ltac:(lia)) as Hnv.
    rewrite Hmod in Hnv. lia.
Qed.

Lemma valid_iff_remainder_1_witness :
  exists d r,
    decomposeCNJ ∅ "0001327-64.2018.8.26.0158" = Return d /\
    validateCNJ ∅ "0001327-64.2018.8.26.0158" = Return r /\
    isValid r = true /\
    decimal_value (five_fields d ++ verifyingDigit d) mod 97 = 1.
Proof.
  do 2 eexists. split; [reflexivity|]. split; [reflexivity|].
  split; [reflexivity|].
  apply (valid_iff_remainder_1 ∅ "0001327-64.2018.8.26.0158" _ _
           eq_refl eq_refl eq_refl).
  reflexivity.
Defined.

Ltac find_apart :=
  first
    [ solve [apply apart_here; [assumption | assumption | assumption | digits_goal]]
    | apply apart_later; [assumption | find_apart] ].

(** X8.  A single wrong digit is always detected.  Changing one digit of a
    string of digits changes the digit calculateVerifyingDigit computes;
    and of two compact identifiers of 20 digits that differ in exactly one
    digit, whichever it is, validateCNJ accepts at most one. *)
Theorem one_wrong_digit_is_detected :
  (forall s t,
      one_digit_apart s t ->
      calculateVerifyingDigit s <> calculateVerifyingDigit t) /\
  (forall DISTRICTS x x' r r',
      String.length x = 20%nat -> one_digit_apart x x' ->
      validateCNJ DISTRICTS x = Return r ->
      validateCNJ DISTRICTS x' = Return r' ->
      isValid r = true -> isValid r' = false).
Proof.
  split; [exact calculateVerifyingDigit_one_digit_apart|].
  intros DISTRICTS x x' r r' Hlen Hap Hr Hr' Hv.
  destruct (isValid r') eqn:Hv'; [exfalso | reflexivity].
  pose proof (one_digit_apart_value x x' Hap) as (Hdx & Hdx' & Hlen' & _).
  apply validateCNJ_valid in Hr as (d & Hd & Hc); [|exact Hv].
  apply validateCNJ_valid in Hr' as (d' & Hd' & Hc'); [|exact Hv'].
  rewrite decomposeCNJ_compact in Hd
    by (try apply includes_digits; trivial).
  rewrite decomposeCNJ_compact in Hd'
    by (try apply includes_digits; trivial; congruence).
  injection Hd as <-. injection Hd' as <-. clear Hv Hv' Hlen'.
  do 20 (destruct x as [|? x]; [discriminate Hlen|]).
  destruct x; [|discriminate Hlen]. clear Hlen.
  repeat match goal with
         | H : one_digit_apart (String _ _) _ |- _ =>
             inversion H; clear H; subst
         | H : one_digit_apart EmptyString _ |- _ => inversion H
         end;
    digit_hyps;
    cbv [buildDecomposedCNJ compact_slices argNumber verifyingDigit
         JS.substring String.substring String.length Nat.min Nat.max Nat.sub
         String.append MATH_SUFFIX] in Hc, Hc';
    first
      [ rewrite Hc in Hc'; injection Hc' as ?; congruence
      | match type of Hc with
        | calculateVerifyingDigit ?s = _ =>
            match type of Hc' with
            | calculateVerifyingDigit ?t = _ =>
                apply (calculateVerifyingDigit_one_digit_apart s t);
                [find_apart | congruence]
            end
        end ].
Qed.

Lemma one_wrong_digit_is_detected_witness :
  exists r r',
    validateCNJ ∅ "00013276420188260158" = Return r /\
    validateCNJ ∅ "00013276420188260168" = Return r' /\
    isValid r = true /\ isValid r' = false.
Proof.
  do 2 eexists. split; [reflexivity|]. split; [reflexivity|].
  split; [reflexivity|].
  eapply (proj2 one_wrong_digit_is_detected ∅ "00013276420188260158"
            "00013276420188260168");
    [reflexivity | | reflexivity | reflexivity | reflexivity].
  do 18 (apply apart_later; [reflexivity|]).
  apply apart_here; [reflexivity | reflexivity | discriminate | reflexivity].
Defined.

(** ** Masking, unmasking and detecting the syntax *)

Lemma all_chars_substring (p : ascii -> bool) (s : string) (i len : nat) :
  JS.all_chars p s = true -> JS.all_chars p (String.substring i len s) = true.
Proof.
  revert i len. induction s as [|c s IH]; intros i len Hs.
  - destruct i, len; reflexivity.
  - simpl in Hs. apply andb_true_iff in Hs as [Hc Hs].
    destruct i as [|i]; [destruct len as [|len]|]; simpl; auto.
    rewrite Hc. simpl. apply IH, Hs.
Qed.

Lemma all_digits_JS_substring (s : string) (a b : nat) :
  all_digits s -> all_digits (JS.substring a b s).
Proof. intros Hs. apply all_chars_substring, Hs. Qed.

Lemma remove_non_digits_app (s t : string) :
  JS.remove_non_digits (s ++ t) =
  JS.remove_non_digits s ++ JS.remove_non_digits t.
Proof.
  induction s as [|c s IH]; [reflexivity|].
  rewrite cons_append. simpl. rewrite IH.
  destruct (JS.is_digit c); reflexivity.
Qed.

Lemma remove_non_digits_all_digits (s : string) :
  all_digits (JS.remove_non_digits s).
Proof.
  induction s as [|c s IH]; [reflexivity|]. simpl.
  destruct (JS.is_digit c) eqn:Hc; [|exact IH].
  apply all_digits_cons. split; assumption.
Qed.

Lemma compact_slices_concat (s : string) :
  String.length s = 20%nat ->
  JS.substring 0 7 s ++ JS.substring 7 9 s ++ JS.substring 9 13 s
    ++ JS.substring 13 14 s ++ JS.substring 14 16 s ++ JS.substring 16 20 s
  = s.
Proof.
  intros Hlen.
  do 20 (destruct s as [|? s]; [discriminate Hlen|]).
  destruct s; [reflexivity | discriminate Hlen].
Qed.

Lemma formatCNJ_return (cnj m : string) :
  formatCNJ cnj = Return m <->
  String.length (normalizeCNJ cnj) = 20%nat /\ m = mask_of (normalizeCNJ cnj).
Proof.
  unfold formatCNJ.
  destruct (Nat.eqb_spec (String.length (normalizeCNJ cnj)) 20) as [Heq|Hne];
    simpl.
  - split; [intros [= <-]; split; [exact Heq | reflexivity]|].
    intros [_ ->]. reflexivity.
  - split; [discriminate | intros [Heq _]; congruence].
Qed.

Lemma normalizeCNJ_mask_of (n : string) :
  String.length n = 20%nat -> all_digits n ->
  normalizeCNJ (mask_of n) = n /\ String.length (mask_of n) = 25%nat.
Proof.
  intros Hlen Hn. split.
  - unfold normalizeCNJ, mask_of.
    rewrite !remove_non_digits_app.
    change (JS.remove_non_digits "-") with EmptyString.
    change (JS.remove_non_digits ".") with EmptyString.
    rewrite !remove_non_digits_digits by (apply all_digits_JS_substring, Hn).
    change (EmptyString ++ JS.substring 7 9 n) with (JS.substring 7 9 n).
    change (EmptyString ++ JS.substring 9 13 n) with (JS.substring 9 13 n).
    change (EmptyString ++ JS.substring 13 14 n) with (JS.substring 13 14 n).
    change (EmptyString ++ JS.substring 14 16 n) with (JS.substring 14 16 n).
    change (EmptyString ++ JS.substring 16 20 n) with (JS.substring 16 20 n).
    apply compact_slices_concat, Hlen.
  - do 20 (destruct n as [|? n]; [discriminate Hlen|]).
    destruct n; [reflexivity | discriminate Hlen].
Qed.

(** X9.  formatCNJ looks at the digits of its argument only.  It returns
    exactly when the argument holds 20 digits; the result has 25
    characters, holds the same digits as the argument, is also the result
    for the bare digits, and is a fixed point of formatCNJ.  Every failure
    is the InvalidLength error built from the raw argument, so its message
    reports the length of the text, not the number of digits found. *)
Theorem formatCNJ_keeps_the_digits (cnj : string) :
  (forall m, formatCNJ cnj = Return m ->
     String.length m = 25%nat /\
     normalizeCNJ m = normalizeCNJ cnj /\
     formatCNJ (normalizeCNJ cnj) = Return m /\
     formatCNJ m = Return m) /\
  (returns (formatCNJ cnj) <-> String.length (normalizeCNJ cnj) = 20%nat) /\
  (forall e, formatCNJ cnj = Throw e -> e = invalidLength cnj 20).
Proof.
  pose proof (remove_non_digits_all_digits cnj) as Hdig.
  fold (normalizeCNJ cnj) in Hdig.
  split; [|split].
  - intros m [Hlen ->]%formatCNJ_return.
    destruct (normalizeCNJ_mask_of _ Hlen Hdig) as [Hnorm Hlen25].
    split; [exact Hlen25|]. split; [exact Hnorm|]. split.
    + apply formatCNJ_return.
      replace (normalizeCNJ (normalizeCNJ cnj)) with (normalizeCNJ cnj)
        by (symmetry; apply remove_non_digits_digits, Hdig).
      split; [exact Hlen | reflexivity].
    + apply formatCNJ_return. rewrite Hnorm.
      split; [exact Hlen | reflexivity].
  - split.
    + intros [m [Hlen _]%formatCNJ_return]. exact Hlen.
    + intros Hlen. eexists. apply formatCNJ_return.
      split; [exact Hlen | reflexivity].
  - unfold formatCNJ. destruct (negb _); [intros e [= <-]; reflexivity|].
    discriminate.
Qed.

Lemma formatCNJ_keeps_the_digits_witness :
  formatCNJ "CNJ 0001327 64 2018 8 26 0158!" =
    Return "0001327-64.2018.8.26.0158" /\
  formatCNJ "0001327-64.2018.8.26.0158" = Return "0001327-64.2018.8.26.0158".
Proof.
  split; [reflexivity|].
  apply (proj1 (formatCNJ_keeps_the_digits "CNJ 0001327 64 2018 8 26 0158!")).
  reflexivity.
Defined.

Lemma components_of_build DISTRICTS c :
  components_of (buildDecomposedCNJ DISTRICTS c) = c.
Proof. destruct c; reflexivity. Qed.

Lemma digits_without (sep : ascii) (n : nat) (s : string) :
  JS.is_digit sep = false -> digits_of_length n s ->
  JS.includes sep s = false.
Proof. intros Hsep [_ Hs]. apply includes_digits; assumption. Qed.

Lemma validated_is_masked (c : Components) :
  validateCNJComponents c = Return tt ->
  masked (c_lawsuitNumber c ++ "-" ++ c_verifyingDigit c ++ "."
            ++ c_protocolYear c ++ "." ++ c_segment c ++ "." ++ c_court c
            ++ "." ++ c_sourceUnit c) c.
Proof.
  intros (Ha & Hb & Hc & Hd & He & Hf)%validateCNJComponents_return.
  split; [reflexivity|].
  split; [eapply digits_without; [reflexivity | exact Ha]|].
  repeat constructor; eapply digits_without; try reflexivity; eassumption.
Qed.

Lemma validated_mask_text (c : Components) :
  validateCNJComponents c = Return tt ->
  let text := c_lawsuitNumber c ++ c_verifyingDigit c ++ c_protocolYear c
                ++ c_segment c ++ c_court c ++ c_sourceUnit c in
  digits_of_length 20 text /\
  mask_of text =
  c_lawsuitNumber c ++ "-" ++ c_verifyingDigit c ++ "."
    ++ c_protocolYear c ++ "." ++ c_segment c ++ "." ++ c_court c
    ++ "." ++ c_sourceUnit c.
Proof.
  intros (Ha & Hb & Hc & Hd & He & Hf)%validateCNJComponents_return.
  destruct c as [a b c d e f]. simpl in *. split.
  - change 20%nat with (7 + (2 + (4 + (1 + (2 + 4)))))%nat.
    repeat apply digits_of_length_app; assumption.
  - destruct Ha as [Ha _], Hb as [Hb _], Hc as [Hc _], Hd as [Hd _],
      He as [He _], Hf as [Hf _].
    do 7 (destruct a as [|? a]; [discriminate Ha|]).
    destruct a; [|discriminate Ha].
    do 2 (destruct b as [|? b]; [discriminate Hb|]).
    destruct b; [|discriminate Hb].
    do 4 (destruct c as [|? c]; [discriminate Hc|]).
    destruct c; [|discriminate Hc].
    destruct d as [|? d]; [discriminate Hd|].
    destruct d; [|discriminate Hd].
    do 2 (destruct e as [|? e]; [discriminate He|]).
    destruct e; [|discriminate He].
    do 4 (destruct f as [|? f]; [discriminate Hf|]).
    destruct f; [|discriminate Hf].
    reflexivity.
Qed.

(** X10.  For an identifier of either syntax whose six fields are digits of
    the expected widths, the stored lawsuitCNJFormat is the canonical form:
    it is what formatCNJ makes of the input, it has the input's digits, and
    decomposing or validating it gives the same result as the input. *)
Theorem lawsuitCNJFormat_is_canonical
  (DISTRICTS : Districts.Dataset) (cnj : string)
  (d : DecomposedCNJ) :
  decomposeCNJ DISTRICTS cnj = Return d ->
  validateCNJComponents (components_of d) = Return tt ->
  formatCNJ cnj = Return (lawsuitCNJFormat d) /\
  normalizeCNJ cnj = six_fields d /\
  decomposeCNJ DISTRICTS (lawsuitCNJFormat d) = Return d /\
  validateCNJ DISTRICTS (lawsuitCNJFormat d) = validateCNJ DISTRICTS cnj.
Proof.
  intros Hd Hv.
  pose proof Hd as [c ->]%decomposeCNJ_return.
  rewrite components_of_build in Hv.
  pose proof (validated_is_masked c Hv) as Hmasked.
  pose proof (validated_mask_text c Hv) as [[Hlen Hdig] Hmask].
  assert (Hfmt : lawsuitCNJFormat (buildDecomposedCNJ DISTRICTS c) =
                 c_lawsuitNumber c ++ "-" ++ c_verifyingDigit c ++ "."
                   ++ c_protocolYear c ++ "." ++ c_segment c ++ "."
                   ++ c_court c ++ "." ++ c_sourceUnit c)
    by (destruct c; reflexivity).
  assert (Hsix : six_fields (buildDecomposedCNJ DISTRICTS c) =
                 c_lawsuitNumber c ++ c_verifyingDigit c ++ c_protocolYear c
                   ++ c_segment c ++ c_court c ++ c_sourceUnit c)
    by (destruct c; reflexivity).
  assert (Hnorm : normalizeCNJ cnj = six_fields (buildDecomposedCNJ DISTRICTS c)).
  { apply decomposeCNJ_cases in Hd
      as [_ [(Hno & H20 & Heq) | (_ & c' & (Hcnj & _) & Heq)]].
    - assert (c = compact_slices cnj) as ->.
      { rewrite <- (components_of_build DISTRICTS c), Heq.
        apply components_of_build. }
      rewrite Hsix. simpl. rewrite (compact_slices_concat cnj H20).
      apply remove_non_digits_digits.
      rewrite <- (compact_slices_concat cnj H20). exact Hdig.
    - assert (c = c') as <-.
      { rewrite <- (components_of_build DISTRICTS c), Heq.
        apply components_of_build. }
      rewrite Hsix, Hcnj. unfold normalizeCNJ.
      apply validateCNJComponents_return in Hv
        as (Ha & Hb & Hc & Hd' & He & Hf).
      rewrite !remove_non_digits_app.
      change (JS.remove_non_digits "-") with EmptyString.
      change (JS.remove_non_digits ".") with EmptyString.
      rewrite !remove_non_digits_digits
        by (apply Ha || apply Hb || apply Hc || apply Hd' || apply He
            || apply Hf).
      reflexivity. }
  assert (Hdec : decomposeCNJ DISTRICTS
                   (lawsuitCNJFormat (buildDecomposedCNJ DISTRICTS c))
                 = Return (buildDecomposedCNJ DISTRICTS c)).
  { rewrite Hfmt. apply decomposeCNJ_masked; [|exact Hmasked].
    rewrite <- Hmask.
    destruct (normalizeCNJ_mask_of _ Hlen Hdig) as [_ ->]. lia. }
  split; [|split; [exact Hnorm|split; [exact Hdec|]]].
  - apply formatCNJ_return. rewrite Hnorm, Hsix.
    split; [exact Hlen|]. rewrite Hfmt. symmetry. exact Hmask.
  - unfold validateCNJ. rewrite Hdec, Hd. reflexivity.
Qed.

Lemma lawsuitCNJFormat_is_canonical_witness :
  exists d,
    decomposeCNJ ∅ "00013276420188260158" = Return d /\
    formatCNJ "00013276420188260158" = Return (lawsuitCNJFormat d) /\
    lawsuitCNJFormat d = "0001327-64.2018.8.26.0158" /\
    validateCNJ ∅ "0001327-64.2018.8.26.0158" =
    validateCNJ ∅ "00013276420188260158".
Proof.
  eexists. split; [reflexivity|].
  destruct (lawsuitCNJFormat_is_canonical ∅ "00013276420188260158" _
              eq_refl eq_refl) as (Hfmt & _ & _ & Hval).
  split; [exact Hfmt|]. split; [reflexivity | exact Hval].
Defined.

Lemma slice_is_substring (a b : nat) (s : string) :
  (a <= b)%nat -> JSMore.slice a b s = JS.substring a b s.
Proof.
  intros Hab. unfold JSMore.slice, JS.substring. simpl.
  rewrite (Nat.min_l (Nat.min a _) (Nat.min b _)) by lia.
  rewrite (Nat.max_r (Nat.min a _) (Nat.min b _)) by lia.
  reflexivity.
Qed.

(** X11.  The two formatters agree: formatCNJWithMask of utils/formatters
    returns a mask exactly when formatCNJ of core/validator does, and then
    the same one; removeCNJMask undoes it up to the digits; where they
    fail, the first throws a plain Error with a fixed message and the
    second an InvalidLength error. *)
Theorem formatCNJWithMask_agrees (cnj : string) :
  (forall m, Formatters.formatCNJWithMask cnj = inr m <->
             formatCNJ cnj = Return m) /\
  (forall m, Formatters.formatCNJWithMask cnj = inr m ->
             Formatters.removeCNJMask m = Formatters.removeCNJMask cnj) /\
  (forall msg, Formatters.formatCNJWithMask cnj = inl msg ->
               msg = "CNJ deve ter exatamente 20 dígitos" /\
               formatCNJ cnj = Throw (invalidLength cnj 20)).
Proof.
  assert (Hagree : forall m, Formatters.formatCNJWithMask cnj = inr m <->
                             formatCNJ cnj = Return m).
  { intros m. rewrite formatCNJ_return.
    unfold Formatters.formatCNJWithMask, normalizeCNJ.
    rewrite !slice_is_substring by lia.
    destruct (Nat.eqb_spec (String.length (JS.remove_non_digits cnj)) 20)
      as [Heq|Hne]; simpl.
    - split; [intros [= <-]; split; [exact Heq | reflexivity]|].
      intros [_ ->]. reflexivity.
    - split; [discriminate | intros [Heq _]; congruence]. }
  split; [exact Hagree|]. split.
  - intros m Hm%Hagree. unfold Formatters.removeCNJMask.
    apply formatCNJ_return in Hm as [Hlen ->].
    apply normalizeCNJ_mask_of; [exact Hlen|].
    apply remove_non_digits_all_digits.
  - unfold Formatters.formatCNJWithMask, formatCNJ, normalizeCNJ.
    destruct (negb _); [|discriminate].
    intros msg [= <-]. split; reflexivity.
Qed.

Lemma formatCNJWithMask_agrees_witness :
  Formatters.formatCNJWithMask "00013276420188260158" =
    inr "0001327-64.2018.8.26.0158" /\
  Formatters.removeCNJMask "0001327-64.2018.8.26.0158" =
    Formatters.removeCNJMask "00013276420188260158".
Proof.
  destruct (formatCNJWithMask_agrees "00013276420188260158")
    as (Hagree & Hremove & _).
  split; [apply Hagree; reflexivity|].
  apply Hremove, Hagree. reflexivity.
Defined.

(** X12.  detectCNJFormat answers 'unformatted' exactly for the texts of 20
    decimal digits, and those decompose into fields that pass
    validateCNJComponents; whenever its answer is not 'invalid', formatCNJ
    returns; but 'formatted' only means 20 digits, a hyphen and a dot
    somewhere: such a text need not decompose. *)
Theorem detectCNJFormat_meaning :
  (forall cnj,
      detectCNJFormat cnj = unformatted <->
      String.length cnj = 20%nat /\ all_digits cnj) /\
  (forall DISTRICTS cnj,
      detectCNJFormat cnj = unformatted ->
      exists d, decomposeCNJ DISTRICTS cnj = Return d /\
                validateCNJComponents (components_of d) = Return tt) /\
  (forall cnj, detectCNJFormat cnj <> invalid -> returns (formatCNJ cnj)) /\
  (exists cnj,
      detectCNJFormat cnj = formatted /\
      forall DISTRICTS, throws (decomposeCNJ DISTRICTS cnj) INVALID_FORMAT).
Proof.
  assert (Hun : forall cnj,
             detectCNJFormat cnj = unformatted <->
             String.length cnj = 20%nat /\ all_digits cnj).
  { intros cnj. unfold detectCNJFormat. split.
    - destruct (negb _); [discriminate|].
      destruct (_ && _); [discriminate|].
      destruct (test_digits 20 cnj) eqn:Ht; [|discriminate].
      intros _. apply test_digits_spec, Ht.
    - intros [Hlen Hdig]. unfold normalizeCNJ.
      rewrite (remove_non_digits_digits cnj Hdig), Hlen. simpl.
      rewrite (includes_digits "-" cnj eq_refl Hdig). simpl.
      replace (test_digits 20 cnj) with true; [reflexivity|].
      symmetry. apply test_digits_spec. split; assumption. }
  split; [exact Hun|]. split; [|split].
  - intros DISTRICTS cnj [Hlen Hdig]%Hun.
    eexists. split.
    + apply decomposeCNJ_compact;
        [apply includes_digits; [reflexivity | exact Hdig] | exact Hlen].
    + rewrite components_of_build.
      do 20 (destruct cnj as [|? cnj]; [discriminate Hlen|]).
      destruct cnj; [|discriminate Hlen].
      digit_hyps. unfold validateCNJComponents, test_digits. simpl.
      repeat match goal with H : JS.is_digit _ = true |- _ => rewrite H end.
      reflexivity.
  - intros cnj Hne. unfold detectCNJFormat in Hne.
    destruct (Nat.eqb_spec (String.length (normalizeCNJ cnj)) 20)
      as [Heq|]; simpl in Hne; [|congruence].
    eexists. apply formatCNJ_return. split; [exact Heq | reflexivity].
  - exists "0001327-6420188260.158". split; [reflexivity|].
    intros DISTRICTS. eexists. split; reflexivity.
Qed.

Lemma detectCNJFormat_meaning_witness :
  detectCNJFormat "00013276420188260158" = unformatted /\
  returns (formatCNJ "0001327-64.2018.8.26.0158").
Proof.
  destruct detectCNJFormat_meaning as (Hun & _ & Hfmt & _).
  split; [apply Hun; split; reflexivity|].
  apply Hfmt. discriminate.
Defined.

(** ** The extractors *)

(** X13.  isFromYear and isFromSegment compare with the empty string when
    the text does not decompose: they answer true exactly when the text
    decomposes and the field is the one asked for, or when the text does
    not decompose and the empty string was asked for. *)
Theorem isFrom_compares_with_empty_on_failure
  (DISTRICTS : Districts.Dataset) (cnj wanted : string) :
  (isFromYear DISTRICTS cnj wanted = true <->
   (exists d, decomposeCNJ DISTRICTS cnj = Return d /\
              protocolYear d = wanted) \/
   ((exists e, decomposeCNJ DISTRICTS cnj = Throw e) /\
    wanted = EmptyString)) /\
  (isFromSegment DISTRICTS cnj wanted = true <->
   (exists d, decomposeCNJ DISTRICTS cnj = Return d /\ segment d = wanted) \/
   ((exists e, decomposeCNJ DISTRICTS cnj = Throw e) /\
    wanted = EmptyString)).
Proof.
  unfold isFromYear, isFromSegment, extractYear, extractSegment.
  destruct (decomposeCNJ DISTRICTS cnj) as [d|e]; split;
    rewrite String.eqb_eq; split;
    try (intros <-; eauto);
    try (intros [(d' & [= <-] & H) | ((e' & [=]) & _)]; exact H);
    try (intros [(d' & [=] & _) | (_ & ->)]; reflexivity).
Qed.

Lemma isFrom_compares_with_empty_on_failure_witness :
  isFromYear ∅ "invalid-cnj" "" = true /\
  isFromYear ∅ "0001327-64.2018.8.26.0158" "2018" = true.
Proof.
  split.
  - apply (isFrom_compares_with_empty_on_failure ∅ "invalid-cnj" "").
    right. split; [eexists; reflexivity | reflexivity].
  - apply (isFrom_compares_with_empty_on_failure ∅
             "0001327-64.2018.8.26.0158" "2018").
    left. eexists. split; reflexivity.
Defined.

(** ** Court codes *)

Lemma parseCourt00_throw s e :
  parseCourt00 s = Throw e -> e = invalidCourt "00" (number s).
Proof.
  unfold parseCourt00.
  repeat match goal with
         | |- context [if ?b then _ else _] => destruct b; simpl
         end; congruence.
Qed.

Lemma parseCourt90_throw s e :
  parseCourt90 s = Throw e -> e = invalidCourt "90" (number s).
Proof.
  unfold parseCourt90.
  repeat match goal with
         | |- context [if ?b then _ else _] => destruct b; simpl
         end; congruence.
Qed.

Lemma parseCourtOther_throw s court e :
  parseCourtOther s court = Throw e -> type e = INVALID_COURT.
Proof.
  unfold parseCourtOther, parseMilitaryCourt, getCourtTypeAndNumber.
  destruct (JS.parseInt court) as [n|]; [|intros [= <-]; reflexivity].
  repeat match goal with
         | |- context [if ?b then _ else _] => destruct b; simpl
         end; try discriminate; intros [= <-]; reflexivity.
Qed.

Lemma MAX_COURT_BY_SEGMENT_absent (n : Z) :
  ~ (1 <= n <= 9) -> MAX_COURT_BY_SEGMENT !! n = None.
Proof.
  intros Hn. unfold MAX_COURT_BY_SEGMENT.
  apply not_elem_of_list_to_map_1. simpl.
  rewrite !elem_of_cons, elem_of_nil. lia.
Qed.

Lemma getOriginCourt_throw court s e :
  getOriginCourt court s = Throw e -> type e = INVALID_COURT.
Proof.
  unfold getOriginCourt.
  destruct (String.eqb court _);
    [intros ->%parseCourt00_throw; reflexivity|].
  destruct (String.eqb court _);
    [intros ->%parseCourt90_throw; reflexivity|].
  apply parseCourtOther_throw.
Qed.

(** X14.  Whatever the court code and the segment, a failure of
    getOriginCourt is an InvalidCourt error; and for a segment whose number
    is not one of 1 to 9 every court code fails. *)
Theorem getOriginCourt_fails_with_InvalidCourt :
  (forall court s e,
      getOriginCourt court s = Throw e -> type e = INVALID_COURT) /\
  (forall court s,
      ~ (1 <= number s <= 9) ->
      throws (getOriginCourt court s) INVALID_COURT).
Proof.
  pose proof getOriginCourt_throw as Hthrow.
  split; [exact Hthrow|].
  intros court s Hn.
  destruct (getOriginCourt court s) as [oc|e] eqn:H;
    [exfalso | exists e; split; [reflexivity | eapply Hthrow, H]].
  unfold getOriginCourt, parseCourt00, parseCourt90, parseCourtOther,
    isCourtValid in H.
  rewrite (MAX_COURT_BY_SEGMENT_absent _ Hn) in H.
  repeat match goal with
         | H : context [number s =? ?k] |- _ =>
             replace (number s =? k) with false in H
               by (symmetry; apply Z.eqb_neq; lia)
         end.
  simpl in H.
  destruct (String.eqb court _); [discriminate|].
  destruct (String.eqb court _); [discriminate|].
  destruct (JS.parseInt court); discriminate.
Qed.

Lemma getOriginCourt_fails_with_InvalidCourt_witness :
  throws (getOriginCourt "05" (mkSegment 0 "" "")) INVALID_COURT.
Proof.
  apply (proj2 getOriginCourt_fails_with_InvalidCourt). simpl. lia.
Defined.

(** X15.  Court code "90" is accepted for segments 4 and 5 only: the
    Federal Justice Council and the Superior Labor Justice Council, both
    classified as original lawsuits. *)
Theorem getOriginCourt_council (s : Segment) (oc : OriginCourt) :
  getOriginCourt "90" s = Return oc <->
  (number s = 4 /\
   oc = mkOriginCourt CourtType.ORIGINAL_LAWSUIT "Conselho da Justiça Federal")
  \/
  (number s = 5 /\
   oc = mkOriginCourt CourtType.ORIGINAL_LAWSUIT
          "Conselho Superior da Justiça do Trabalho").
Proof.
  unfold getOriginCourt, parseCourt90. simpl.
  destruct (Z.eqb_spec (number s) 4) as [H4|H4]; simpl.
  - split; [intros [= <-]; left; split; [exact H4 | reflexivity]|].
    intros [[_ ->] | [H5 _]]; [reflexivity | lia].
  - destruct (Z.eqb_spec (number s) 5) as [H5|H5]; simpl.
    + split; [intros [= <-]; right; split; [exact H5 | reflexivity]|].
      intros [[H _] | [_ ->]]; [lia | reflexivity].
    + split; [discriminate | intros [[H _] | [H _]]; lia].
Qed.

Lemma getOriginCourt_council_witness :
  getOriginCourt "90" (segment_of TRF) =
  Return (mkOriginCourt CourtType.ORIGINAL_LAWSUIT
            "Conselho da Justiça Federal").
Proof.
  apply (getOriginCourt_council (segment_of TRF)). left.
  split; reflexivity.
Defined.

(** The type given to a numbered court of segments 4 to 8. *)
Lemma getCourtTypeAndNumber_return s n :
  In (number s) [4; 5; 6; 7; 8] ->
  getCourtTypeAndNumber s n =
  Return (if (number s =? 4) || (number s =? 5) then CourtType.REGION
          else if (number s =? 6) || (number s =? 8) then CourtType.ESTATE
          else CourtType.JUDICIAL_CIRCUIT,
          JS.toString n).
Proof.
  unfold getCourtTypeAndNumber. simpl.
  intros [<- | [<- | [<- | [<- | [<- | []]]]]]; reflexivity.
Qed.

Lemma isCourtValid_range s n :
  In (number s) [4; 5; 6; 7; 8] ->
  isCourtValid s n = true <-> 1 <= n <= getMaxCourtBySegment (number s).
Proof.
  unfold isCourtValid, getMaxCourtBySegment. simpl.
  intros [<- | [<- | [<- | [<- | [<- | []]]]]];
    (match goal with
     | |- context [MAX_COURT_BY_SEGMENT !! ?k] =>
         let v := eval vm_compute in (MAX_COURT_BY_SEGMENT !! k) in
         change (MAX_COURT_BY_SEGMENT !! k) with v
     end);
    simpl; rewrite andb_true_iff, !Z.leb_le; reflexivity.
Qed.

(** X16.  For segments 4 to 8 a court code other than "00" and "90" is
    accepted exactly when parseInt reads from it a number between 1 and
    getMaxCourtBySegment of the segment; the classification then carries
    that number in decimal, without leading zeros, and the type region for
    segments 4 and 5, federative unit for 6 and 8, judicial circuit
    for 7. *)
Theorem getOriginCourt_numbered (s : Segment) (court : string)
  (oc : OriginCourt) :
  In (number s) [4; 5; 6; 7; 8] -> court <> "00" -> court <> "90" ->
  (getOriginCourt court s = Return oc <->
   exists n,
     JS.parseInt court = Some n /\
     1 <= n <= getMaxCourtBySegment (number s) /\
     oc = mkOriginCourt
            (if (number s =? 4) || (number s =? 5) then CourtType.REGION
             else if (number s =? 6) || (number s =? 8) then CourtType.ESTATE
             else CourtType.JUDICIAL_CIRCUIT)
            (JS.toString n)).
Proof.
  intros Hs H00 H90. unfold getOriginCourt.
  apply String.eqb_neq in H00, H90.
  unfold SpecialCourtCode.ORIGINAL, SpecialCourtCode.COUNCIL.
  rewrite H00, H90. unfold parseCourtOther.
  replace (number s =? 9) with false
    by (symmetry; apply Z.eqb_neq; simpl in Hs; lia).
  destruct (JS.parseInt court) as [n|].
  - rewrite (getCourtTypeAndNumber_return s n Hs).
    destruct (isCourtValid s n) eqn:Hv; simpl.
    + apply (isCourtValid_range s n Hs) in Hv.
      split.
      * intros [= <-]. exists n. repeat split; lia.
      * intros (n' & [= <-] & _ & ->). reflexivity.
    + split; [discriminate|].
      intros (n' & [= Hn] & Hr & _). subst n'.
      apply (isCourtValid_range s n Hs) in Hr. congruence.
  - split; [discriminate | intros (n' & [=] & _)].
Qed.

Lemma getOriginCourt_numbered_witness :
  getOriginCourt "05x" (segment_of TRF) =
    Return (mkOriginCourt CourtType.REGION "5") /\
  forall oc, getOriginCourt "06" (segment_of TRF) <> Return oc.
Proof.
  split.
  - apply (getOriginCourt_numbered (segment_of TRF) "05x");
      [simpl; tauto | discriminate | discriminate |].
    exists 5. repeat split; vm_compute; congruence.
  - intros oc Hoc.
    apply (getOriginCourt_numbered (segment_of TRF) "06") in Hoc
      as (n & [= <-] & Hr & _); [|simpl; tauto | discriminate | discriminate].
    vm_compute in Hr. destruct Hr as [_ Hr]. apply Hr. reflexivity.
Defined.

(** X17.  For segment 9 a court code other than "00" and "90" is accepted
    exactly when parseInt reads 13, 21 or 26 from it: the military courts
    of Minas Gerais, Rio Grande do Sul and Sao Paulo.  The bound
    getMaxCourtBySegment gives for the segment, 3, plays no part: none of
    the accepted numbers is within it. *)
Theorem getOriginCourt_military (s : Segment) (court : string)
  (oc : OriginCourt) :
  number s = 9 -> court <> "00" -> court <> "90" ->
  (getOriginCourt court s = Return oc <->
   exists n label,
     JS.parseInt court = Some n /\
     In (n, label)
        [(13, "Minas Gerais - MG"); (21, "Rio Grande do Sul - RS");
         (26, "São Paulo - SP")] /\
     oc = mkOriginCourt CourtType.MARTIAL_COURT label) /\
  getMaxCourtBySegment (number s) = 3.
Proof.
  intros Hs H00 H90. split; [|rewrite Hs; reflexivity].
  unfold getOriginCourt.
  apply String.eqb_neq in H00, H90.
  unfold SpecialCourtCode.ORIGINAL, SpecialCourtCode.COUNCIL.
  rewrite H00, H90. unfold parseCourtOther, parseMilitaryCourt.
  rewrite Hs. simpl.
  unfold Districts.MilitaryCourtCodes.MG, Districts.MilitaryCourtCodes.RS,
    Districts.MilitaryCourtCodes.SP.
  destruct (JS.parseInt court) as [n|];
    [|split; [discriminate | intros (n & l & [=] & _)]].
  destruct (Z.eqb_spec n 13) as [->|H13]; simpl.
  { split; [intros [= <-]; do 2 eexists; split; [reflexivity|];
            split; [left; reflexivity | reflexivity]|].
    intros (n & l & [= <-] & Hin & ->). simpl in Hin.
    destruct Hin as [[= <-] | [[=] | [[=] | []]]]. reflexivity. }
  destruct (Z.eqb_spec n 21) as [->|H21]; simpl.
  { split; [intros [= <-]; do 2 eexists; split; [reflexivity|];
            split; [right; left; reflexivity | reflexivity]|].
    intros (n & l & [= <-] & Hin & ->). simpl in Hin.
    destruct Hin as [[=] | [[= <-] | [[=] | []]]]. reflexivity. }
  destruct (Z.eqb_spec n 26) as [->|H26]; simpl.
  { split; [intros [= <-]; do 2 eexists; split; [reflexivity|];
            split; [right; right; left; reflexivity | reflexivity]|].
    intros (n & l & [= <-] & Hin & ->). simpl in Hin.
    destruct Hin as [[=] | [[=] | [[= <-] | []]]]. reflexivity. }
  split; [discriminate|].
  intros (n' & l & [= <-] & Hin & _). simpl in Hin.
  destruct Hin as [[= Hn _] | [[= Hn _] | [[= Hn _] | []]]]; lia.
Qed.

Lemma getOriginCourt_military_witness :
  getOriginCourt "26" (segment_of TJM) =
    Return (mkOriginCourt CourtType.MARTIAL_COURT "São Paulo - SP").
Proof.
  apply (getOriginCourt_military (segment_of TJM) "26");
    [reflexivity | discriminate | discriminate |].
  exists 26, "São Paulo - SP". split; [reflexivity|].
  split; [right; right; left; reflexivity | reflexivity].
Defined.

(** ** Segments *)

Lemma SEGMENTS_lookup (n : Z) (seg : Segment) :
  SEGMENTS !! n = Some seg <->
  exists c, SegmentCode_value c = n /\ seg = segment_of c.
Proof.
  destruct (decide (1 <= n <= 9)) as [Hin | Hout].
  - assert (Hcases : n = 1 \/ n = 2 \/ n = 3 \/ n = 4 \/ n = 5 \/ n = 6 \/
                     n = 7 \/ n = 8 \/ n = 9) by lia.
    split.
    + repeat destruct Hcases as [-> | Hcases]; try subst n;
        vm_compute; intros [= <-];
        [exists STF | exists CNJ | exists STJ | exists TRF | exists TRT
        | exists TRE | exists STM | exists TJ | exists TJM];
        split; reflexivity.
    + intros (c & <- & ->). destruct c; reflexivity.
  - split.
    + unfold SEGMENTS.
      rewrite (not_elem_of_list_to_map_1 _ n); [discriminate|].
      simpl. rewrite !elem_of_cons, elem_of_nil. lia.
    + intros (c & <- & _). destruct c; simpl in Hout; lia.
Qed.

(** X18.  getSegment accepts a code exactly when parseInt reads from it a
    number from 1 to 9, tolerating what follows the digits; the segment it
    returns carries that number, a non-empty name and a short code that no
    other segment has.  isValidSegmentCode answers true on the same
    codes. *)
Theorem getSegment_accepts (code : string) :
  (forall seg,
      getSegment code = Some seg <->
      exists c, JS.parseInt code = Some (SegmentCode_value c) /\
                seg = segment_of c) /\
  (forall seg, getSegment code = Some seg ->
               1 <= number seg <= 9 /\
               JS.parseInt code = Some (number seg) /\
               name seg <> EmptyString /\ short seg <> EmptyString) /\
  (forall code' seg seg',
      getSegment code = Some seg -> getSegment code' = Some seg' ->
      short seg = short seg' -> seg = seg') /\
  (isValidSegmentCode code = true <-> is_Some (getSegment code)).
Proof.
  assert (Hget : forall code seg,
             getSegment code = Some seg <->
             exists c, JS.parseInt code = Some (SegmentCode_value c) /\
                       seg = segment_of c).
  { intros k seg. unfold getSegment.
    destruct (JS.parseInt k) as [n|];
      [|split; [discriminate | intros (c & [=] & _)]].
    destruct ((n <? 1) || (n >? 9)) eqn:Hr.
    - split; [discriminate|]. intros (c & [= ->] & _).
      destruct c; discriminate Hr.
    - rewrite SEGMENTS_lookup. split.
      + intros (c & <- & ->). eauto.
      + intros (c & [= ->] & ->). eauto. }
  split; [apply Hget|]. split; [|split].
  - intros seg (c & Hp & ->)%Hget. rewrite Hp.
    destruct c; repeat split; simpl; try lia; discriminate.
  - intros code' seg seg' (c & _ & ->)%Hget (c' & _ & ->)%Hget.
    destruct c, c'; simpl; intros H; try reflexivity; discriminate H.
  - unfold isValidSegmentCode, getSegment.
    destruct (JS.parseInt code) as [n|];
      [|split; [discriminate | intros [? [=]]]].
    destruct (Z.ltb_spec n 1), (Z.gtb_spec n 9), (Z.leb_spec 1 n),
      (Z.leb_spec n 9); try lia; simpl;
      try (split; [discriminate | intros [? [=]]]).
    rewrite bool_decide_eq_true. reflexivity.
Qed.

Lemma getSegment_accepts_witness :
  getSegment " 8abc" = Some (segment_of TJ) /\ getSegment "10" = None.
Proof.
  split.
  - apply (getSegment_accepts " 8abc"). exists TJ. split; reflexivity.
  - reflexivity.
Defined.

(** ** The complete analysis *)

Lemma analyzeCNJ_unfold DISTRICTS cnj :
  analyzeCNJ DISTRICTS cnj =
  match decomposeCNJ DISTRICTS cnj with
  | Throw e => Throw e
  | Return d =>
      match validateCNJ DISTRICTS cnj with
      | Throw e => Throw e
      | Return validation =>
          match getSegment (segment d) with
          | None => Throw (invalidSegment (segment d))
          | Some seg =>
              match getOriginCourt (court d) seg with
              | Throw e => Throw e
              | Return oc =>
                  Return
                    {| receivedCNJ := cnj;
                       validCNJ := isValid validation;
                       segmentName := name seg;
                       segmentShort := short seg;
                       sourceUnitType :=
                         SourceUnitTypes.sourceUnitType
                           (getSourceUnit (sourceUnit d) seg);
                       sourceUnitNumber :=
                         SourceUnitTypes.sourceUnitNumber
                           (getSourceUnit (sourceUnit d) seg);
                       courtType := originCourtType oc;
                       courtNumber := originCourtNumber oc;
                       detailed := d |}
              end
          end
      end
  end.
Proof.
  unfold analyzeCNJ.
  destruct (decomposeCNJ DISTRICTS cnj) as [d|e]; [|reflexivity]. simpl.
  destruct (validateCNJ DISTRICTS cnj) as [v|e]; [|reflexivity]. simpl.
  destruct (getSegment (segment d)) as [seg|]; [|reflexivity]. simpl.
  destruct (getOriginCourt (court d) seg) as [oc|e]; reflexivity.
Qed.

Lemma validateCNJ_returns DISTRICTS cnj :
  exists r, validateCNJ DISTRICTS cnj = Return r.
Proof.
  unfold validateCNJ.
  destruct (decomposeCNJ DISTRICTS cnj) as [d|e]; simpl; [|eauto].
  destruct (calculateVerifyingDigit (argNumber d)); simpl; eauto.
Qed.

(** X19.  analyzeCNJ returns exactly when the text decomposes, its segment
    field names a segment and its court field is accepted for that segment;
    the check digit plays no part in that, it only sets validCNJ.  The
    result keeps the raw text and the decomposition and carries the answers
    of validateCNJ, getSegment, getSourceUnit and getOriginCourt; every
    failure is an InvalidLength, InvalidFormat, InvalidSegment or
    InvalidCourt error, never a calculation error. *)
Theorem analyzeCNJ_outcome
  (DISTRICTS : Districts.Dataset) (cnj : string) :
  (returns (analyzeCNJ DISTRICTS cnj) <->
   exists d seg,
     decomposeCNJ DISTRICTS cnj = Return d /\
     getSegment (segment d) = Some seg /\
     returns (getOriginCourt (court d) seg)) /\
  (forall a, analyzeCNJ DISTRICTS cnj = Return a ->
     receivedCNJ a = cnj /\
     decomposeCNJ DISTRICTS cnj = Return (detailed a) /\
     (exists r, validateCNJ DISTRICTS cnj = Return r /\
                validCNJ a = isValid r) /\
     (exists seg,
         getSegment (segment (detailed a)) = Some seg /\
         segmentName a = name seg /\ segmentShort a = short seg /\
         getSourceUnit (sourceUnit (detailed a)) seg =
           mkSourceUnit (sourceUnitType a) (sourceUnitNumber a) /\
         getOriginCourt (court (detailed a)) seg =
           Return (mkOriginCourt (courtType a) (courtNumber a)))) /\
  (forall e, analyzeCNJ DISTRICTS cnj = Throw e ->
     In (type e)
        [INVALID_LENGTH; INVALID_FORMAT; INVALID_SEGMENT; INVALID_COURT]).
Proof.
  rewrite analyzeCNJ_unfold.
  destruct (validateCNJ_returns DISTRICTS cnj) as [r Hr]. rewrite Hr.
  destruct (decomposeCNJ DISTRICTS cnj) as [d|e] eqn:Hd.
  - destruct (getSegment (segment d)) as [seg|] eqn:Hseg.
    + destruct (getOriginCourt (court d) seg) as [oc|e] eqn:Hoc.
      * split; [|split].
        -- split.
           ++ intros _. exists d, seg.
              split; [reflexivity|]. split; [exact Hseg|].
              rewrite Hoc. eexists. reflexivity.
           ++ intros _. eexists. reflexivity.
        -- intros a [= <-]. simpl.
           split; [reflexivity|]. split; [reflexivity|].
           split; [exists r; split; reflexivity|].
           exists seg. rewrite Hoc.
           destruct (getSourceUnit (sourceUnit d) seg), oc.
           repeat split; try reflexivity; assumption.
        -- discriminate.
      * split; [|split].
        -- split; [intros [a [=]]|].
           intros (d' & seg' & [= <-] & Hs' & [oc Hoc']).
           rewrite Hseg in Hs'. injection Hs' as <-. congruence.
        -- discriminate.
        -- intros e' [= <-].
           rewrite (getOriginCourt_throw _ _ _ Hoc). simpl. tauto.
    + split; [|split].
      * split; [intros [a [=]]|].
        intros (d' & seg' & [= <-] & Hs' & _). congruence.
      * discriminate.
      * intros e' [= <-]. simpl. tauto.
  - split; [|split].
    + split; [intros [a [=]] | intros (d' & seg' & [=] & _)].
    + discriminate.
    + intros e' [= <-].
      destruct (decomposeCNJ_throw _ _ _ Hd) as [-> | ->]; simpl; tauto.
Qed.

Lemma analyzeCNJ_outcome_witness :
  exists a, analyzeCNJ ∅ "0001327-65.2018.8.26.0158" = Return a /\
            receivedCNJ a = "0001327-65.2018.8.26.0158" /\
            validCNJ a = false.
Proof.
  eexists. split; [reflexivity|].
  destruct (analyzeCNJ_outcome ∅ "0001327-65.2018.8.26.0158")
    as (_ & Hret & _).
  split; [apply (Hret _ eq_refl) | reflexivity].
Defined.

(** X20.  isValidCNJ never throws, and isValidCNJComplete answers true
    exactly when isValidCNJ does and analyzeCNJ returns: besides the check
    digit it asks for a known segment and an accepted court.  The two
    differ: an identifier with the right check digit and a court code out
    of range is valid for the first and not for the second. *)
Theorem isValidCNJComplete_meaning :
  (forall DISTRICTS cnj, returns (isValidCNJ DISTRICTS cnj)) /\
  (forall DISTRICTS cnj,
      isValidCNJComplete DISTRICTS cnj = true <->
      isValidCNJ DISTRICTS cnj = Return true /\
      returns (analyzeCNJ DISTRICTS cnj)) /\
  (exists cnj, forall DISTRICTS,
      isValidCNJ DISTRICTS cnj = Return true /\
      isValidCNJComplete DISTRICTS cnj = false).
Proof.
  split; [|split].
  - intros DISTRICTS cnj. unfold isValidCNJ.
    destruct (validateCNJ_returns DISTRICTS cnj) as [r ->].
    eexists. reflexivity.
  - intros DISTRICTS cnj. unfold isValidCNJComplete, isValidCNJ.
    rewrite analyzeCNJ_unfold.
    destruct (validateCNJ_returns DISTRICTS cnj) as [r Hr]. rewrite Hr.
    simpl.
    destruct (decomposeCNJ DISTRICTS cnj) as [d|e];
      [|split; [discriminate | intros [_ [a [=]]]]].
    destruct (getSegment (segment d)) as [seg|];
      [|split; [discriminate | intros [_ [a [=]]]]].
    destruct (getOriginCourt (court d) seg) as [oc|e];
      [|split; [discriminate | intros [_ [a [=]]]]].
    simpl. split.
    + intros ->. split; [reflexivity | eexists; reflexivity].
    + intros [[= ->] _]. reflexivity.
  - exists "0001327-33.2018.8.99.0158". intros DISTRICTS.
    split; reflexivity.
Qed.

Lemma isValidCNJComplete_meaning_witness :
  isValidCNJComplete ∅ "0001327-64.2018.8.26.0158" = true.
Proof.
  apply (proj1 (proj2 isValidCNJComplete_meaning) ∅
           "0001327-64.2018.8.26.0158").
  split; [reflexivity | eexists; reflexivity].
Defined.

(** ** Batches *)

Lemma nth_error_middle {A : Type} (pre : list A) (x : A) (post : list A) :
  nth_error (pre ++ x :: post)%list (length pre) = Some x.
Proof. induction pre as [|y pre IH]; [reflexivity | exact IH]. Qed.

Lemma processItem_step DISTRICTS st cnj index :
  (exists a, analyzeCNJ DISTRICTS (JS.trim cnj) = Return a /\
             processItem DISTRICTS st cnj index
             = ((fst st ++ [a])%list, snd st)) \/
  (exists err, analyzeCNJ DISTRICTS (JS.trim cnj) = Throw err /\
               processItem DISTRICTS st cnj index
               = (fst st,
                  (snd st ++ [mkCSVProcessingError (index + 1) cnj
                                (message err)])%list)).
Proof.
  destruct st as [results errs]. unfold processItem.
  destruct (analyzeCNJ DISTRICTS (JS.trim cnj)) as [a|err]; simpl; eauto.
Qed.

Lemma forEach_processItem DISTRICTS (cnjs : list string) :
  forall (rest pre : list string) st,
    cnjs = (pre ++ rest)%list ->
    Forall (item_error DISTRICTS cnjs) (snd st) ->
    let st' := forEach (processItem DISTRICTS) (Z.of_nat (length pre)) rest st in
    (length (fst st') + length (snd st')
     = length (fst st) + length (snd st) + length rest)%nat /\
    Forall (item_error DISTRICTS cnjs) (snd st').
Proof.
  induction rest as [|x rest IH]; intros pre st Hcnjs Hst; simpl.
  - split; [lia | exact Hst].
  - replace (Z.of_nat (length pre) + 1)
      with (Z.of_nat (length (pre ++ [x])%list))
      by (rewrite length_app; simpl; lia).
    assert (Hcnjs' : cnjs = ((pre ++ [x]) ++ rest)%list)
      by (rewrite <- app_assoc; exact Hcnjs).
    destruct (processItem_step DISTRICTS st x (Z.of_nat (length pre)))
      as [(a & Ha & ->) | (err & Herr & ->)].
    + destruct (IH (pre ++ [x])%list ((fst st ++ [a])%list, snd st) Hcnjs' Hst)
        as [Hlen Hall].
      split; [|exact Hall].
      rewrite Hlen. simpl. rewrite length_app. simpl. lia.
    + destruct (IH (pre ++ [x])%list
                  (fst st,
                   (snd st ++ [mkCSVProcessingError
                                 (Z.of_nat (length pre) + 1) x (message err)])%list)
                  Hcnjs') as [Hlen Hall].
      * apply List.Forall_app. split; [exact Hst|].
        constructor; [|constructor].
        split; [simpl; lia|]. split; [|exists err; split; [exact Herr | reflexivity]].
        simpl. replace (Z.to_nat (Z.of_nat (length pre) + 1 - 1)) with (length pre) by lia.
        rewrite Hcnjs. apply nth_error_middle.
      * split; [|exact Hall].
        rewrite Hlen. simpl. rewrite length_app. simpl. lia.
Qed.

Lemma filter_length_le {A : Type} (p : A -> bool) (l : list A) :
  (length (List.filter p l) <= length l)%nat.
Proof. induction l as [|x l IH]; simpl; [lia|]. destruct (p x); simpl; lia. Qed.

(** X21.  processCNJBatch accounts for every element of the array once:
    totalProcessed is the length of the array and equals validCount +
    invalidCount + the number of errors, so a failed analysis is an error
    and is not counted as invalid.  Each error carries the untrimmed
    element, its 1-based position in the array and the message of the
    error analyzeCNJ threw on the trimmed element. *)
Theorem processCNJBatch_accounts
  (DISTRICTS : Districts.Dataset) (cnjs : list string) :
  let result := processCNJBatch DISTRICTS cnjs in
  totalProcessed result = Z.of_nat (length cnjs) /\
  0 <= validCount result /\ 0 <= invalidCount result /\
  validCount result + invalidCount result
    + Z.of_nat (length (errors result)) = totalProcessed result /\
  Forall (item_error DISTRICTS cnjs) (errors result).
Proof.
  unfold processCNJBatch.
  destruct (forEach_processItem DISTRICTS cnjs cnjs [] ([], []) eq_refl
              ltac:(constructor)) as [Hlen Hall].
  simpl in Hlen, Hall. change (Z.of_nat 0) with 0 in Hlen, Hall.
  destruct (forEach (processItem DISTRICTS) 0 cnjs ([], []))
    as [results errs]. simpl in *.
  pose proof (filter_length_le validCNJ results).
  repeat split; try lia. exact Hall.
Qed.

Lemma processCNJBatch_accounts_witness :
  let result :=
    processCNJBatch ∅ [" 0001327-64.2018.8.26.0158 "; "invalid-cnj";
                       "0001327-65.2018.8.26.0158"] in
  totalProcessed result = 3 /\ validCount result = 1 /\
  invalidCount result = 1 /\
  map (fun e => (line e, cnj e)) (errors result) = [(2, "invalid-cnj")].
Proof.
  pose proof (processCNJBatch_accounts ∅
                [" 0001327-64.2018.8.26.0158 "; "invalid-cnj";
                 "0001327-65.2018.8.26.0158"]) as (Htotal & _).
  split; [exact Htotal|]. repeat split; vm_compute; reflexivity.
Defined.

Lemma processLine_step DISTRICTS separator st text index :
  let cnj := first_field separator text in
  (truthy cnj = false /\
   processLine DISTRICTS separator st text index
   = (fst st,
      (snd st ++ [mkCSVProcessingError (index + 1) text
                    "Linha vazia ou CNJ não encontrado"])%list)) \/
  (truthy cnj = true /\
   exists a, analyzeCNJ DISTRICTS cnj = Return a /\
             processLine DISTRICTS separator st text index
             = ((fst st ++ [a])%list, snd st)) \/
  (truthy cnj = true /\
   exists err, analyzeCNJ DISTRICTS cnj = Throw err /\
               processLine DISTRICTS separator st text index
               = ((fst st ++ [error_result cnj (message err)])%list,
                  (snd st ++ [mkCSVProcessingError (index + 1) cnj
                                (message err)])%list)).
Proof.
  destruct st as [results errs]. unfold processLine, first_field. simpl.
  destruct (truthy _) eqn:Ht; simpl; [|left; split; reflexivity].
  right. destruct (analyzeCNJ DISTRICTS _) as [a|err]; [left | right];
    (split; [reflexivity|]); eauto.
Qed.

Lemma count_snoc {A : Type} (p : A -> bool) (l : list A) (x : A) :
  count p (l ++ [x]) = count p l + (if p x then 1 else 0).
Proof.
  unfold count. rewrite List.filter_app, length_app. simpl.
  destruct (p x); simpl; lia.
Qed.

Lemma truthy_false s : truthy s = false <-> s = "".
Proof.
  unfold truthy. destruct (String.eqb_spec s ""); simpl; split; congruence.
Qed.

Lemma truthy_true s : truthy s = true <-> s <> "".
Proof.
  unfold truthy. destruct (String.eqb_spec s ""); simpl; split; congruence.
Qed.

Lemma count_cons {A : Type} (p : A -> bool) (x : A) (l : list A) :
  count p (x :: l) = (if p x then 1 else 0) + count p l.
Proof. unfold count. simpl. destruct (p x); simpl; lia. Qed.

Lemma forEach_processLine DISTRICTS separator (kept : list string) :
  forall (rest pre : list string) index st,
    kept = (pre ++ rest)%list ->
    index = Z.of_nat (length pre) ->
    Forall (line_error DISTRICTS separator kept) (snd st) ->
    let st' := forEach (processLine DISTRICTS separator) index rest st in
    Z.of_nat (length (fst st'))
    = Z.of_nat (length (fst st)) + count (has_cnj separator) rest /\
    Z.of_nat (length (snd st'))
    = Z.of_nat (length (snd st))
      + count (fun text => negb (has_cnj separator text)
                           || analysis_fails DISTRICTS separator text) rest /\
    count validCNJ (fst st')
    = count validCNJ (fst st)
      + count (fun text =>
                 has_cnj separator text &&
                 match analyzeCNJ DISTRICTS (first_field separator text) with
                 | Return a => validCNJ a
                 | Throw _ => false
                 end) rest /\
    Forall (line_error DISTRICTS separator kept) (snd st').
Proof.
  induction rest as [|x rest IH]; intros pre index st Hkept Hindex Hst.
  - simpl. unfold count. simpl. repeat split; try lia. exact Hst.
  - cbn [forEach]. cbv zeta.
    assert (Hkept' : kept = ((pre ++ [x]) ++ rest)%list)
      by (rewrite <- app_assoc; exact Hkept).
    assert (Hindex' : index + 1 = Z.of_nat (length (pre ++ [x])%list))
      by (rewrite length_app; simpl; lia).
    assert (Hnth : nth_error kept (Z.to_nat (index + 1 - 1)) = Some x).
    { replace (Z.to_nat (index + 1 - 1)) with (length pre) by lia.
      rewrite Hkept. apply nth_error_middle. }
    rewrite !count_cons. cbv beta.
    change (has_cnj separator x) with (truthy (first_field separator x)).
    change (analysis_fails DISTRICTS separator x)
      with (match analyzeCNJ DISTRICTS (first_field separator x) with
            | Return _ => false
            | Throw _ => true
            end).
    destruct (processLine_step DISTRICTS separator st x index)
      as [(Ht & ->) | [(Ht & a & Ha & ->) | (Ht & err & Herr & ->)]];
      cbv zeta in Ht; rewrite Ht.
    + destruct (IH (pre ++ [x])%list (index + 1)
                  (fst st,
                   (snd st ++ [mkCSVProcessingError (index + 1) x
                                 "Linha vazia ou CNJ não encontrado"])%list)
                  Hkept' Hindex') as (H1 & H2 & H3 & H4).
      * apply List.Forall_app. split; [exact Hst|].
        constructor; [|constructor].
        split; [simpl; lia|]. exists x. split; [exact Hnth|]. left.
        apply truthy_false in Ht. repeat split; assumption.
      * cbn [fst snd] in H1, H2, H3, H4. rewrite length_app in H2.
        cbn [length] in H2. cbn [negb orb andb].
        split; [lia|]. split; [lia|]. split; [lia | exact H4].
    + destruct (IH (pre ++ [x])%list (index + 1)
                  ((fst st ++ [a])%list, snd st) Hkept' Hindex' Hst)
        as (H1 & H2 & H3 & H4).
      cbn [fst snd] in H1, H2, H3, H4. rewrite length_app in H1.
      rewrite count_snoc in H3. cbn [length] in H1.
      rewrite Ha. cbn [negb orb andb].
      split; [lia|]. split; [lia|]. split; [lia | exact H4].
    + destruct (IH (pre ++ [x])%list (index + 1)
                  ((fst st ++ [error_result (first_field separator x)
                                 (message err)])%list,
                   (snd st ++ [mkCSVProcessingError (index + 1)
                                 (first_field separator x) (message err)])%list)
                  Hkept' Hindex') as (H1 & H2 & H3 & H4).
      * apply List.Forall_app. split; [exact Hst|].
        constructor; [|constructor].
        split; [simpl; lia|]. exists x. split; [exact Hnth|]. right.
        apply truthy_true in Ht. split; [exact Ht|]. split; [reflexivity|].
        exists err. split; [exact Herr | reflexivity].
      * cbn [fst snd] in H1, H2, H3, H4. rewrite length_app in H1, H2.
        rewrite count_snoc in H3. cbn [length] in H1, H2.
        change (validCNJ (error_result _ _)) with false in H3.
        cbv iota in H3.
        rewrite Herr. cbn [negb orb andb].
        split; [lia|]. split; [lia|]. split; [lia | exact H4].
Qed.

Lemma count_nonneg {A : Type} (p : A -> bool) (l : list A) : 0 <= count p l.
Proof. unfold count. lia. Qed.

Lemma count_partition {A : Type} (p q : A -> bool) (l : list A) :
  count p l + count (fun x => negb (p x) || q x) l
  = Z.of_nat (length l) + count (fun x => p x && q x) l.
Proof.
  induction l as [|x l IH]; [reflexivity|].
  rewrite !count_cons. cbn [length]. cbv beta.
  destruct (p x), (q x); cbn [negb orb andb]; lia.
Qed.

Lemma processCSV_counts
  (DISTRICTS : Districts.Dataset) (csvContent : string)
  (separator : ascii) :
  let result := processCSV DISTRICTS csvContent separator in
  let kept := kept_lines csvContent in
  totalProcessed result = Z.of_nat (length kept) /\
  0 <= validCount result /\ 0 <= invalidCount result /\
  validCount result + invalidCount result = count (has_cnj separator) kept /\
  Z.of_nat (length (errors result))
  = count (fun text => negb (has_cnj separator text)
                       || analysis_fails DISTRICTS separator text) kept /\
  validCount result + invalidCount result + Z.of_nat (length (errors result))
  = totalProcessed result
    + count (fun text => has_cnj separator text
                         && analysis_fails DISTRICTS separator text) kept /\
  Forall (line_error DISTRICTS separator kept) (errors result).
Proof.
  unfold processCSV. fold (kept_lines csvContent).
  set (kept := kept_lines csvContent).
  destruct (forEach_processLine DISTRICTS separator kept kept [] 0 ([], [])
              eq_refl eq_refl ltac:(constructor)) as (H1 & H2 & H3 & H4).
  pose proof (count_partition (has_cnj separator)
                (analysis_fails DISTRICTS separator) kept) as Hpart.
  destruct (forEach (processLine DISTRICTS separator) 0 kept ([], []))
    as [results errs].
  cbn [fst snd length] in H1, H2, H3, H4. cbv zeta.
  cbn [totalProcessed validCount invalidCount errors].
  pose proof (filter_length_le validCNJ results).
  repeat split; try lia; exact H4.
Qed.

(** X22.  processCSV counts the lines that are not blank: totalProcessed is
    their number, validCount + invalidCount is the number of those with a
    first field that is not blank, and there is one error for each line
    without such a field or whose analysis fails.  A line whose analysis
    fails is therefore counted twice, as invalid and as an error (unlike
    in processCNJBatch).  Each error points, by its line number, into the
    list of lines that are not blank, and carries either the whole line
    (no identifier) or the trimmed first field with the message of the
    error analyzeCNJ threw. *)
Theorem processCSV_accounts
  (DISTRICTS : Districts.Dataset) (csvContent : string)
  (separator : ascii) :
  let result := processCSV DISTRICTS csvContent separator in
  let kept := kept_lines csvContent in
  totalProcessed result = Z.of_nat (length kept) /\
  0 <= validCount result /\ 0 <= invalidCount result /\
  validCount result + invalidCount result = count (has_cnj separator) kept /\
  Z.of_nat (length (errors result))
  = count (fun text => negb (has_cnj separator text)
                       || analysis_fails DISTRICTS separator text) kept /\
  validCount result + invalidCount result + Z.of_nat (length (errors result))
  = totalProcessed result
    + count (fun text => has_cnj separator text
                         && analysis_fails DISTRICTS separator text) kept /\
  Forall (line_error DISTRICTS separator kept) (errors result).
Proof. exact (processCSV_counts DISTRICTS csvContent separator). Qed.

Lemma processCSV_accounts_witness :
  let result :=
    processCSV ∅ ("0001327-64.2018.8.26.0158,a" ++ LF ++ " " ++ LF
                  ++ ",b" ++ LF ++ "invalid-cnj") "," in
  totalProcessed result = 3 /\ validCount result = 1 /\
  invalidCount result = 1 /\
  map (fun e => (line e, cnj e)) (errors result)
  = [(2, ",b"); (3, "invalid-cnj")].
Proof.
  pose proof (processCSV_accounts ∅
                ("0001327-64.2018.8.26.0158,a" ++ LF ++ " " ++ LF
                 ++ ",b" ++ LF ++ "invalid-cnj") ",") as (Htotal & _).
  split; [exact Htotal|]. repeat split; vm_compute; reflexivity.
Defined.

(** ** The format check of a text *)

Lemma trimEnd_empty (s : string) :
  JS.trimEnd s = "" <-> JS.all_chars JS.is_white s = true.
Proof.
  induction s as [|c s IH]; simpl; [tauto|].
  destruct (JS.trimEnd s) as [|d t].
  - destruct (JS.is_white c); simpl.
    + split; [intros _; apply IH; reflexivity | reflexivity].
    + split; discriminate.
  - split; [discriminate|]. intros [_ H]%andb_true_iff.
    apply IH in H. discriminate.
Qed.

Lemma trimStart_white (s : string) :
  JS.all_chars JS.is_white (JS.trimStart s) = JS.all_chars JS.is_white s.
Proof.
  induction s as [|c s IH]; [reflexivity|]. simpl.
  destruct (JS.is_white c) eqn:Hc; simpl; [exact IH | rewrite Hc; reflexivity].
Qed.

Lemma trim_empty (s : string) :
  JS.trim s = "" <-> JS.all_chars JS.is_white s = true.
Proof. unfold JS.trim. rewrite trimEnd_empty, trimStart_white. tauto. Qed.

Lemma split_all_chars (p : ascii -> bool) (sep : ascii) (s : string) :
  JS.all_chars p s = true -> Forall (fun t => JS.all_chars p t = true) (JS.split sep s).
Proof.
  induction s as [|c s IH]; simpl; [repeat constructor|].
  intros [Hc Hs]%andb_true_iff. specialize (IH Hs).
  destruct (Ascii.eqb c sep); [constructor; [reflexivity | exact IH]|].
  destruct (JS.split sep s) as [|h t]; [repeat constructor; simpl; rewrite Hc; reflexivity|].
  apply Forall_cons_iff in IH as [Hh Ht].
  constructor; [simpl; rewrite Hc, Hh; reflexivity | exact Ht].
Qed.

Lemma kept_lines_blank (content : string) :
  JS.trim content = "" -> kept_lines content = [].
Proof.
  intros H%trim_empty. unfold kept_lines.
  pose proof (split_all_chars JS.is_white "010" content H) as Hall.
  induction Hall as [|t ts Ht _ IH]; [reflexivity|]. simpl.
  apply trim_empty in Ht. rewrite Ht. exact IH.
Qed.

Lemma validateCSVFormat_kept (content : string) (separator : ascii) :
  validateCSVFormat content separator = true <->
  kept_lines content <> [] /\
  Forall (fun text => first_field separator text <> "") (kept_lines content).
Proof.
  unfold validateCSVFormat. fold (kept_lines content).
  assert (Hevery : forall lines,
             forallb (fun line =>
                        (0 <? length (JS.split separator line))%nat
                        && (0 <? String.length
                                   (JS.trim (hd "" (JS.split separator line))))%nat)
               lines = true
             <-> Forall (fun text => first_field separator text <> "") lines).
  { intros lines. rewrite forallb_forall, List.Forall_forall.
    split; intros H text Hin; specialize (H text Hin); unfold first_field in *.
    - apply andb_true_iff in H as [_ H]. intros Hempty. rewrite Hempty in H.
      discriminate.
    - apply andb_true_iff. split.
      + pose proof (split_not_nil separator text).
        destruct (JS.split separator text); [congruence | reflexivity].
      + destruct (JS.trim _); [congruence | reflexivity]. }
  destruct (negb (truthy content) || (String.length (JS.trim content) =? 0)%nat)
    eqn:Hblank.
  - assert (Htrim : JS.trim content = "").
    { apply orb_true_iff in Hblank as [H | H].
      - apply negb_true_iff, truthy_false in H. subst. reflexivity.
      - apply Nat.eqb_eq in H. destruct (JS.trim content); [reflexivity | discriminate]. }
    rewrite (kept_lines_blank content Htrim).
    split; [discriminate | intros [H _]; congruence].
  - destruct (kept_lines content) as [|text texts] eqn:Hkept.
    + simpl. split; [discriminate | intros [H _]; congruence].
    + cbn [length Nat.eqb]. rewrite Hevery.
      split; [intros H; split; [discriminate | exact H] | intros [_ H]; exact H].
Qed.

(** X23.  validateCSVFormat accepts a text exactly when it has a line that
    is not blank and the first field of every such line is not blank; it
    does not look at the identifiers.  On an accepted text processCSV
    analyses every line it keeps: totalProcessed is positive and equals
    validCount + invalidCount, and every error is a failed analysis of a
    first field. *)
Theorem validateCSVFormat_meaning (content : string) (separator : ascii) :
  (validateCSVFormat content separator = true <->
   kept_lines content <> [] /\
   Forall (fun text => first_field separator text <> "") (kept_lines content)) /\
  (validateCSVFormat content separator = true ->
   forall DISTRICTS,
     let result := processCSV DISTRICTS content separator in
     0 < totalProcessed result /\
     validCount result + invalidCount result = totalProcessed result /\
     Forall (fun e => cnj e <> "" /\
                      exists err, analyzeCNJ DISTRICTS (cnj e) = Throw err /\
                                  error_text e = message err)
       (errors result)).
Proof.
  split; [apply validateCSVFormat_kept|].
  intros [Hne Hall]%validateCSVFormat_kept DISTRICTS.
  destruct (processCSV_counts DISTRICTS content separator)
    as (Htotal & _ & _ & Hsum & _ & _ & Herrors).
  cbv zeta. rewrite Htotal, Hsum. split; [|split].
  - destruct (kept_lines content); [congruence | simpl; lia].
  - unfold count. f_equal. f_equal. clear - Hall.
    induction Hall as [|text texts Htext _ IH]; [reflexivity|].
    simpl. unfold has_cnj at 1. apply truthy_true in Htext. rewrite Htext.
    f_equal. exact IH.
  - eapply List.Forall_impl; [|exact Herrors].
    intros e (_ & text & Hnth & [(Hempty & _) | (Hfield & Hcnj & err & Herr & Htext)]).
    + apply nth_error_In in Hnth.
      rewrite List.Forall_forall in Hall. destruct (Hall text Hnth Hempty).
    + rewrite Hcnj. split; [exact Hfield|]. exists err. split; assumption.
Qed.

Lemma validateCSVFormat_meaning_witness :
  let content := "0001327-64.2018.8.26.0158;x" ++ LF ++ LF
                 ++ " not a number ;y" ++ LF in
  let result := processCSV ∅ content ";" in
  0 < totalProcessed result /\
  validCount result + invalidCount result = totalProcessed result.
Proof.
  destruct (proj2 (validateCSVFormat_meaning
                     ("0001327-64.2018.8.26.0158;x" ++ LF ++ LF
                      ++ " not a number ;y" ++ LF) ";")
              ltac:(vm_compute; reflexivity) ∅) as (Hpos & Hsum & _).
  split; [exact Hpos | exact Hsum].
Defined.

(** ** Writing a table *)

Lemma escape_plain (cell : string) : plain cell -> escape cell = cell.
Proof. intros (H1 & H2 & H3). unfold escape. rewrite H1, H2, H3. reflexivity. Qed.

Lemma includes_join (c : ascii) (sep : string) (xs : list string) :
  JS.includes c sep = false ->
  Forall (fun x => JS.includes c x = false) xs ->
  JS.includes c (JSMore.join sep xs) = false.
Proof.
  intros Hsep Hall. induction Hall as [|x xs Hx Hxs IH]; [reflexivity|].
  destruct xs as [|y ys]; [exact Hx|].
  change (JSMore.join sep (x :: y :: ys))
    with (x ++ sep ++ JSMore.join sep (y :: ys)).
  rewrite !includes_app, Hx, Hsep, IH. reflexivity.
Qed.

Lemma row_not_nil (analysis : AnalysisCNJ) : row analysis <> [].
Proof. discriminate. Qed.

Lemma written_row (analysis : AnalysisCNJ) :
  Forall plain (row analysis) ->
  let text := JSMore.join "," (map escape (row analysis)) in
  JS.includes "010" text = false /\ JS.split "," text = row analysis.
Proof.
  intros Hall.
  assert (Hmap : map escape (row analysis) = row analysis).
  { induction Hall as [|x xs Hx _ IH]; [reflexivity|].
    simpl. rewrite (escape_plain x Hx), IH. reflexivity. }
  cbv zeta. rewrite Hmap. split.
  - apply includes_join; [reflexivity|].
    eapply List.Forall_impl; [|exact Hall]. intros cell (_ & _ & H). exact H.
  - apply split_join; [apply row_not_nil|].
    eapply List.Forall_impl; [|exact Hall]. intros cell (H & _). exact H.
Qed.

Lemma written_rows (analyses : list AnalysisCNJ) :
  Forall (fun analysis => Forall plain (row analysis)) analyses ->
  let texts :=
    map (fun r => JSMore.join "," (map escape r)) (map row analyses) in
  Forall (fun text => JS.includes "010" text = false) texts /\
  map (JS.split ",") texts = map row analyses.
Proof.
  intros Hall. cbv zeta.
  induction Hall as [|a l Ha _ [IH1 IH2]]; [split; [constructor | reflexivity]|].
  destruct (written_row a Ha) as [H1 H2]. cbn [map]. split.
  - constructor; [exact H1 | exact IH1].
  - rewrite H2, IH2. reflexivity.
Qed.

(** X24.  A table written by generateCSV whose cells contain no comma, no
    double quote and no line feed is read back by splitting at line feeds
    and commas: with the header the lines are the sixteen column names
    followed by the rows, without it they are the rows, provided there is
    at least one; for no analysis and no header the text is empty, which
    splits into one line with one empty cell. *)
Theorem generateCSV_read_back (analyses : list AnalysisCNJ) :
  Forall (fun analysis => Forall plain (row analysis)) analyses ->
  map (JS.split ",") (JS.split "010" (generateCSV analyses true))
  = headers :: map row analyses /\
  (analyses <> [] ->
   map (JS.split ",") (JS.split "010" (generateCSV analyses false))
   = map row analyses) /\
  map (JS.split ",") (JS.split "010" (generateCSV [] false)) = [[""]].
Proof.
  intros Hall. destruct (written_rows analyses Hall) as [Hlf Hsplit].
  cbv zeta in Hlf, Hsplit. unfold generateCSV.
  split; [|split; [|reflexivity]].
  - cbn [app]. rewrite split_join.
    + cbn [map]. rewrite Hsplit. f_equal.
    + discriminate.
    + constructor; [reflexivity | exact Hlf].
  - intros Hne. cbn [app]. rewrite split_join; [exact Hsplit | | exact Hlf].
    destruct analyses; [congruence | discriminate].
Qed.

Lemma generateCSV_read_back_witness :
  let analysis := error_result "0001327-64.2018.8.26.0158" "ERRO" in
  map (JS.split ",") (JS.split "010" (generateCSV [analysis; analysis] true))
  = [headers; row analysis; row analysis].
Proof.
  apply (proj1 (generateCSV_read_back
                  [error_result "0001327-64.2018.8.26.0158" "ERRO";
                   error_result "0001327-64.2018.8.26.0158" "ERRO"]
                  ltac:(repeat constructor))).
Defined.

Lemma forEach_processLine_keeps DISTRICTS separator texts :
  forall index st,
    exists more,
      snd (forEach (processLine DISTRICTS separator) index texts st)
      = (snd st ++ more)%list.
Proof.
  induction texts as [|text texts IH]; intros index st; simpl forEach.
  - exists []. rewrite app_nil_r. reflexivity.
  - destruct (IH (index + 1) (processLine DISTRICTS separator st text index))
      as [more ->].
    destruct (processLine_errors DISTRICTS separator st text index)
      as [-> | (e & _ & ->)]; [exists more; reflexivity|].
    exists (e :: more). rewrite <- app_assoc. reflexivity.
Qed.

(** X25.  processCSV does not know about header lines: when the text
    generateCSV writes with its header is read by processCSV, the header
    line is line 1 of the result, it is counted in totalProcessed and as
    invalid, and the first error reports the name of the first column,
    CNJ_original, as an identifier of the wrong length. *)
Theorem processCSV_reads_the_header_as_a_line
  (DISTRICTS : Districts.Dataset)
  (analyses : list AnalysisCNJ) :
  let result := processCSV DISTRICTS (generateCSV analyses true) "," in
  1 <= totalProcessed result /\
  1 <= invalidCount result /\
  exists e,
    hd_error (errors result) = Some e /\
    line e = 1 /\ cnj e = "CNJ_original" /\
    error_text e = message (invalidLength "CNJ_original" 20).
Proof.
  set (header := JSMore.join "," headers).
  assert (Hsplit : exists rest,
             JS.split "010" (generateCSV analyses true) = header :: rest).
  { unfold generateCSV. cbn [app]. fold header.
    destruct (map _ (map row analyses)) as [|text texts].
    - exists []. reflexivity.
    - rewrite join_cons, append_char. eexists.
      apply (split_app_sep "010" header). reflexivity. }
  destruct Hsplit as [rest Hsplit].
  unfold processCSV. rewrite Hsplit.
  assert (Hkept : List.filter (fun line => truthy (JS.trim line)) (header :: rest)
                  = header :: List.filter (fun line => truthy (JS.trim line)) rest)
    by reflexivity.
  rewrite Hkept. set (kept := List.filter _ rest).
  cbn [forEach].
  assert (Hfirst : processLine DISTRICTS "," ([], []) header 0
                   = ([error_result "CNJ_original"
                         (message (invalidLength "CNJ_original" 20))],
                      [mkCSVProcessingError 1 "CNJ_original"
                         (message (invalidLength "CNJ_original" 20))]))
    by reflexivity.
  rewrite Hfirst.
  destruct (forEach_processLine_keeps DISTRICTS "," kept (0 + 1)
              ([error_result "CNJ_original"
                  (message (invalidLength "CNJ_original" 20))],
               [mkCSVProcessingError 1 "CNJ_original"
                  (message (invalidLength "CNJ_original" 20))]))
    as [more Hmore].
  destruct (forEach_processLine DISTRICTS "," (header :: kept) kept [header]
              (0 + 1)
              ([error_result "CNJ_original"
                  (message (invalidLength "CNJ_original" 20))],
               [mkCSVProcessingError 1 "CNJ_original"
                  (message (invalidLength "CNJ_original" 20))])
              eq_refl eq_refl) as (H1 & _ & H3 & _).
  { constructor; [|constructor]. split; [simpl; lia|].
    exists header. split; [reflexivity|]. right.
    split; [discriminate|]. split; [reflexivity|].
    exists (invalidLength "CNJ_original" 20). split; reflexivity. }
  destruct (forEach (processLine DISTRICTS ",") (0 + 1) kept _)
    as [results errs].
  cbn [fst snd] in Hmore, H1, H3. subst errs.
  cbv zeta. cbn [totalProcessed invalidCount errors length].
  change (count validCNJ [error_result "CNJ_original"
                            (message (invalidLength "CNJ_original" 20))])
    with 0 in H3.
  pose proof (count_nonneg (has_cnj ",") kept).
  pose proof (filter_length_le
                (fun text =>
                   has_cnj "," text &&
                   match analyzeCNJ DISTRICTS (first_field "," text) with
                   | Return a => validCNJ a
                   | Throw _ => false
                   end) kept) as Hle.
  assert (Himp : count (fun text =>
                   has_cnj "," text &&
                   match analyzeCNJ DISTRICTS (first_field "," text) with
                   | Return a => validCNJ a
                   | Throw _ => false
                   end) kept <= count (has_cnj ",") kept).
  { clear. induction kept as [|x l IH]; [reflexivity|].
    rewrite !count_cons. cbv beta. destruct (has_cnj "," x); simpl; [|lia].
    destruct (match analyzeCNJ DISTRICTS (first_field "," x) with
              | Return a => validCNJ a
              | Throw _ => false
              end); lia. }
  unfold count in *. cbn [length] in H1.
  split; [lia|]. split; [lia|].
  eexists. split; [reflexivity|]. repeat split.
Qed.

(** ** The check of the six fields *)

Lemma validateCNJComponents_accepts (c : Components) :
  validateCNJComponents c = Return tt <->
  digits_of_length 7 (c_lawsuitNumber c) /\
  digits_of_length 2 (c_verifyingDigit c) /\
  digits_of_length 4 (c_protocolYear c) /\
  digits_of_length 1 (c_segment c) /\
  digits_of_length 2 (c_court c) /\
  digits_of_length 4 (c_sourceUnit c).
Proof.
  split; [apply validateCNJComponents_return|].
  intros (Ha & Hb & Hc & Hd & He & Hf).
  apply test_digits_spec in Ha, Hb, Hc, Hd, He, Hf.
  destruct c as [a b c d e f]. unfold validateCNJComponents. simpl in *.
  rewrite Ha, Hb, Hc, Hd, He, Hf. reflexivity.
Qed.

Lemma compact_slices_validated (n : string) :
  digits_of_length 20 n -> validateCNJComponents (compact_slices n) = Return tt.
Proof.
  intros [Hlen Hn]. apply validateCNJComponents_accepts.
  do 20 (destruct n as [|? n]; [discriminate Hlen|]).
  destruct n; [|discriminate Hlen]. clear Hlen. digit_hyps.
  repeat split; digits_goal.
Qed.

Lemma Return_eq {A : Type} (x y : A) : Return x = Return y -> x = y.
Proof. congruence. Qed.

(** X26.  validateCNJComponents accepts six fields exactly when they are 7,
    2, 4, 1, 2 and 4 decimal digits, and its failures are InvalidFormat
    errors.  Put behind decomposeCNJ it accepts exactly two kinds of
    identifier: the strings of 20 decimal digits and the masks
    NNNNNNN-DD.AAAA.J.TR.OOOO written around 20 decimal digits. *)
Theorem validated_identifiers :
  (forall c,
      validateCNJComponents c = Return tt <->
      digits_of_length 7 (c_lawsuitNumber c) /\
      digits_of_length 2 (c_verifyingDigit c) /\
      digits_of_length 4 (c_protocolYear c) /\
      digits_of_length 1 (c_segment c) /\
      digits_of_length 2 (c_court c) /\
      digits_of_length 4 (c_sourceUnit c)) /\
  (forall c e, validateCNJComponents c = Throw e -> type e = INVALID_FORMAT) /\
  (forall DISTRICTS cnj d,
      decomposeCNJ DISTRICTS cnj = Return d ->
      (validateCNJComponents (components_of d) = Return tt <->
       digits_of_length 20 cnj \/
       exists n, digits_of_length 20 n /\ cnj = mask_of n)).
Proof.
  split; [exact validateCNJComponents_accepts|]. split.
  - intros [a b c d e f] err. unfold validateCNJComponents.
    repeat match goal with
           | |- context [negb (test_digits ?n ?s)] =>
               destruct (test_digits n s); simpl; [|intros [= <-]; reflexivity]
           end.
    discriminate.
  - intros DISTRICTS cnj d Hd. split.
    + intros Hv.
      apply decomposeCNJ_cases in Hd
        as [_ [(Hno & Hlen & ->) | (_ & c & Hm & ->)]];
        rewrite components_of_build in Hv.
      * left. split; [exact Hlen|].
        rewrite <- (compact_slices_concat cnj Hlen).
        apply validateCNJComponents_return in Hv
          as ([_ Ha] & [_ Hb] & [_ Hc] & [_ Hd] & [_ He] & [_ Hf]).
        unfold compact_slices in Ha, Hb, Hc, Hd, He, Hf.
        cbn [c_lawsuitNumber c_verifyingDigit c_protocolYear c_segment
               c_court c_sourceUnit] in Ha, Hb, Hc, Hd, He, Hf.
        do 5 (apply all_digits_app; split; [assumption|]). assumption.
      * right. destruct (validated_mask_text c Hv) as [Hdig Hmask].
        eexists. split; [exact Hdig|]. rewrite Hmask. apply Hm.
    + intros [Hdig | (n & Hdig & ->)].
      * pose proof Hdig as [Hlen Hall].
        rewrite (decomposeCNJ_compact DISTRICTS cnj
                   (includes_digits "-" cnj eq_refl Hall) Hlen) in Hd.
        apply Return_eq in Hd. subst d. rewrite components_of_build.
        apply compact_slices_validated, Hdig.
      * pose proof (compact_slices_validated n Hdig) as Hv.
        pose proof Hdig as [Hlen Hall].
        destruct (normalizeCNJ_mask_of n Hlen Hall) as [_ H25].
        rewrite (decomposeCNJ_masked DISTRICTS (mask_of n) (compact_slices n))
          in Hd; [| lia | exact (validated_is_masked _ Hv)].
        apply Return_eq in Hd. subst d. rewrite components_of_build. exact Hv.
Qed.

Lemma validated_identifiers_witness :
  validateCNJComponents
    (mkComponents "0001327" "64" "2018" "8" "26" "0158") = Return tt /\
  (exists n, digits_of_length 20 n /\ "0001327-64.2018.8.26.0158" = mask_of n).
Proof.
  destruct validated_identifiers as (_ & _ & H).
  destruct (H ∅ "0001327-64.2018.8.26.0158" _ eq_refl) as [Hto _].
  split; [reflexivity|].
  destruct (Hto eq_refl) as [[Hlen _] | Hmask]; [discriminate Hlen | exact Hmask].
Defined.

(** ** The widths of the decomposed fields, from the input (C5) *)

Lemma five_fields_build DISTRICTS (c : Components) :
  five_fields (buildDecomposedCNJ DISTRICTS c)
  = c_lawsuitNumber c ++ c_protocolYear c ++ c_segment c ++ c_court c
      ++ c_sourceUnit c /\
  argNumber (buildDecomposedCNJ DISTRICTS c)
  = five_fields (buildDecomposedCNJ DISTRICTS c) ++ "00".
Proof.
  destruct c as [a b y s ct u]. split; [reflexivity|].
  unfold five_fields.
  change (argNumber (buildDecomposedCNJ DISTRICTS (mkComponents a b y s ct u)))
    with (a ++ y ++ s ++ ct ++ u ++ "00").
  cbn [lawsuitNumber protocolYear segment court sourceUnit
         buildDecomposedCNJ].
  rewrite !append_assoc. reflexivity.
Qed.

Lemma eighteen_and_twenty (s : string) :
  digits_of_length 18 s /\ digits_of_length 20 (s ++ "00")
  <-> digits_of_length 18 s.
Proof.
  split; [intros [H _]; exact H|]. intros H. split; [exact H|].
  change 20%nat with (18 + 2)%nat.
  apply digits_of_length_app; [exact H | split; reflexivity].
Qed.

Lemma compact_five_fields (cnj : string) :
  String.length cnj = 20%nat ->
  JS.substring 0 7 cnj ++ JS.substring 9 13 cnj ++ JS.substring 13 14 cnj
    ++ JS.substring 14 16 cnj ++ JS.substring 16 20 cnj
  = JS.substring 0 7 cnj ++ JS.substring 9 20 cnj /\
  String.length (JS.substring 0 7 cnj ++ JS.substring 9 20 cnj) = 18%nat.
Proof.
  intros Hlen.
  do 20 (destruct cnj as [|? cnj]; [discriminate Hlen|]).
  destruct cnj; [split; reflexivity | discriminate Hlen].
Qed.

(** C5, amended.  For every input that is 20 decimal digits, or the mask
    NNNNNNN-DD.AAAA.J.TR.OOOO written around 20 decimal digits,
    decomposeCNJ returns, the five fields other than the verifying digit
    concatenate to exactly 18 decimal digits and argNumber is exactly 20
    decimal digits.  For the other inputs on which decomposeCNJ returns
    this depends on the input alone.  For a compact input the
    concatenation always has 18 characters and argNumber 20, and they are
    digits exactly when the characters of the input other than the two at
    the place of the verifying digit are.  For a masked input A-B.C.D.E.F
    they are 18 and 20 digits exactly when A, C, D, E and F together are
    18 decimal digits, whatever B is and however the digits are spread
    over the parts. *)
Theorem digit_inputs_decompose_to_18_digits (DISTRICTS : Districts.Dataset) :
  (forall n cnj,
      digits_of_length 20 n -> cnj = n \/ cnj = mask_of n ->
      exists d, decomposeCNJ DISTRICTS cnj = Return d /\
                digits_of_length 18 (five_fields d) /\
                digits_of_length 20 (argNumber d)) /\
  (forall cnj d,
      decomposeCNJ DISTRICTS cnj = Return d ->
      JS.includes "-" cnj = false ->
      String.length (five_fields d) = 18%nat /\
      String.length (argNumber d) = 20%nat /\
      (digits_of_length 18 (five_fields d) /\
       digits_of_length 20 (argNumber d) <->
       all_digits (JS.substring 0 7 cnj ++ JS.substring 9 20 cnj))) /\
  (forall cnj d,
      decomposeCNJ DISTRICTS cnj = Return d ->
      JS.includes "-" cnj = true ->
      exists c,
        masked cnj c /\
        (digits_of_length 18 (five_fields d) /\
         digits_of_length 20 (argNumber d) <->
         digits_of_length 18
           (c_lawsuitNumber c ++ c_protocolYear c ++ c_segment c
              ++ c_court c ++ c_sourceUnit c))).
Proof.
  split; [|split].
  - intros n cnj Hdig Hcnj.
    pose proof (compact_slices_validated n Hdig) as Hv.
    pose proof Hdig as [Hlen Hall].
    exists (buildDecomposedCNJ DISTRICTS (compact_slices n)). split.
    + destruct Hcnj as [-> | ->].
      * apply decomposeCNJ_compact;
          [apply includes_digits; [reflexivity | exact Hall] | exact Hlen].
      * destruct (normalizeCNJ_mask_of n Hlen Hall) as [_ H25].
        apply decomposeCNJ_masked; [lia | exact (validated_is_masked _ Hv)].
    + destruct (five_fields_digits DISTRICTS (compact_slices n) Hv)
        as (H18 & _ & Harg).
      split; [exact H18|]. rewrite Harg.
      apply eighteen_and_twenty, H18.
  - intros cnj d Hd Hno.
    apply decomposeCNJ_cases in Hd
      as [_ [(_ & Hlen & ->) | (Hinc & _)]]; [|congruence].
    destruct (five_fields_build DISTRICTS (compact_slices cnj))
      as [Hfive Harg].
    destruct (compact_five_fields cnj Hlen) as [Hcut H18].
    unfold compact_slices in Hfive at 2 3 4 5 6.
    cbn [c_lawsuitNumber c_protocolYear c_segment c_court c_sourceUnit]
      in Hfive.
    rewrite Hcut in Hfive. rewrite Harg, Hfive.
    split; [exact H18|].
    split; [rewrite length_append, H18; reflexivity|].
    rewrite eighteen_and_twenty. unfold digits_of_length. tauto.
  - intros cnj d Hd Hinc.
    apply decomposeCNJ_cases in Hd
      as [_ [(Hno & _) | (_ & c & Hm & ->)]]; [congruence|].
    exists c. split; [exact Hm|].
    destruct (five_fields_build DISTRICTS c) as [Hfive Harg].
    rewrite Harg, Hfive. apply eighteen_and_twenty.
Qed.

Lemma digit_inputs_decompose_to_18_digits_witness :
  (exists d, decomposeCNJ ∅ "0001327-64.2018.8.26.0158" = Return d /\
             digits_of_length 18 (five_fields d) /\
             digits_of_length 20 (argNumber d)) /\
  (exists d, decomposeCNJ ∅ "0001327-XX.2018.8.26.0158" = Return d /\
             digits_of_length 18 (five_fields d) /\
             digits_of_length 20 (argNumber d)).
Proof.
  destruct (digit_inputs_decompose_to_18_digits ∅) as (Hdigits & _ & Hmasked).
  split.
  - apply (Hdigits "00013276420188260158");
      [split; reflexivity | right; reflexivity].
  - eexists. split; [reflexivity|].
    destruct (Hmasked "0001327-XX.2018.8.26.0158" _ eq_refl eq_refl)
      as (c & Hm & Hiff).
    apply Hiff.
    pose proof (decomposeCNJ_masked ∅ "0001327-XX.2018.8.26.0158" c
                  ltac:(simpl; lia) Hm) as Hdec.
    assert (H0 : decomposeCNJ ∅ "0001327-XX.2018.8.26.0158"
                 = Return (buildDecomposedCNJ ∅
                             (mkComponents "0001327" "XX" "2018" "8" "26"
                                "0158")))
      by reflexivity.
    rewrite H0 in Hdec. apply Return_eq in Hdec.
    apply (f_equal components_of) in Hdec.
    rewrite !components_of_build in Hdec. subst c. split; reflexivity.
Defined.

(** ** The two batch functions *)

Lemma forEach_processItem_batch DISTRICTS :
  forall (cnjs : list string) index st,
    let out := analyzeCNJBatch DISTRICTS (map JS.trim cnjs) in
    let st' := forEach (processItem DISTRICTS) index cnjs st in
    fst st' = (fst st ++ analyses_of out)%list /\
    map (fun e => (error_text e, JS.trim (cnj e))) (snd st')
    = (map (fun e => (error_text e, JS.trim (cnj e))) (snd st)
       ++ failures_of out)%list.
Proof.
  induction cnjs as [|x cnjs IH]; intros index st; cbv zeta.
  - simpl. rewrite !app_nil_r. split; reflexivity.
  - cbn [forEach]. destruct (IH (index + 1) (processItem DISTRICTS st x index))
      as [H1 H2]. rewrite H1, H2. clear H1 H2 IH.
    unfold analyzeCNJBatch, analyses_of, failures_of. cbn [map flat_map].
    destruct (processItem_step DISTRICTS st x index)
      as [(a & Ha & ->) | (err & Herr & ->)]; cbn [fst snd].
    + rewrite Ha. cbn [app]. rewrite <- app_assoc. split; reflexivity.
    + rewrite Herr. rewrite map_app, <- app_assoc. split; reflexivity.
Qed.

(** X27.  processCNJBatch and analyzeCNJBatch agree once the elements are
    trimmed: analyzeCNJBatch returns one entry for each element, and the
    counts of processCNJBatch are those of the analyses among the entries
    for the trimmed elements, its errors their failures, in the same
    order and with the same messages. *)
Theorem batch_functions_agree
  (DISTRICTS : Districts.Dataset) (cnjs : list string) :
  let result := processCNJBatch DISTRICTS cnjs in
  let out := analyzeCNJBatch DISTRICTS (map JS.trim cnjs) in
  length (analyzeCNJBatch DISTRICTS cnjs) = length cnjs /\
  validCount result = count validCNJ (analyses_of out) /\
  invalidCount result
  = count (fun a => negb (validCNJ a)) (analyses_of out) /\
  map (fun e => (error_text e, JS.trim (cnj e))) (errors result)
  = failures_of out.
Proof.
  cbv zeta. split; [apply length_map|].
  unfold processCNJBatch.
  destruct (forEach_processItem_batch DISTRICTS cnjs 0 ([], [])) as [H1 H2].
  destruct (forEach (processItem DISTRICTS) 0 cnjs ([], []))
    as [results errs].
  cbn [fst snd map app] in H1, H2. subst results.
  cbn [validCount invalidCount errors].
  split; [reflexivity|]. split; [|exact H2].
  generalize (analyses_of (analyzeCNJBatch DISTRICTS (map JS.trim cnjs))).
  intros l. fold (count validCNJ l).
  induction l as [|a l IH]; [reflexivity|].
  rewrite !count_cons. cbn [length]. cbv beta.
  destruct (validCNJ a); cbn [negb]; lia.
Qed.

Lemma batch_functions_agree_witness :
  let cnjs := [" 0001327-64.2018.8.26.0158 "; "invalid-cnj"] in
  validCount (processCNJBatch ∅ cnjs) = 1 /\
  failures_of (analyzeCNJBatch ∅ cnjs)
  = [(message (invalidLength " 0001327-64.2018.8.26.0158 " 20),
      " 0001327-64.2018.8.26.0158 ");
     (message (invalidLength "invalid-cnj" 20), "invalid-cnj")].
Proof.
  destruct (batch_functions_agree ∅
              [" 0001327-64.2018.8.26.0158 "; "invalid-cnj"])
    as (_ & Hvalid & _).
  split; [rewrite Hvalid|]; vm_compute; reflexivity.
Defined.

(** ** The court code of a decomposition *)

Lemma digit_prefix_digits (s : string) (acc : Z) :
  all_digits s ->
  JS.digit_prefix acc true s
  = Some (fold_left (fun a c => 10 * a + JS.digit_value c)
            (list_ascii_of_string s) acc).
Proof.
  revert acc. induction s as [|c s IH]; intros acc Hs; [reflexivity|].
  apply all_digits_cons in Hs as [Hc Hs]. simpl. rewrite Hc. apply IH, Hs.
Qed.

Lemma parseInt_digits (s : string) :
  all_digits s -> s <> EmptyString -> JS.parseInt s = Some (decimal_value s).
Proof.
  intros Hs Hne. unfold JS.parseInt. rewrite (trimStart_digits s Hs).
  destruct s as [|c s]; [congruence|].
  apply all_digits_cons in Hs as [Hc Hs].
  destruct (digit_facts c Hc) as (_ & _ & _ & -> & _ & -> & _).
  simpl. rewrite Hc. apply digit_prefix_digits, Hs.
Qed.

Lemma digit_cases (c : ascii) :
  JS.is_digit c = true ->
  In c ["0"; "1"; "2"; "3"; "4"; "5"; "6"; "7"; "8"; "9"]%char.
Proof.
  each_ascii c; vm_compute; intros H; try discriminate H; tauto.
Qed.

Lemma getSegment_of_digit (s : string) :
  digits_of_length 1 s ->
  (s = "0" /\ getSegment s = None) \/
  (s <> "0" /\ exists seg, getSegment s = Some seg /\ short seg <> "").
Proof.
  intros [Hlen Hs]. destruct s as [|c [|? ?]]; try discriminate Hlen.
  apply all_digits_cons in Hs as [Hc _].
  apply digit_cases in Hc. simpl in Hc.
  destruct Hc as [<- | Hc]; [left; split; reflexivity|].
  right. repeat destruct Hc as [<- | Hc]; try contradiction;
    (split; [discriminate|]; eexists; split; [vm_compute; reflexivity|];
     discriminate).
Qed.

(** X28.  The court code tj of an identifier whose six fields are digits of
    the expected widths is empty exactly when the segment digit is 0.
    Otherwise it is the short name of the segment followed, for segments
    1, 2, 3, 4 and 7, by the court number without its leading zero, and
    for the other segments by the uf field of the decomposition, the
    state found in the district table. *)
Theorem tj_code
  (DISTRICTS : Districts.Dataset) (cnj : string)
  (d : DecomposedCNJ) :
  decomposeCNJ DISTRICTS cnj = Return d ->
  validateCNJComponents (components_of d) = Return tt ->
  (tj d = "" <-> segment d = "0") /\
  (forall seg,
      getSegment (segment d) = Some seg ->
      (In (number seg) [1; 2; 3; 4; 7] ->
       tj d = short seg ++ JS.toString (decimal_value (court d))) /\
      (~ In (number seg) [1; 2; 3; 4; 7] -> tj d = short seg ++ uf d)).
Proof.
  intros [c ->]%decomposeCNJ_return Hv.
  rewrite components_of_build in Hv.
  apply validateCNJComponents_return in Hv as (_ & _ & _ & Hs & Hct & _).
  destruct c as [a b y s ct u]. cbn [c_segment c_court] in Hs, Hct.
  assert (Hparse : JS.parseInt ct = Some (decimal_value ct)).
  { destruct Hct as [Hlen Hct]. apply parseInt_digits; [exact Hct|].
    intros ->. discriminate Hlen. }
  change (segment (buildDecomposedCNJ DISTRICTS (mkComponents a b y s ct u)))
    with s.
  change (court (buildDecomposedCNJ DISTRICTS (mkComponents a b y s ct u)))
    with ct.
  change (tj (buildDecomposedCNJ DISTRICTS (mkComponents a b y s ct u)))
    with (generateTJCode s ct
            (uf (buildDecomposedCNJ DISTRICTS (mkComponents a b y s ct u)))
            (getSegment s)).
  set (state := uf _). unfold generateTJCode. rewrite Hparse. split.
  - destruct (getSegment_of_digit s Hs) as [[-> ->] | (Hne & seg & -> & Hshort)];
      [split; reflexivity|].
    split; [|congruence]. intros H. exfalso.
    destruct (short seg) as [|? ?]; [congruence|].
    destruct (existsb _ _); discriminate H.
  - intros seg ->. split.
    + intros Hin. replace (existsb _ _) with true; [reflexivity|].
      symmetry. apply existsb_exists. exists (number seg).
      split; [exact Hin | apply Z.eqb_refl].
    + intros Hout. replace (existsb _ _) with false; [reflexivity|].
      symmetry. apply not_true_iff_false. intros (x & Hin & Hx)%existsb_exists.
      apply Z.eqb_eq in Hx. subst x. contradiction.
Qed.

Lemma tj_code_witness :
  exists d,
    decomposeCNJ ∅ "0001327-64.2018.4.04.0158" = Return d /\
    tj d = "TRF4".
Proof.
  eexists. split; [reflexivity|].
  destruct (tj_code ∅ "0001327-64.2018.4.04.0158" _ eq_refl eq_refl)
    as [_ H].
  destruct (H _ eq_refl) as [Hin _]. rewrite Hin; [reflexivity|].
  simpl. tauto.
Defined.
